(** * Position lifecycle and risk governance of the Fibonacci trading bot

    A shallow embedding of [safety_validator.py], [position_recovery.py],
    [trading_decision_logger.py], the pure helpers of [claude_supervisor.py]
    and the position-keeping part of [live_trading_bot.py], followed by the
    properties of the exposure caps, the averaging arithmetic, the
    adjustment policy and crash recovery.

    Numbers.  Python floats (and the ints mixed with them) are embedded as
    exact rationals [Q]; comparisons are the boolean tests the code performs.
    Equalities between computed numbers are stated with [==] (equality of
    rationals), which is the "within floating tolerance" reading.

    Dictionaries.  A Python dict with a fixed vocabulary of keys is a record
    whose fields are [option]s ([None] = key absent); [d.get(k, v)] is
    [default v (k d)], [d[k]] raises [KeyError] on an absent key.  The
    validator's per-day ledger, keyed by an ISO date, is a [gmap].

    Effects.  Methods that can raise return a [result]; the methods of the
    validator, which owns mutable state, run in a state-and-exception monad
    over that state; [enter_position], which writes to the bot before its
    last call raises, returns the bot as it left it together with what it
    returned or raised; clock reads and the answers of the exchange and of
    the advisor are parameters. *)

From Stdlib Require Import QArith Lqa Sorted.
From stdpp Require Import gmap strings list pretty.

Local Open Scope Q_scope.

(** ** Comparisons on floats *)

Definition Qleb (x y : Q) : bool := Qle_bool x y.
Definition Qltb (x y : Q) : bool := negb (Qle_bool y x).
Definition Qgtb (x y : Q) : bool := Qltb y x.
Definition Qeqb (x y : Q) : bool := Qeq_bool x y.

(** [min(x, y)] and [max(x, y)] *)
Definition pymin (x y : Q) : Q := if Qleb x y then x else y.
Definition pymax (x y : Q) : Q := if Qleb x y then y else x.

(** ** Python exceptions as an error monad *)

Inductive exn : Type :=
| KeyError (key : string)
| TypeError
| ValueError
| ZeroDivisionError.

Inductive result (A : Type) : Type :=
| Ok (a : A)
| Raise (e : exn).
Arguments Ok {A} a.
Arguments Raise {A} e.

Definition rbind {A B} (m : result A) (k : A -> result B) : result B :=
  match m with
  | Ok a => k a
  | Raise e => Raise e
  end.

Notation "'let!' x ':=' m 'in' k" := (rbind m (fun x => k))
  (at level 10, x name, m at level 100, k at level 200).

(** [d[k]] on a dict whose key may be absent. *)
Definition subscript {A} (key : string) (field : option A) : result A :=
  match field with
  | Some a => Ok a
  | None => Raise (KeyError key)
  end.

(** [a / b] on floats: Python raises on a zero divisor. *)
Definition pydiv (a b : Q) : result Q :=
  if Qeqb b 0 then Raise ZeroDivisionError else Ok (a / b).

(** ** Dictionaries exchanged between the components *)

(** The advisor's decision: [{'decision', 'size_or_amount', ...}]. *)
Record Decision : Type := mkDecision {
  decision : string;
  size_or_amount : option Q;
  reasoning : string;
  confidence : option Q
}.

(** [d.copy(); d['size_or_amount'] = v] *)
Definition with_size_or_amount (d : Decision) (v : Q) : Decision :=
  {| decision := decision d; size_or_amount := Some v;
     reasoning := reasoning d; confidence := confidence d |}.

(** A position dict.  All of [self.position], the recovered position, the
    saved ['position'] entry and the validator's [current_position] are
    dicts over these keys. *)
Module Position.

Record t : Type := mk {
  entry_price : option Q;
  average_price : option Q;
  size : option Q;
  leverage : option Q;
  entry_time : option string;
  scale_in_count : option nat;
  capital_used : option Q
}.

(** Truth value of a dict: an empty dict is falsy. *)
Definition truthy (p : t) : bool :=
  match entry_price p, average_price p, size p, leverage p,
        entry_time p, scale_in_count p, capital_used p with
  | None, None, None, None, None, None, None => false
  | _, _, _, _, _, _, _ => true
  end.

(** [position['average_price'] = v] *)
Definition set_average_price (p : t) (v : Q) : t :=
  {| entry_price := entry_price p; average_price := Some v;
     size := size p; leverage := leverage p; entry_time := entry_time p;
     scale_in_count := scale_in_count p; capital_used := capital_used p |}.

End Position.

(** Truth value of a float (or of a missing value): [0] and [None] are falsy. *)
Definition float_truthy (x : option Q) : bool :=
  match x with
  | Some v => negb (Qeqb v 0)
  | None => false
  end.

(** ** safety_validator.py *)

Module SafetyValidator.

Definition MIN_LIQUID_RESERVE : Q := 6 # 100.
Definition MAX_CAPITAL_USAGE : Q := 94 # 100.
Definition MAX_LEVERAGE : Q := 5.
Definition MAX_TOTAL_NOTIONAL : Q := 5.
Definition MIN_LIQUIDATION_BUFFER : Q := 30 # 100.
Definition MIN_POSITION_SIZE : Q := 25 # 100.
Definition MAX_POSITION_SIZE : Q := 75 # 100.
Definition MAX_ADJUSTMENTS_PER_DAY : nat := 3.
Definition MAX_ADD_PER_REVIEW : Q := 5 # 100.

(** One entry of the per-day ledger. *)
Record Adjustment : Type := mkAdjustment {
  adj_time : string;
  adj_action : string;
  adj_amount : Q
}.

(** The validator object: [adjustment_log] and [last_adjustment_time]. *)
Record t : Type := mk {
  adjustment_log : gmap string (list Adjustment);
  last_adjustment_time : Q
}.

(** [__init__] *)
Definition init : t :=
  {| adjustment_log := ∅; last_adjustment_time := 0 |}.

(** Methods of the validator: they read and write [self] and may raise; what
    was written before an exception stays written. *)
Definition M (A : Type) : Type := t -> result A * t.

Definition ret {A} (a : A) : M A := fun self => (Ok a, self).

Definition bind {A B} (m : M A) (k : A -> M B) : M B :=
  fun self =>
    match m self with
    | (Ok a, self') => k a self'
    | (Raise e, self') => (Raise e, self')
    end.

Definition lift {A} (r : result A) : M A := fun self => (r, self).

(** [self.attr] *)
Definition gets {A} (attr : t -> A) : M A := fun self => (Ok (attr self), self).

(** [self.adjustment_log = v] and [self.last_adjustment_time = v] *)
Definition set_adjustment_log (v : gmap string (list Adjustment)) : M unit :=
  fun self =>
    (Ok tt, {| adjustment_log := v;
               last_adjustment_time := last_adjustment_time self |}).

Definition set_last_adjustment_time (v : Q) : M unit :=
  fun self =>
    (Ok tt, {| adjustment_log := adjustment_log self;
               last_adjustment_time := v |}).

Notation "x <- m ;; k" := (bind m (fun x => k))
  (at level 100, m at next level, right associativity).

(** The message of a verdict.  The Python code formats some of them with
    the numbers involved; only the message kind is kept. *)
Inductive Reason : Type :=
| BelowMinimum
| CappedAtMaximum
| NoCapitalAvailable
| ReducedForLiquidReserve
| AlreadyAtNotionalLimit
| ReducedToFitNotional
| LeverageExceedsMaximum
| TradeApproved
| DailyLimitReached
| MustWait
| CappedAtMaxAdd
| WouldExceedNotional
| BlockedReduceInLoss
| CappedAtMaxReduce
| AdjustmentApproved
| ExitOutsideRange
| ExitApproved.

(** [(approved, reason, adjusted_decision)] *)
Definition Verdict : Type := (bool * Reason * option Decision)%type.

Definition approved (v : Verdict) : bool := fst (fst v).
Definition adjusted (v : Verdict) : option Decision := snd v.

(** [_calculate_current_notional] *)
Definition _calculate_current_notional (position : option Position.t) : Q :=
  match position with
  | Some p =>
      if negb (Position.truthy p) || Qeqb (default 0 (Position.size p)) 0
      then 0
      else
        let leverage := default 1 (Position.leverage p) in
        let capital_pct := default (80 # 100) (Position.capital_used p) in
        capital_pct * leverage
  | None => 0
  end.

(** [_calculate_roi]: leveraged return, as a percentage. *)
Definition _calculate_roi (position : Position.t) (current_price : Q) : Q :=
  if negb (Position.truthy position)
     || negb (float_truthy (Position.average_price position))
  then 0
  else
    let avg_entry := default 0 (Position.average_price position) in
    let leverage := default 1 (Position.leverage position) in
    let price_change := (current_price - avg_entry) / avg_entry in
    let roi := price_change * leverage in
    roi * 100.

(** [validate_entry]; [account_info] is not read by the code. *)
Definition validate_entry (dec : Decision)
    (current_position : option Position.t) : M Verdict :=
  let size := default 0 (size_or_amount dec) in
  let leverage : Q := 3 in
  if Qltb size MIN_POSITION_SIZE then
    ret (false, BelowMinimum, None)
  else if Qgtb size MAX_POSITION_SIZE then
    ret (true, CappedAtMaximum,
         Some (with_size_or_amount dec MAX_POSITION_SIZE))
  else
    current_deployed <-
      lift match current_position with
           | Some p =>
               if Position.truthy p then subscript "size" (Position.size p)
               else Ok 0
           | None => Ok 0
           end ;;
    let total_deployed := current_deployed + size in
    if Qgtb total_deployed MAX_CAPITAL_USAGE then
      let max_allowed := MAX_CAPITAL_USAGE - current_deployed in
      if Qleb max_allowed 0 then ret (false, NoCapitalAvailable, None)
      else ret (true, ReducedForLiquidReserve,
                Some (with_size_or_amount dec max_allowed))
    else
      let current_notional := _calculate_current_notional current_position in
      let new_notional := size * leverage in
      let total_notional := current_notional + new_notional in
      if Qgtb total_notional MAX_TOTAL_NOTIONAL then
        let allowed_notional := MAX_TOTAL_NOTIONAL - current_notional in
        if Qleb allowed_notional 0 then ret (false, AlreadyAtNotionalLimit, None)
        else
          let safe_size := allowed_notional / leverage in
          ret (true, ReducedToFitNotional,
               Some (with_size_or_amount dec safe_size))
      else if Qgtb leverage MAX_LEVERAGE then
        ret (false, LeverageExceedsMaximum, None)
      else ret (true, TradeApproved, Some dec).

(** Check 3 of [validate_adjustment]: [Some] verdict when the check returns,
    [None] when control falls through to the next check. *)
Definition check_add (dec : Decision) (current_position : Position.t)
    : option Verdict :=
  let amount := default 0 (size_or_amount dec) in
  if String.eqb (decision dec) "ADD" then
    if Qgtb amount MAX_ADD_PER_REVIEW then
      Some (true, CappedAtMaxAdd,
            Some (with_size_or_amount dec MAX_ADD_PER_REVIEW))
    else
      let new_notional :=
        amount * default 4 (Position.leverage current_position) in
      let current_notional :=
        _calculate_current_notional (Some current_position) in
      if Qgtb (current_notional + new_notional) MAX_TOTAL_NOTIONAL
      then Some (false, WouldExceedNotional, None)
      else None
  else None.

(** Check 4 of [validate_adjustment], in the same style. *)
Definition check_reduce (dec : Decision) (current_position : Position.t)
    (current_price : Q) : option Verdict :=
  let amount := default 0 (size_or_amount dec) in
  if String.eqb (decision dec) "REDUCE" then
    let roi := _calculate_roi current_position current_price in
    if Qltb roi 0 then Some (false, BlockedReduceInLoss, None)
    else if Qgtb amount (20 # 100) then
      Some (true, CappedAtMaxReduce,
            Some (with_size_or_amount dec (20 # 100)))
    else None
  else None.

(** [validate_adjustment].  [today] is [date.today().isoformat()] and
    [now] is [time.time()], the two clock reads of the method. *)
Definition validate_adjustment (today : string) (now : Q)
    (dec : Decision) (current_position : Position.t)
    (current_price : Q) : M Verdict :=
  log <- gets adjustment_log ;;
  let todays_adjustments := default [] (log !! today) in
  if Nat.leb MAX_ADJUSTMENTS_PER_DAY (length todays_adjustments) then
    ret (false, DailyLimitReached, None)
  else
    last <- gets last_adjustment_time ;;
    let time_since_last := now - last in
    if Qltb time_since_last 1800 && Qgtb last 0 then
      ret (false, MustWait, None)
    else
      match check_add dec current_position with
      | Some verdict => ret verdict
      | None =>
          match check_reduce dec current_position current_price with
          | Some verdict => ret verdict
          | None => ret (true, AdjustmentApproved, Some dec)
          end
      end.

(** [log_adjustment]; [stamp] is [datetime.now().isoformat()]. *)
Definition log_adjustment (today stamp : string) (now : Q)
    (action : string) (amount : Q) : M unit :=
  log <- gets adjustment_log ;;
  _ <- match log !! today with
       | None => set_adjustment_log (<[today := []]> log)
       | Some _ => ret tt
       end ;;
  log <- gets adjustment_log ;;
  _ <- set_adjustment_log
         (alter (fun l => l ++ [ {| adj_time := stamp; adj_action := action;
                                    adj_amount := amount |} ]) today log) ;;
  set_last_adjustment_time now.

(** [validate_exit] *)
Definition validate_exit (dec : Decision) (current_position : Position.t)
    : M Verdict :=
  let exit_pct := default 0 (size_or_amount dec) in
  if Qltb exit_pct (25 # 100) || Qgtb exit_pct 1 then
    ret (false, ExitOutsideRange, None)
  else ret (true, ExitApproved, Some dec).

(** [check_liquidation_distance] *)
Definition check_liquidation_distance (current_price estimated_liq_price : Q)
    : result bool :=
  if Qeqb estimated_liq_price 0 then Ok true
  else
    let! buffer :=
      pydiv (current_price - estimated_liq_price) current_price in
    if Qltb buffer MIN_LIQUIDATION_BUFFER then Ok false else Ok true.

(** [int(x)] on a float: truncation towards zero. *)
Definition pyint (x : Q) : Z := Z.quot (Qnum x) (Z.pos (Qden x)).

(** The dict returned by [get_stats]. *)
Record Stats : Type := mkStats {
  adjustments_today : nat;
  max_allowed : nat;
  time_since_last : Z
}.

(** [get_stats]; [today] and [now] are its clock reads. *)
Definition get_stats (today : string) (now : Q) : M Stats :=
  log <- gets adjustment_log ;;
  last <- gets last_adjustment_time ;;
  ret {| adjustments_today := length (default [] (log !! today));
         max_allowed := MAX_ADJUSTMENTS_PER_DAY;
         time_since_last :=
           if Qgtb last 0 then pyint (now - last) else 999999%Z |}.

End SafetyValidator.

(** ** config/trading_config.py *)

Module TradingConfig.

Definition BASE_POSITION_SIZE : Q := 35 # 100.

Definition LEVERAGE : gmap string Q :=
  list_to_map
    [ ("base", 3); ("single_tf", 3); ("multi_tf", 4);
      ("scale_in_1", 3); ("scale_in_2", 4);
      ("scale_in_3", 5); ("scale_in_4", 5) ].

Record ScaleLevel : Type := mkLevel {
  deviation : Q;
  add : Q
}.

Definition SCALE_LEVELS : list ScaleLevel :=
  [ {| deviation := - (1 # 100); add := 20 # 100 |};
    {| deviation := - (2 # 100); add := 25 # 100 |};
    {| deviation := - (4 # 100); add := 25 # 100 |};
    {| deviation := - (6 # 100); add := 30 # 100 |} ].

End TradingConfig.

(** ** trading_decision_logger.py *)

Module TradingDecisionLogger.

(** The logger's [current_position] mirror.  Every key but ['total_pnl']
    is written whenever the dict is created. *)
Record Mirror : Type := mkMirror {
  status : string;
  entry_price : Q;
  average_price : Q;
  size : Q;
  leverage : Q;
  entry_time : string;
  total_pnl : option Q
}.

(** An entry of [decisions].  The free-text keys (['reasoning'],
    ['details']) are left out. *)
Inductive Entry : Type :=
| ENTRY (timestamp : string) (price size leverage : Q)
| SCALE_IN (timestamp : string)
    (price added_size new_total_size new_leverage
     deviation_from_entry old_average new_average : Q)
| RECOVERY (timestamp : string) (size average_price : Q).

Record t : Type := mk {
  decisions : list Entry;
  current_position : option Mirror
}.

(** [__init__], given the decisions already on disk. *)
Definition init (existing : list Entry) : t :=
  {| decisions := existing; current_position := None |}.

(** [log_entry_decision]; [now] is [datetime.now().isoformat()]. *)
Definition log_entry_decision (self : t) (now : string)
    (price size leverage : Q) : t :=
  {| decisions := decisions self ++ [ENTRY now price size leverage];
     current_position :=
       Some {| status := "OPEN"; entry_price := price;
               average_price := price; size := size;
               leverage := leverage; entry_time := now;
               total_pnl := None |} |}.

(** [log_scale_decision].  Subscripting a [None] mirror is a [TypeError]. *)
Definition log_scale_decision (self : t) (now : string)
    (price add_size new_leverage deviation : Q) : result t :=
  match current_position self with
  | None => Raise TypeError
  | Some cp =>
      let old_avg := average_price cp in
      let old_size := size cp in
      let new_size := old_size + add_size in
      let! new_avg := pydiv (old_size * old_avg + add_size * price) new_size in
      Ok {| decisions :=
              decisions self ++
              [SCALE_IN now price add_size new_size new_leverage
                        deviation old_avg new_avg];
            current_position :=
              Some {| status := status cp; entry_price := entry_price cp;
                      average_price := new_avg; size := new_size;
                      leverage := new_leverage;
                      entry_time := entry_time cp;
                      total_pnl := total_pnl cp |} |}
  end.

(** The ['h4'] / ['daily'] entry of a [fib_levels] dict. *)
Record Levels : Type := mkLevels {
  gp_bottom : option Q;
  gp_top : option Q;
  fib_50 : option Q
}.

(** [abs(x)] *)
Definition pyabs (x : Q) : Q := if Qltb x 0 then - x else x.

(** [_analyze_fib_position]; [h4] and [daily] are the entries of
    [fib_levels] under these keys, [None] when the key is absent. *)
Definition _analyze_fib_position (price : Q) (h4 daily : option Levels)
    : result string :=
  let! in_h4 :=
    match h4 with
    | Some lv =>
        let in_pocket :=
          match gp_bottom lv, gp_top lv with
          | Some bottom, Some top => Qleb bottom price && Qleb price top
          | _, _ => false
          end in
        if in_pocket then Ok (Some "In 4H Golden Pocket")
        else
          match fib_50 lv with
          | Some f50 =>
              let! distance := pydiv (pyabs (price - f50)) price in
              if Qltb distance (5 # 1000)
              then Ok (Some "At 4H 50% retracement")
              else Ok None
          | None => Ok None
          end
    | None => Ok None
    end in
  match in_h4 with
  | Some label => Ok label
  | None =>
      let in_daily :=
        match daily with
        | Some lv =>
            match gp_bottom lv, gp_top lv with
            | Some bottom, Some top => Qleb bottom price && Qleb price top
            | _, _ => false
            end
        | None => false
        end in
      if in_daily then Ok "In Daily Golden Pocket"
      else Ok "Between Fibonacci levels"
  end.

End TradingDecisionLogger.

(** ** position_recovery.py *)

Module PositionRecovery.

(** What [AsterTradingClient.get_current_position] returns for an open
    position. *)
Record LivePosition : Type := mkLive {
  amount : Q;
  live_entry_price : Q;
  pnl : Q;
  live_leverage : option Q
}.

(** The JSON object of [logs/position_state.json]. *)
Record SavedState : Type := mkSaved {
  timestamp : option string;
  position : option Position.t;
  last_entry_price : option Q;
  total_position_size : option Q;
  current_leverage : option Q;
  scale_in_count : option nat
}.

(** The state file on disk: absent, unparseable, or holding an object. *)
Inductive StateFile : Type :=
| NoFile
| Corrupt
| Stored (s : SavedState).

(** Truth value of the loaded object: [{}] is falsy. *)
Definition saved_truthy (s : SavedState) : bool :=
  match timestamp s, position s, last_entry_price s,
        total_position_size s, current_leverage s, scale_in_count s with
  | None, None, None, None, None, None => false
  | _, _, _, _, _, _ => true
  end.

(** [save_position_state]: the object written for [position_data]. *)
Definition save_position_state (position_data : Position.t) (now : string)
    : StateFile :=
  Stored {| timestamp := Some now;
            position := Some position_data;
            last_entry_price := Position.entry_price position_data;
            total_position_size := Position.size position_data;
            current_leverage := Position.leverage position_data;
            scale_in_count :=
              Some (default 0%nat (Position.scale_in_count position_data)) |}.

(** The [try: json.load ... except: ...] block: a missing or unparseable
    file leaves [saved_state] at [None]. *)
Definition load_saved_state (file : StateFile) : option SavedState :=
  match file with
  | Stored s => Some s
  | NoFile | Corrupt => None
  end.

(** [recover_position].  [live] is the exchange's answer, [file] the state
    file, [now] the clock; the result is the returned triple together with
    the state file left on disk. *)
Definition recover_position (live : option LivePosition) (file : StateFile)
    (now : string)
    : result (bool * option Position.t * option Q * StateFile) :=
  match live with
  | Some live_position =>
      let saved_state :=
        match load_saved_state file with
        | Some s => if saved_truthy s then Some s else None
        | None => None
        end in
      let! entry_time :=
        match saved_state with
        | Some s => subscript "timestamp" (timestamp s)
        | None => Ok now
        end in
      let recovered_position :=
        {| Position.entry_price := Some (live_entry_price live_position);
           Position.average_price := Some (live_entry_price live_position);
           Position.size := Some (amount live_position);
           Position.leverage :=
             Some (default 3 (live_leverage live_position));
           Position.entry_time := Some entry_time;
           Position.scale_in_count :=
             Some match saved_state with
                  | Some s => default 0%nat (scale_in_count s)
                  | None => 0%nat
                  end;
           Position.capital_used := None |} in
      let recovered_position :=
        match saved_state with
        | Some s =>
            match position s with
            | Some p =>
                if Position.truthy p then
                  Position.set_average_price recovered_position
                    (default (live_entry_price live_position)
                             (Position.average_price p))
                else recovered_position
            | None => recovered_position
            end
        | None => recovered_position
        end in
      let last_entry :=
        match saved_state with
        | Some s => last_entry_price s
        | None => Some (live_entry_price live_position)
        end in
      Ok (true, Some recovered_position, last_entry, file)
  | None =>
      Ok (false, None, None, NoFile)
  end.

(** [log_recovery]: synchronise the logger's mirror with the recovered
    position and append the RECOVERY record. *)
Definition log_recovery (logger : TradingDecisionLogger.t)
    (position_data : Position.t) (now : string)
    : result TradingDecisionLogger.t :=
  let! entry_price :=
    subscript "entry_price" (Position.entry_price position_data) in
  let! average_price :=
    subscript "average_price" (Position.average_price position_data) in
  let! size := subscript "size" (Position.size position_data) in
  let! leverage := subscript "leverage" (Position.leverage position_data) in
  Ok {| TradingDecisionLogger.current_position :=
          Some {| TradingDecisionLogger.status := "OPEN";
                  TradingDecisionLogger.entry_price := entry_price;
                  TradingDecisionLogger.average_price := average_price;
                  TradingDecisionLogger.size := size;
                  TradingDecisionLogger.leverage := leverage;
                  TradingDecisionLogger.entry_time :=
                    default now (Position.entry_time position_data);
                  TradingDecisionLogger.total_pnl := None |};
        TradingDecisionLogger.decisions :=
          TradingDecisionLogger.decisions logger ++
          [TradingDecisionLogger.RECOVERY now size average_price] |}.

End PositionRecovery.

(** ** claude_supervisor.py: the helpers that build the advisor's context *)

Module ClaudeSupervisor.

(** [_calculate_pnl_pct] *)
Definition _calculate_pnl_pct (current_price : Q)
    (position : option Position.t) : Q :=
  match position with
  | Some p =>
      if negb (Position.truthy p)
         || negb (float_truthy (Position.average_price p))
      then 0
      else
        let average_price := default 0 (Position.average_price p) in
        (current_price - average_price) / average_price * 100
  | None => 0
  end.

(** [_calculate_roi_pct] *)
Definition _calculate_roi_pct (current_price : Q)
    (position : option Position.t) : Q :=
  match position with
  | Some p =>
      if negb (Position.truthy p) then 0
      else
        let pnl_pct := _calculate_pnl_pct current_price position in
        let leverage := default 1 (Position.leverage p) in
        pnl_pct * leverage
  | None => 0
  end.

(** [_determine_zone] *)
Definition _determine_zone (price : Q) : string :=
  if Qleb 111463 price && Qleb price 112189 then "4H Golden Pocket"
  else if Qleb 108088 price && Qleb price 108975 then "Daily Golden Pocket"
  else if Qgtb price 112189 then "Above Golden Pocket"
  else "Below Golden Pocket".

(** [_in_golden_pocket] *)
Definition _in_golden_pocket (price : Q) : bool :=
  (Qleb (111463 * (995 # 1000)) price && Qleb price (112189 * (101 # 100)))
  || (Qleb (108088 * (995 # 1000)) price
      && Qleb price (108975 * (101 # 100))).

(** [for fib in fibs: if test(fib): return fib] with the value returned
    when the loop runs out. *)
Fixpoint first_fib (test : Q -> bool) (fibs : list Q) (otherwise : Q) : Q :=
  match fibs with
  | [] => otherwise
  | fib :: rest => if test fib then fib else first_fib test rest otherwise
  end.

Definition fibs_descending : list Q :=
  [126104; 117430; 112246; 112189; 111463; 109874; 108975; 108088; 105557;
   98387].

Definition fibs_ascending : list Q :=
  [98387; 105557; 108088; 108975; 109874; 111463; 112189; 112246; 117430;
   126104].

(** [_find_nearest_fib_below] *)
Definition _find_nearest_fib_below (price : Q) : Q :=
  first_fib (fun fib => Qltb fib price) fibs_descending 98387.

(** [_find_nearest_fib_above] *)
Definition _find_nearest_fib_above (price : Q) : Q :=
  first_fib (fun fib => Qgtb fib price) fibs_ascending 126104.

(** The [except] branch of [ask_for_decision]: what the method returns,
    and [approve_entry] with it, when the request to the model or the
    parsing of its reply raises; [error] is the text of the exception.  The
    dict has no ['size_or_amount']. *)
Definition ask_for_decision_failed (error : string) : Decision :=
  {| decision := "HOLD"; size_or_amount := None;
     reasoning := "Error calling Claude: " +:+ error;
     confidence := Some 0 |}.

End ClaudeSupervisor.

(** ** live_trading_bot.py *)

Module LiveFibonacciBot.

(** Exposure limits set in [__init__]. *)
Definition MAX_NOTIONAL_EXPOSURE : Q := 5.
Definition MAX_CAPITAL_USAGE : Q := 135 # 100.

(** The sentiment snapshot. *)
Record Sentiment : Type := mkSentiment {
  fear_greed : option Q;
  funding_rate : option Q;
  ls_ratio : option Q
}.

(** An order the exchange filled: the arguments handed to
    [trading_client.enter_long_position] / [scale_in_position]. *)
Record Fill : Type := mkFill {
  fill_price : Q;
  fill_size : Q;
  fill_leverage : Q
}.

(** The trading state of the bot object, with its two collaborators that
    carry state of their own. *)
Record t : Type := mk {
  shadow_mode : bool;
  logger : TradingDecisionLogger.t;
  safety : SafetyValidator.t;
  position : option Position.t;
  last_entry_price : option Q;
  total_position_size : Q;
  current_leverage : Q;
  scale_in_count : nat;
  eager_to_enter : bool;
  bounce_detected : bool
}.

(** [__init__] up to the recovery block: flat, eager to enter. *)
Definition fresh (shadow : bool) (existing : list TradingDecisionLogger.Entry)
    : t :=
  {| shadow_mode := shadow;
     logger := TradingDecisionLogger.init existing;
     safety := SafetyValidator.init;
     position := None;
     last_entry_price := None;
     total_position_size := 0;
     current_leverage := 0;
     scale_in_count := 0;
     eager_to_enter := true;
     bounce_detected := true |}.

(** [__init__]: the recovery block that ends the constructor. *)
Definition init (shadow : bool) (existing : list TradingDecisionLogger.Entry)
    (live : option PositionRecovery.LivePosition)
    (file : PositionRecovery.StateFile) (now : string)
    : result (t * PositionRecovery.StateFile) :=
  let self := fresh shadow existing in
  let! recovered := PositionRecovery.recover_position live file now in
  match recovered with
  | (true, Some recovered_position, recovered_last_entry, file') =>
      let! size := subscript "size" (Position.size recovered_position) in
      let! leverage :=
        subscript "leverage" (Position.leverage recovered_position) in
      let! logger' :=
        PositionRecovery.log_recovery (logger self) recovered_position now in
      Ok ({| shadow_mode := shadow_mode self;
             logger := logger';
             safety := safety self;
             position := Some recovered_position;
             last_entry_price := recovered_last_entry;
             total_position_size := size;
             current_leverage := leverage;
             scale_in_count :=
               default 0%nat (Position.scale_in_count recovered_position);
             eager_to_enter := false;
             bounce_detected := false |}, file')
  | (_, _, _, file') => Ok (self, file')
  end.

(** [calculate_sentiment_multiplier]: the three sub-multipliers, their
    unweighted mean and the cap between 0.5x and 1.5x. *)
Definition fear_greed_multiplier (fg : Q) : Q :=
  if Qltb fg 25 then 13 # 10
  else if Qltb fg 40 then 11 # 10
  else if Qgtb fg 75 then 6 # 10
  else 1.

Definition funding_multiplier (fr : Q) : Q :=
  if Qltb fr (- (1 # 100)) then 13 # 10
  else if Qltb fr 0 then 11 # 10
  else if Qgtb fr (5 # 100) then 5 # 10
  else if Qgtb fr (2 # 100) then 8 # 10
  else 1.

Definition ls_multiplier (ls : Q) : Q :=
  if Qgtb ls 2 then 8 # 10
  else if Qgtb ls (15 # 10) then 1
  else if Qltb ls (8 # 10) then 12 # 10
  else 1.

(** [sum(multipliers) / len(multipliers)] *)
Definition average (multipliers : list Q) : Q :=
  fold_left Qplus multipliers 0 / inject_Z (Z.of_nat (length multipliers)).

(** [max(0.5, min(1.5, final_multiplier))] *)
Definition cap (final_multiplier : Q) : Q :=
  pymax (5 # 10) (pymin (15 # 10) final_multiplier).

Definition calculate_sentiment_multiplier (sentiment : Sentiment) : Q :=
  let multipliers :=
    [ fear_greed_multiplier (default 50 (fear_greed sentiment));
      funding_multiplier (default 0 (funding_rate sentiment));
      ls_multiplier (default 1 (ls_ratio sentiment)) ] in
  cap (average multipliers).

(** The [current_notional] that [check_exposure_limits] computes. *)
Definition current_notional (self : t) : Q :=
  total_position_size self *
  (if Qgtb (current_leverage self) 0 then current_leverage self else 1).

(** [check_exposure_limits]: the size that may be added, [0] if blocked. *)
Definition check_exposure_limits (self : t) (desired_size leverage : Q) : Q :=
  let current_capital_used := total_position_size self in
  let current_notional := current_notional self in
  let total_capital := current_capital_used + desired_size in
  let capital_check : option Q :=       (* [None]: blocked *)
    if Qgtb total_capital MAX_CAPITAL_USAGE then
      let allowed_capital := MAX_CAPITAL_USAGE - current_capital_used in
      if Qleb allowed_capital 0 then None else Some allowed_capital
    else Some desired_size in
  match capital_check with
  | None => 0
  | Some desired_size =>
      let new_notional := desired_size * leverage in
      let total_notional := current_notional + new_notional in
      if Qgtb total_notional MAX_NOTIONAL_EXPOSURE then
        let allowed_notional := MAX_NOTIONAL_EXPOSURE - current_notional in
        if Qleb allowed_notional 0 then 0
        else
          let safe_size := allowed_notional / leverage in
          safe_size
      else desired_size
  end.

(** The state after a filled entry order. *)
Definition opened (self : t) (safety' : SafetyValidator.t)
    (current_price final_size leverage : Q) (now : string) : t :=
  {| shadow_mode := shadow_mode self;
     logger :=
       TradingDecisionLogger.log_entry_decision (logger self) now
         current_price (final_size * 100) leverage;
     safety := safety';
     position :=
       Some {| Position.entry_price := Some current_price;
               Position.average_price := Some current_price;
               Position.size := Some final_size;
               Position.leverage := Some leverage;
               Position.entry_time := Some now;
               Position.scale_in_count := None;
               Position.capital_used := None |};
     last_entry_price := Some current_price;
     total_position_size := final_size;
     current_leverage := leverage;
     scale_in_count := 0;
     eager_to_enter := false;
     bounce_detected := false |}.

(** How a call of [enter_position] ends: the bot as the call left it, the
    order the exchange filled during the call, and what the call returned
    ([true] for a decision, [false] for [None]) or raised.  [run_cycle]
    catches the exception, and the next cycle starts from [bot_after]. *)
Record Outcome : Type := mkOutcome {
  bot_after : t;
  order_filled : option Fill;
  returned : result bool
}.

(** The line of [enter_position] that prints the sentiment: it formats
    [sentiment.get('funding_rate', 'N/A')] with [:.4f] and
    [sentiment.get('ls_ratio', 'N/A')] with [:.2f], and the string ['N/A']
    does not take a float format. *)
Definition print_sentiment (sentiment : Sentiment) : result unit :=
  match funding_rate sentiment, ls_ratio sentiment with
  | Some _, Some _ => Ok tt
  | _, _ => Raise ValueError
  end.

(** [recovery.save_position_state(self.position)], the call that ends a
    filled entry.  The dict that [enter_position] has just built holds
    [datetime.now()], a [datetime] object, under ['entry_time']
    ([Position.entry_time] keeps its text); [json.dump] does not serialise
    it and raises [TypeError], with the state file opened for writing. *)
Definition save_entered_position (position_data : option Position.t)
    : result unit :=
  Raise TypeError.

(** [enter_position].  [claude] is what [claude.approve_entry] returned,
    [Raise] when the call itself raised and the algorithmic proposal is used
    instead; [order_ok] is the outcome of the exchange order, [now] the
    clock.  Nothing is written to the bot before the order is filled. *)
Definition enter_position (self : t) (current_price : Q)
    (sentiment : Sentiment) (claude : result Decision) (order_ok : bool)
    (now : string) : Outcome :=
  let without_order (r : result bool) :=
    {| bot_after := self; order_filled := None; returned := r |} in
  let sentiment_multiplier := calculate_sentiment_multiplier sentiment in
  let base_size := TradingConfig.BASE_POSITION_SIZE in
  let algo_proposed_size := base_size * sentiment_multiplier in
  (* up to the order: [None] when the method returns [None] there *)
  let order : result (option (SafetyValidator.t * Q * Q)) :=
    let! leverage := subscript "base" (TradingConfig.LEVERAGE !! "base") in
    let claude_decision :=
      match claude with
      | Ok d => d
      | Raise _ =>
          {| decision := "APPROVE";
             size_or_amount := Some algo_proposed_size;
             reasoning := "Claude unavailable - using algorithmic proposal";
             confidence := Some (5 # 10) |}
      end in
    if String.eqb (decision claude_decision) "REJECT" then Ok None
    else
      let claude_size :=
        default algo_proposed_size (size_or_amount claude_decision) in
      let '(validated, safety') :=
        SafetyValidator.validate_entry claude_decision (position self)
                                       (safety self) in
      let! safety_result := validated in
      if negb (SafetyValidator.approved safety_result) then Ok None
      else
        let! final_size :=
          match SafetyValidator.adjusted safety_result with
          | Some adjusted =>
              subscript "size_or_amount" (size_or_amount adjusted)
          | None => Ok claude_size
          end in
        let! _ := print_sentiment sentiment in
        Ok (Some (safety', final_size, leverage)) in
  match order with
  | Raise e => without_order (Raise e)
  | Ok None => without_order (Ok false)
  | Ok (Some (safety', final_size, leverage)) =>
      let success := if shadow_mode self then true else order_ok in
      if success then
        let self' :=
          opened self safety' current_price final_size leverage now in
        {| bot_after := self';
           order_filled :=
             Some {| fill_price := current_price; fill_size := final_size;
                     fill_leverage := leverage |};
           returned :=
             let! _ := save_entered_position (position self') in
             Ok true |}
      else without_order (Ok false)
  end.

(** The body of the loop of [check_scale_in] at level [i]: every path of it
    returns.  [Some fill] stands for the [True] of the Python result, [None]
    for its [False]. *)
Definition scale_in_at (self : t) (pos : Position.t) (current_price : Q)
    (deviation : Q) (i : nat) (level : TradingConfig.ScaleLevel)
    (sentiment : Sentiment) (order_ok : bool) (now : string)
    : result (t * option Fill) :=
  let sentiment_multiplier := calculate_sentiment_multiplier sentiment in
  let base_add := TradingConfig.add level in
  let desired_add := base_add * sentiment_multiplier in
  let leverage_key := "scale_in_" +:+ pretty (i + 1)%nat in
  let new_leverage :=
    default (current_leverage self) (TradingConfig.LEVERAGE !! leverage_key) in
  let add_size := check_exposure_limits self desired_add new_leverage in
  if Qeqb add_size 0 then Ok (self, None)
  else if order_ok then
    let! logger' :=
      TradingDecisionLogger.log_scale_decision (logger self) now
        current_price (add_size * 100) new_leverage (deviation * 100) in
    let! old_avg := subscript "average_price" (Position.average_price pos) in
    let old_size := total_position_size self in
    let new_size := old_size + add_size in
    let! new_avg :=
      pydiv (old_size * old_avg + add_size * current_price) new_size in
    Ok ({| shadow_mode := shadow_mode self;
           logger := logger';
           safety := safety self;
           position := Some (Position.set_average_price pos new_avg);
           last_entry_price := last_entry_price self;
           total_position_size := new_size;
           current_leverage := new_leverage;
           scale_in_count := i + 1;
           eager_to_enter := eager_to_enter self;
           bounce_detected := bounce_detected self |},
        Some {| fill_price := current_price; fill_size := add_size;
                fill_leverage := new_leverage |})
  else Ok (self, None).

(** [for i, level in enumerate(levels)]: the first level that is hit and
    not yet used, if any, counting from [i]. *)
Fixpoint find_scale_level (self : t) (deviation : Q) (i : nat)
    (levels : list TradingConfig.ScaleLevel)
    : option (nat * TradingConfig.ScaleLevel) :=
  match levels with
  | [] => None
  | level :: rest =>
      if Qleb deviation (TradingConfig.deviation level)
         && Nat.leb (scale_in_count self) i
      then Some (i, level)
      else find_scale_level self deviation (S i) rest
  end.

(** [check_scale_in] *)
Definition check_scale_in (self : t) (current_price : Q)
    (sentiment : Sentiment) (order_ok : bool) (now : string)
    : result (t * option Fill) :=
  match position self with
  | None => Ok (self, None)
  | Some pos =>
      let! last_entry :=
        match last_entry_price self with
        | Some p => Ok p
        | None => Raise TypeError
        end in
      let! deviation := pydiv (current_price - last_entry) last_entry in
      match find_scale_level self deviation 0 TradingConfig.SCALE_LEVELS with
      | Some (i, level) =>
          scale_in_at self pos current_price deviation i level
                      sentiment order_ok now
      | None => Ok (self, None)
      end
  end.

(** One timeframe of [self.fib_levels]. *)
Record FibLevels : Type := mkFib {
  swing_high : Q;
  swing_low : Q;
  gp_top : Q;
  gp_bottom : Q;
  fib_50 : Q;
  fib_786 : Q
}.

(** [self.fib_levels['h4']] and [self.fib_levels['daily']] *)
Definition fib_levels_h4 : FibLevels :=
  {| swing_high := 126104; swing_low := 108755; gp_top := 112189;
     gp_bottom := 111463; fib_50 := 117430; fib_786 := 109874 |}.

Definition fib_levels_daily : FibLevels :=
  {| swing_high := 126104; swing_low := 98387; gp_top := 108975;
     gp_bottom := 108088; fib_50 := 112246; fib_786 := 105557 |}.

(** [calculate_fibonacci_upper_exit] *)
Definition calculate_fibonacci_upper_exit (current_price : Q)
    (sentiment : Sentiment) : result Q :=
  let fib_50_4h := fib_50 fib_levels_h4 in
  let fib_50_daily := fib_50 fib_levels_daily in
  let swing_high := swing_high fib_levels_h4 in
  let! dist_to_daily_50 := pydiv (fib_50_daily - current_price) current_price in
  let! dist_to_4h_50 := pydiv (fib_50_4h - current_price) current_price in
  let! dist_to_high := pydiv (swing_high - current_price) current_price in
  let fg := default 50 (fear_greed sentiment) in
  let fr := default 0 (funding_rate sentiment) in
  if Qltb current_price fib_50_daily then Ok fib_50_daily
  else if Qltb current_price fib_50_4h then
    if Qgtb fg 70 then Ok fib_50_4h
    else Ok (swing_high * (95 # 100))
  else
    if Qgtb fg 75 || Qgtb fr (5 # 100) then Ok swing_high
    else Ok (swing_high * (105 # 100)).

(** A profit target: [{'gain', 'reduce'}]. *)
Record Target : Type := mkTarget {
  gain : Q;
  reduce : Q
}.

Definition base_targets : list Target :=
  [ {| gain := 5 # 100; reduce := 25 # 100 |};
    {| gain := 10 # 100; reduce := 25 # 100 |};
    {| gain := 15 # 100; reduce := 25 # 100 |} ].

(** The [target_multiplier] chosen by [calculate_exit_targets]. *)
Definition target_multiplier (sentiment : Sentiment) : Q :=
  let fg := default 50 (fear_greed sentiment) in
  let fr := default 0 (funding_rate sentiment) in
  if Qgtb fg 75 && Qgtb fr (5 # 100) then 6 # 10
  else if Qgtb fg 60 && Qgtb fr (2 # 100) then 8 # 10
  else if Qltb fg 25 && Qltb fr (- (1 # 100)) then 15 # 10
  else if Qltb fg 40 then 12 # 10
  else 1.

(** [calculate_exit_targets] *)
Definition calculate_exit_targets (sentiment : Sentiment) (current_price : Q)
    : result (list Target * Q) :=
  let target_multiplier := target_multiplier sentiment in
  let adjusted_targets :=
    map (fun t => {| gain := gain t * target_multiplier;
                     reduce := reduce t |}) base_targets in
  let! upper_exit_price :=
    calculate_fibonacci_upper_exit current_price sentiment in
  Ok (adjusted_targets, upper_exit_price).

(** [candles['low'].min()]: [None] stands for the NaN of an empty frame,
    against which every comparison is false. *)
Definition series_min (lows : list Q) : option Q :=
  match lows with
  | [] => None
  | low :: rest => Some (foldr pymin low rest)
  end.

(** [detect_bounce].  [candles] is what [get_recent_candles] returned: [None]
    when the request failed, else the lows of the candles. *)
Definition detect_bounce (self : t) (candles : option (list Q))
    (current_price : Q) : bool :=
  match candles with
  | None => bounce_detected self
  | Some lows =>
      match series_min lows with
      | None => false
      | Some recent_low =>
          if Qleb recent_low (gp_top fib_levels_h4 * (102 # 100))
             && Qgtb current_price (recent_low * (1001 # 1000))
          then true
          else if Qleb recent_low (gp_top fib_levels_daily * (101 # 100))
                  && Qgtb current_price (recent_low * (1002 # 1000))
          then true
          else false
      end
  end.

(** The band in which [check_entry_conditions] looks for an entry near a
    golden pocket: [gp_bottom * 0.995 <= current_price <= gp_top * 1.01]. *)
Definition near_golden_pocket (f : FibLevels) (current_price : Q) : bool :=
  Qleb (gp_bottom f * (995 # 1000)) current_price
  && Qleb current_price (gp_top f * (101 # 100)).

(** [(should_enter, fib_zone, confluence)] *)
Definition Signal : Type := (bool * option string * list string)%type.

(** The block of [check_entry_conditions] for the 4H golden pocket: the
    signal if the block returns, and the [confluence] list it leaves. *)
Definition check_h4_pocket (self : t) (current_price : Q)
    (sentiment : Sentiment) (candles : option (list Q))
    (confluence : list string) : result (option Signal * list string) :=
  if near_golden_pocket fib_levels_h4 current_price then
    let confluence := confluence ++ ["In/Near 4H Golden Pocket"] in
    let fib_zone := "4H Golden Pocket" in
    let! fg := subscript "fear_greed" (fear_greed sentiment) in
    let confluence :=
      if Qltb fg 40 then confluence ++ ["Fear sentiment"] else confluence in
    let! fr := subscript "funding_rate" (funding_rate sentiment) in
    let confluence :=
      if Qltb fr 0 then confluence ++ ["Negative funding"] else confluence in
    let! ls := subscript "ls_ratio" (ls_ratio sentiment) in
    let confluence :=
      if Qgtb ls (12 # 10) then confluence ++ ["Bullish L/S ratio"]
      else confluence in
    let confluence :=
      if bounce_detected self || detect_bounce self candles current_price
      then confluence ++ ["Price bounce detected"] else confluence in
    if Nat.leb 2 (length confluence) || eager_to_enter self then
      Ok (Some (true, Some fib_zone, confluence), confluence)
    else Ok (None, confluence)
  else Ok (None, confluence).

(** The block for the daily golden pocket, in the same style. *)
Definition check_daily_pocket (self : t) (current_price : Q)
    (sentiment : Sentiment) (candles : option (list Q))
    (confluence : list string) : result (option Signal * list string) :=
  if near_golden_pocket fib_levels_daily current_price then
    let confluence := confluence ++ ["In/Near Daily Golden Pocket"] in
    let fib_zone := "Daily Golden Pocket" in
    let! fg := subscript "fear_greed" (fear_greed sentiment) in
    let confluence :=
      if Qltb fg 30 then confluence ++ ["Extreme fear"] else confluence in
    let! fr := subscript "funding_rate" (funding_rate sentiment) in
    let confluence :=
      if Qltb fr (- (1 # 1000)) then confluence ++ ["Very negative funding"]
      else confluence in
    let confluence :=
      if bounce_detected self || detect_bounce self candles current_price
      then confluence ++ ["Price bounce detected"] else confluence in
    if Nat.leb 2 (length confluence) then
      Ok (Some (true, Some fib_zone, confluence), confluence)
    else Ok (None, confluence)
  else Ok (None, confluence).

(** [check_entry_conditions].  [fib_exit_price] is the attribute of that
    name, which [check_exit] writes; [sentiment_h4] and [sentiment_daily]
    are the snapshots fetched in the two golden-pocket blocks, and
    [candles_h4], [candles_daily], [candles_50] what [get_recent_candles]
    returns to the call of [detect_bounce] in each of the three blocks.
    Returned with the signal: [fib_exit_price] after the call. *)
Definition check_entry_conditions (self : t) (fib_exit_price : option Q)
    (current_price : Q) (sentiment_h4 sentiment_daily : Sentiment)
    (candles_h4 candles_daily candles_50 : option (list Q))
    : result (Signal * option Q) :=
  match position self with
  | Some _ => Ok ((false, None, []), fib_exit_price)
  | None =>
      if float_truthy fib_exit_price
         && Qltb current_price (default 0 fib_exit_price)
         && near_golden_pocket fib_levels_h4 current_price
      then
        Ok ((true, Some "4H Golden Pocket (Fib Rejection Re-entry)",
             ["Price rejected Fib resistance"; "Back in golden pocket";
              "Fresh entry setup"]), None)
      else
        let confluence : list string := [] in
        let! h4 :=
          check_h4_pocket self current_price sentiment_h4 candles_h4
                          confluence in
        match h4 with
        | (Some signal, _) => Ok (signal, fib_exit_price)
        | (None, confluence) =>
            let! daily :=
              check_daily_pocket self current_price sentiment_daily
                                 candles_daily confluence in
            match daily with
            | (Some signal, _) => Ok (signal, fib_exit_price)
            | (None, _) =>
                let! distance :=
                  pydiv (TradingDecisionLogger.pyabs
                           (current_price - fib_50 fib_levels_h4))
                        current_price in
                if Qltb distance (1 # 100)
                   && detect_bounce self candles_50 current_price
                then
                  Ok ((true, Some "4H 50% Retracement",
                       ["50% level"; "Bounce detected"]), fib_exit_price)
                else Ok ((false, None, []), fib_exit_price)
            end
        end
  end.

(** [self.safety] after a call of one of its methods. *)
Definition with_safety (self : t) (safety' : SafetyValidator.t) : t :=
  {| shadow_mode := shadow_mode self;
     logger := logger self;
     safety := safety';
     position := position self;
     last_entry_price := last_entry_price self;
     total_position_size := total_position_size self;
     current_leverage := current_leverage self;
     scale_in_count := scale_in_count self;
     eager_to_enter := eager_to_enter self;
     bounce_detected := bounce_detected self |}.

(** The 20-minute review of [run_cycle], taken while the bot holds [pos].
    [review] is the answer of [claude.periodic_review], [Raise] when it or
    the market data before it failed; [today] and [now] are the clock reads
    of [validate_adjustment], [today'], [stamp] and [now'] those of
    [log_adjustment].  [run_cycle] catches every exception of the block;
    what a method wrote before raising stays written. *)
Definition run_cycle_review (self : t) (pos : Position.t) (current_price : Q)
    (review : result Decision) (today : string) (now : Q)
    (today' stamp : string) (now' : Q) : t :=
  match review with
  | Raise _ => self
  | Ok review_decision =>
      if String.eqb (decision review_decision) "ADD" then
        let add_amount := default 0 (size_or_amount review_decision) in
        let '(validated, safety') :=
          SafetyValidator.validate_adjustment today now review_decision pos
            current_price (safety self) in
        match validated with
        | Raise _ => with_safety self safety'
        | Ok safety_result =>
            if SafetyValidator.approved safety_result then
              let final_add :=
                match SafetyValidator.adjusted safety_result with
                | Some adjusted =>
                    subscript "size_or_amount" (size_or_amount adjusted)
                | None => Ok add_amount
                end in
              match final_add with
              | Raise _ => with_safety self safety'
              | Ok final_add =>
                  with_safety self
                    (snd (SafetyValidator.log_adjustment today' stamp now'
                            "ADD" final_add safety'))
              end
            else with_safety self safety'
        end
      else self
  end.

End LiveFibonacciBot.

(** ** Quantities the properties speak about *)

Module Spec.
Import LiveFibonacciBot.

Definition sum_size (fills : list Fill) : Q :=
  foldr (fun f acc => fill_size f + acc) 0 fills.

Definition sum_cost (fills : list Fill) : Q :=
  foldr (fun f acc => fill_size f * fill_price f + acc) 0 fills.

Definition sum_notional (fills : list Fill) : Q :=
  foldr (fun f acc => fill_size f * fill_leverage f + acc) 0 fills.

(** Capital-weighted average of the fill prices. *)
Definition weighted_average_price (fills : list Fill) : Q :=
  sum_cost fills / sum_size fills.

(** Capital-weighted average of the fill leverages. *)
Definition weighted_leverage (fills : list Fill) : Q :=
  sum_notional fills / sum_size fills.

(** [pnlFraction] and [roiFraction = pnlFraction * leverage] *)
Definition pnl_fraction (current_price average_price : Q) : Q :=
  (current_price - average_price) / average_price.

Definition roi_fraction (current_price average_price leverage : Q) : Q :=
  pnl_fraction current_price average_price * leverage.

(** A run of the bot from a flat state: one approved entry followed by
    approved scale-ins, with the orders that were filled on the way.
    [run_cycle] calls [enter_position] only while [self.position is None],
    and goes on from the bot that the call left, however the call ended. *)
Inductive Run : t -> list Fill -> Prop :=
| run_entry self current_price sentiment claude order_ok now self' fill r :
    position self = None ->
    enter_position self current_price sentiment claude order_ok now
      = {| bot_after := self'; order_filled := Some fill; returned := r |} ->
    Run self' [fill]
| run_scale_in self fills current_price sentiment order_ok now self' fill :
    Run self fills ->
    check_scale_in self current_price sentiment order_ok now
      = Ok (self', Some fill) ->
    Run self' (fills ++ [fill]).

(** The state file holds nothing, or an object with its ['timestamp']. *)
Definition readable (file : PositionRecovery.StateFile) : bool :=
  match file with
  | PositionRecovery.Stored s =>
      negb (PositionRecovery.saved_truthy s)
      || bool_decide (is_Some (PositionRecovery.timestamp s))
  | _ => true
  end.

(** The fields that recovery always takes from the exchange. *)
Definition from_exchange (live : PositionRecovery.LivePosition)
    (pos : Position.t) : Prop :=
  Position.entry_price pos = Some (PositionRecovery.live_entry_price live) /\
  Position.size pos = Some (PositionRecovery.amount live) /\
  Position.leverage pos
    = Some (default 3 (PositionRecovery.live_leverage live)).

End Spec.

(** ** A trading day used in the examples

    Neutral sentiment, the advisor approving the algorithm's 35%; the price
    falls from 100000 through the -1%, -2% and -4% scale levels. *)

Module Scenario.
Import LiveFibonacciBot.

Definition neutral : Sentiment :=
  {| fear_greed := Some 50; funding_rate := Some (1 # 10000);
     ls_ratio := Some 1 |}.

Definition extreme_fear : Sentiment :=
  {| fear_greed := Some 10; funding_rate := Some (- (5 # 100));
     ls_ratio := Some (5 # 10) |}.

Definition approve (size : Q) : Decision :=
  {| decision := "APPROVE"; size_or_amount := Some size;
     reasoning := "golden pocket bounce"; confidence := Some (8 # 10) |}.

Definition flat : t := fresh false [].

Definition then_scale_in (before : result (t * option Fill))
    (current_price : Q) (now : string) : result (t * option Fill) :=
  let! st := before in
  check_scale_in (fst st) current_price neutral true now.

(** What a call of [enter_position] leaves behind: the bot and the order. *)
Definition left_behind (outcome : Outcome) : result (t * option Fill) :=
  Ok (bot_after outcome, order_filled outcome).

(** The four steps of the day, evaluated. *)
Definition entered : result (t * option Fill) :=
  Eval vm_compute in
    left_behind
      (enter_position flat 100000 neutral (Ok (approve (35 # 100))) true
                      "2025-10-29T10:00:00").

Definition scaled_1 : result (t * option Fill) :=
  Eval vm_compute in then_scale_in entered 99000 "2025-10-29T11:00:00".

Definition scaled_2 : result (t * option Fill) :=
  Eval vm_compute in then_scale_in scaled_1 98000 "2025-10-29T12:00:00".

Definition scaled_3 : result (t * option Fill) :=
  Eval vm_compute in then_scale_in scaled_2 96000 "2025-10-29T13:00:00".

(** The state reached, [flat] if the step raised. *)
Definition state (r : result (t * option Fill)) : t :=
  match r with
  | Ok (self, _) => self
  | Raise _ => flat
  end.

(** The orders filled by a sequence of steps. *)
Definition orders (steps : list (result (t * option Fill))) : list Fill :=
  omap (fun r => match r with
                 | Ok (_, filled) => filled
                 | Raise _ => None
                 end) steps.

(** An over-sized ADD proposal on a position close to the notional cap, and
    the same proposal already at the 5% limit. *)
Definition near_cap : Position.t :=
  {| Position.entry_price := Some 111091;
     Position.average_price := Some 109979;
     Position.size := Some (1 # 100);
     Position.leverage := Some 5;
     Position.entry_time := Some "2025-10-29T17:48:31";
     Position.scale_in_count := Some 3%nat;
     Position.capital_used := Some (99 # 100) |}.

Definition add (amount : Q) : Decision :=
  {| decision := "ADD"; size_or_amount := Some amount;
     reasoning := "support holding"; confidence := Some (7 # 10) |}.

Definition reduce (amount : Q) : Decision :=
  {| decision := "REDUCE"; size_or_amount := Some amount;
     reasoning := "lock in"; confidence := Some (7 # 10) |}.

(** A bot holding 105% of the capital at 4x. *)
Definition stretched : t :=
  {| shadow_mode := false;
     logger := TradingDecisionLogger.init [];
     safety := SafetyValidator.init;
     position := Some near_cap;
     last_entry_price := Some 111091;
     total_position_size := 105 # 100;
     current_leverage := 4;
     scale_in_count := 2;
     eager_to_enter := false;
     bounce_detected := false |}.

(** What the exchange and the state file hold at a restart. *)
Definition live : PositionRecovery.LivePosition :=
  {| PositionRecovery.amount := 1 # 100;
     PositionRecovery.live_entry_price := 111091;
     PositionRecovery.pnl := - 12;
     PositionRecovery.live_leverage := Some 4 |}.

Definition saved : PositionRecovery.StateFile :=
  PositionRecovery.save_position_state near_cap "2025-10-29T18:00:00".

End Scenario.

(** ** Further examples *)

Module Cases.
Import LiveFibonacciBot.

(** The recovered example position: 0.01 BTC at 4x, no ['capital_used']. *)
Definition small_position : Position.t :=
  {| Position.entry_price := Some 111091;
     Position.average_price := Some 109979;
     Position.size := Some (1 # 100);
     Position.leverage := Some 4;
     Position.entry_time := Some "2025-10-29T17:48:31";
     Position.scale_in_count := Some 3%nat;
     Position.capital_used := None |}.

(** A review that asks for nothing. *)
Definition hold : Decision :=
  {| decision := "HOLD"; size_or_amount := Some 0;
     reasoning := "structure intact"; confidence := Some (6 # 10) |}.

(** A timeframe of [self.fib_levels] as [log_market_analysis] hands it to
    the logger: the same dict, of which the logger reads three keys. *)
Definition logger_levels (f : FibLevels) : TradingDecisionLogger.Levels :=
  {| TradingDecisionLogger.gp_bottom := Some (gp_bottom f);
     TradingDecisionLogger.gp_top := Some (gp_top f);
     TradingDecisionLogger.fib_50 := Some (fib_50 f) |}.

(** Lows of three 5-minute candles around the 4H golden pocket. *)
Definition lows : list Q := [112050; 111900; 112300].

(** The logger of a bot restarted over the example position. *)
Definition recovered_logger : TradingDecisionLogger.t :=
  Eval vm_compute in
    match PositionRecovery.log_recovery (TradingDecisionLogger.init [])
            Scenario.near_cap "2025-10-30T08:00:00" with
    | Ok logger => logger
    | Raise _ => TradingDecisionLogger.init []
    end.

(** A day on which the proposals are too large: the advisor asks for 90%,
    and the third scale-in breaks both caps of the limiter. *)
Definition greedy_entered : result (t * option Fill) :=
  Eval vm_compute in
    Scenario.left_behind
      (enter_position Scenario.flat 100000 Scenario.neutral
         (Ok (Scenario.approve (90 # 100))) true "2025-10-29T10:00:00").

Definition greedy_1 : result (t * option Fill) :=
  Eval vm_compute in
    Scenario.then_scale_in greedy_entered 99000 "2025-10-29T11:00:00".

Definition greedy_2 : result (t * option Fill) :=
  Eval vm_compute in
    Scenario.then_scale_in greedy_1 98000 "2025-10-29T12:00:00".

Definition greedy_3 : result (t * option Fill) :=
  Eval vm_compute in
    Scenario.then_scale_in greedy_2 96000 "2025-10-29T13:00:00".

(** A snapshot with its three keys and nothing remarkable in them. *)
Definition calm : Sentiment :=
  {| fear_greed := Some 50; funding_rate := Some (1 # 10000);
     ls_ratio := Some 1 |}.

End Cases.

(** * Properties *)

Import LiveFibonacciBot Spec.

(** ** Boolean comparisons against their propositions *)

Lemma Qleb_true x y : Qleb x y = true <-> x <= y.
Proof. apply Qle_bool_iff. Qed.

Lemma Qleb_false x y : Qleb x y = false <-> y < x.
Proof.
  unfold Qleb. rewrite <- not_true_iff_false, Qle_bool_iff.
  split; [apply Qnot_le_lt | apply Qlt_not_le].
Qed.

Lemma Qltb_true x y : Qltb x y = true <-> x < y.
Proof. unfold Qltb. rewrite negb_true_iff. apply Qleb_false. Qed.

Lemma Qltb_false x y : Qltb x y = false <-> y <= x.
Proof. unfold Qltb. rewrite negb_false_iff. apply Qleb_true. Qed.

Lemma Qgtb_true x y : Qgtb x y = true <-> y < x.
Proof. apply Qltb_true. Qed.

Lemma Qgtb_false x y : Qgtb x y = false <-> x <= y.
Proof. apply Qltb_false. Qed.

Lemma Qeqb_true x y : Qeqb x y = true <-> x == y.
Proof. apply Qeq_bool_iff. Qed.

Lemma Qeqb_false x y : Qeqb x y = false <-> ~ x == y.
Proof.
  unfold Qeqb. rewrite <- not_true_iff_false, Qeq_bool_iff. reflexivity.
Qed.

(** Turn the boolean tests among the hypotheses into (in)equalities. *)
Ltac qprop :=
  repeat match goal with
  | H : Qleb _ _ = true |- _ => apply Qleb_true in H
  | H : Qleb _ _ = false |- _ => apply Qleb_false in H
  | H : Qltb _ _ = true |- _ => apply Qltb_true in H
  | H : Qltb _ _ = false |- _ => apply Qltb_false in H
  | H : Qgtb _ _ = true |- _ => apply Qgtb_true in H
  | H : Qgtb _ _ = false |- _ => apply Qgtb_false in H
  | H : Qeqb _ _ = true |- _ => apply Qeqb_true in H
  | H : Qeqb _ _ = false |- _ => apply Qeqb_false in H
  end.

(** Case analysis on an innermost boolean test of the goal. *)
Ltac no_if t :=
  lazymatch t with
  | context [if _ then _ else _] => fail
  | _ => idtac
  end.

Ltac qcase :=
  match goal with
  | |- context [Qleb ?x ?y] => no_if x; no_if y; destruct (Qleb x y) eqn:?
  | |- context [Qltb ?x ?y] => no_if x; no_if y; destruct (Qltb x y) eqn:?
  | |- context [Qgtb ?x ?y] => no_if x; no_if y; destruct (Qgtb x y) eqn:?
  | |- context [Qeqb ?x ?y] => no_if x; no_if y; destruct (Qeqb x y) eqn:?
  end.

(** ** The sentiment multiplier *)

Lemma cap_bounds x : 5 # 10 <= cap x /\ cap x <= 15 # 10.
Proof.
  unfold cap, pymax, pymin.
  repeat qcase; qprop; split; lra.
Qed.

Lemma cap_above x : 15 # 10 < x -> cap x == 15 # 10.
Proof.
  intros Hx. unfold cap, pymax, pymin.
  repeat qcase; qprop; lra.
Qed.

(** C9, as the code has it.  At fearGreed=10, fundingRate=-0.05,
    longShortRatio=0.5 the sub-multipliers are 1.3, 1.3 and 1.2 and the
    multiplier is their mean 19/15 (about 1.267): the cap is inactive there.
    Any three sub-multipliers whose mean exceeds 1.5 are capped to 1.5, and
    the multiplier of every sentiment snapshot lies in [0.5, 1.5]. *)
Theorem sentiment_multiplier_scenario_and_clamp :
  calculate_sentiment_multiplier Scenario.extreme_fear == 19 # 15 /\
  (forall m1 m2 m3 : Q,
     15 # 10 < average [m1; m2; m3] -> cap (average [m1; m2; m3]) == 15 # 10) /\
  (forall sentiment : Sentiment,
     5 # 10 <= calculate_sentiment_multiplier sentiment /\
     calculate_sentiment_multiplier sentiment <= 15 # 10).
Proof.
  split; [reflexivity|]. split.
  - intros m1 m2 m3. apply cap_above.
  - intros sentiment. apply cap_bounds.
Qed.

(** C9 as stated fails: at fearGreed=10, fundingRate=-0.05,
    longShortRatio=0.5 the multiplier is not 1.5. *)
Lemma sentiment_multiplier_scenario_is_not_capped :
  ~ calculate_sentiment_multiplier Scenario.extreme_fear == 15 # 10.
Proof. intros H. vm_compute in H. discriminate H. Qed.

(** Witness for C9: three synthetic sub-multipliers of 2 average above 1.5
    and are capped. *)
Lemma sentiment_multiplier_witness :
  15 # 10 < average [2; 2; 2] /\ cap (average [2; 2; 2]) == 15 # 10.
Proof.
  split; [reflexivity|].
  apply (proj1 (proj2 sentiment_multiplier_scenario_and_clamp) 2 2 2).
  reflexivity.
Defined.

(** ** The validator's state *)

Section Frame.
Variable self : SafetyValidator.t.

Lemma validate_entry_frame dec pos :
  snd (SafetyValidator.validate_entry dec pos self) = self.
Proof.
  unfold SafetyValidator.validate_entry, SafetyValidator.bind,
    SafetyValidator.lift, SafetyValidator.ret.
  repeat first [ qcase | progress simpl | reflexivity
               | destruct pos as [p|]
               | destruct (Position.truthy _)
               | destruct (subscript _ _) ].
Qed.

Lemma validate_adjustment_frame today now dec pos price :
  snd (SafetyValidator.validate_adjustment today now dec pos price self) = self.
Proof.
  unfold SafetyValidator.validate_adjustment, SafetyValidator.bind,
    SafetyValidator.gets, SafetyValidator.ret.
  destruct (Nat.leb _ _); [reflexivity|].
  destruct (_ && _); [reflexivity|].
  destruct (SafetyValidator.check_add _ _); [reflexivity|].
  destruct (SafetyValidator.check_reduce _ _ _); reflexivity.
Qed.

Lemma validate_exit_frame dec pos :
  snd (SafetyValidator.validate_exit dec pos self) = self.
Proof.
  unfold SafetyValidator.validate_exit, SafetyValidator.ret.
  destruct (_ || _); reflexivity.
Qed.

Lemma log_adjustment_effect today stamp now action amount :
  let entry := {| SafetyValidator.adj_time := stamp;
                  SafetyValidator.adj_action := action;
                  SafetyValidator.adj_amount := amount |} in
  let self' :=
    snd (SafetyValidator.log_adjustment today stamp now action amount self) in
  SafetyValidator.adjustment_log self' !! today
    = Some (default [] (SafetyValidator.adjustment_log self !! today)
            ++ [entry]) /\
  (forall day, day ≠ today ->
     SafetyValidator.adjustment_log self' !! day
       = SafetyValidator.adjustment_log self !! day) /\
  SafetyValidator.last_adjustment_time self' = now.
Proof.
  unfold SafetyValidator.log_adjustment, SafetyValidator.bind,
    SafetyValidator.gets, SafetyValidator.ret,
    SafetyValidator.set_adjustment_log,
    SafetyValidator.set_last_adjustment_time.
  destruct (SafetyValidator.adjustment_log self !! today) as [l|] eqn:Hday;
    simpl.
  - repeat split.
    + rewrite lookup_alter_eq, Hday. reflexivity.
    + intros day Hne. rewrite lookup_alter_ne by congruence. reflexivity.
  - repeat split.
    + rewrite lookup_alter_eq, lookup_insert_eq. reflexivity.
    + intros day Hne. rewrite lookup_alter_ne by congruence.
      rewrite lookup_insert_ne by congruence. reflexivity.
Qed.

End Frame.

(** C10.  [validate_entry], [validate_adjustment] and [validate_exit] return
    the validator exactly as they found it, whatever the verdict; a call of
    [log_adjustment] appends one entry to today's ledger, leaves the other
    days alone and sets [last_adjustment_time] to the clock. *)
Theorem validation_is_side_effect_free (self : SafetyValidator.t) :
  (forall dec pos,
     snd (SafetyValidator.validate_entry dec pos self) = self) /\
  (forall today now dec pos price,
     snd (SafetyValidator.validate_adjustment today now dec pos price self)
       = self) /\
  (forall dec pos,
     snd (SafetyValidator.validate_exit dec pos self) = self) /\
  (forall today stamp now action amount,
     let self' :=
       snd (SafetyValidator.log_adjustment today stamp now action amount self)
     in
     SafetyValidator.adjustment_log self' !! today
       = Some (default [] (SafetyValidator.adjustment_log self !! today)
               ++ [ {| SafetyValidator.adj_time := stamp;
                       SafetyValidator.adj_action := action;
                       SafetyValidator.adj_amount := amount |} ]) /\
     (forall day, day ≠ today ->
        SafetyValidator.adjustment_log self' !! day
          = SafetyValidator.adjustment_log self !! day) /\
     SafetyValidator.last_adjustment_time self' = now).
Proof.
  split; [|split; [|split]].
  - apply validate_entry_frame.
  - apply validate_adjustment_frame.
  - apply validate_exit_frame.
  - apply log_adjustment_effect.
Qed.

(** Witness for C10: a day other than today keeps its ledger. *)
Lemma validation_frame_witness :
  "2025-10-29" ≠ "2025-10-30" /\
  SafetyValidator.adjustment_log
    (snd (SafetyValidator.log_adjustment "2025-10-30" "2025-10-30T09:00:00"
            1000 "ADD" (5 # 100) SafetyValidator.init)) !! "2025-10-29"
  = SafetyValidator.adjustment_log SafetyValidator.init !! "2025-10-29".
Proof.
  split; [discriminate|].
  apply (proj1 (proj2 (proj2 (proj2 (proj2
           (validation_is_side_effect_free SafetyValidator.init)))
           "2025-10-30" "2025-10-30T09:00:00" 1000 "ADD" (5 # 100)))).
  discriminate.
Defined.

(** ** The adjustment policy *)

Lemma Qdiv_by_zero (x y : Q) : y == 0 -> x / y == 0.
Proof.
  intros Hy. unfold Qdiv. rewrite Hy. change (/ 0) with 0. ring.
Qed.

(** A negative [roiFraction] needs a non-zero average price. *)
Lemma roi_negative_average_nonzero price avg lev :
  roi_fraction price avg lev < 0 -> ~ avg == 0.
Proof.
  unfold roi_fraction, pnl_fraction. intros Hroi Havg.
  rewrite (Qdiv_by_zero _ _ Havg) in Hroi. lra.
Qed.

(** The percentage computed by [_calculate_roi] is [roiFraction] times 100
    on a position that carries a non-zero average price. *)
Lemma calculate_roi_is_roi_fraction pos price avg :
  Position.average_price pos = Some avg ->
  ~ avg == 0 ->
  SafetyValidator._calculate_roi pos price
    == roi_fraction price avg (default 1 (Position.leverage pos)) * 100.
Proof.
  intros Havg Hnz.
  unfold SafetyValidator._calculate_roi, Position.truthy, float_truthy.
  rewrite Havg.
  apply Qeqb_false in Hnz. rewrite Hnz.
  destruct (Position.entry_price pos); simpl; reflexivity.
Qed.

(** C3.  Whatever the validator's ledger and clock and whatever amount is
    proposed, a REDUCE on a position whose leveraged ROI
    [(price - avg) / avg * leverage] is negative is not approved (the
    leverage of a position dict without that key counts as 1, as in
    [_calculate_roi]). *)
Theorem reduce_in_loss_lock
    (self : SafetyValidator.t) (today : string) (now : Q)
    (dec : Decision) (pos : Position.t) (current_price avg : Q) :
  decision dec = "REDUCE" ->
  Position.average_price pos = Some avg ->
  roi_fraction current_price avg (default 1 (Position.leverage pos)) < 0 ->
  exists reason,
    SafetyValidator.validate_adjustment today now dec pos current_price self
      = (Ok (false, reason, None), self).
Proof.
  intros Hact Havg Hroi.
  pose proof (roi_negative_average_nonzero _ _ _ Hroi) as Hnz.
  pose proof (calculate_roi_is_roi_fraction pos current_price _ Havg Hnz)
    as Hcalc.
  unfold SafetyValidator.validate_adjustment, SafetyValidator.bind,
    SafetyValidator.gets, SafetyValidator.ret.
  destruct (Nat.leb _ _); [eexists; reflexivity|].
  destruct (_ && _); [eexists; reflexivity|].
  unfold SafetyValidator.check_add, SafetyValidator.check_reduce.
  rewrite Hact, String.eqb_refl.
  change (String.eqb "REDUCE" "ADD") with false. cbv iota.
  destruct (Qltb (SafetyValidator._calculate_roi pos current_price) 0)
    eqn:Hlt; [eexists; reflexivity|].
  qprop. lra.
Qed.

(** Witness for C3: a 15% REDUCE at 108000 on a 5x position averaged at
    109979. *)
Lemma reduce_in_loss_lock_witness :
  exists reason,
    SafetyValidator.validate_adjustment "2025-10-30" 1000
      (Scenario.reduce (15 # 100)) Scenario.near_cap 108000
      SafetyValidator.init
    = (Ok (false, reason, None), SafetyValidator.init).
Proof.
  apply (reduce_in_loss_lock SafetyValidator.init "2025-10-30" 1000
           (Scenario.reduce (15 # 100)) Scenario.near_cap 108000 109979);
    reflexivity.
Defined.

(** An ADD within the 5% limit is rejected when it would take the notional
    above the cap. *)
Lemma small_add_is_checked_against_notional
    (self : SafetyValidator.t) (today : string) (now : Q)
    (dec : Decision) (pos : Position.t) (current_price amount : Q) :
  decision dec = "ADD" ->
  size_or_amount dec = Some amount ->
  amount <= SafetyValidator.MAX_ADD_PER_REVIEW ->
  SafetyValidator.MAX_TOTAL_NOTIONAL
    < SafetyValidator._calculate_current_notional (Some pos)
      + amount * default 4 (Position.leverage pos) ->
  exists reason,
    SafetyValidator.validate_adjustment today now dec pos current_price self
      = (Ok (false, reason, None), self).
Proof.
  intros Hact Hamt Hsmall Hover.
  unfold SafetyValidator.validate_adjustment, SafetyValidator.bind,
    SafetyValidator.gets, SafetyValidator.ret.
  destruct (Nat.leb _ _); [eexists; reflexivity|].
  destruct (_ && _); [eexists; reflexivity|].
  unfold SafetyValidator.check_add.
  rewrite Hact, Hamt, String.eqb_refl.
  change (default 0 (Some amount)) with amount.
  destruct (Qgtb amount SafetyValidator.MAX_ADD_PER_REVIEW) eqn:Hbig.
  { qprop. lra. }
  destruct (Qgtb _ SafetyValidator.MAX_TOTAL_NOTIONAL) eqn:Hcap.
  { eexists; reflexivity. }
  qprop. lra.
Qed.

(** An ADD above the 5% limit that passes the daily limit and the cooldown
    is approved at 5% whatever the notional. *)
Lemma oversized_add_is_approved
    (self : SafetyValidator.t) (today : string) (now : Q)
    (dec : Decision) (pos : Position.t) (current_price amount : Q) :
  decision dec = "ADD" ->
  size_or_amount dec = Some amount ->
  SafetyValidator.MAX_ADD_PER_REVIEW < amount ->
  (length (default [] (SafetyValidator.adjustment_log self !! today))
     < SafetyValidator.MAX_ADJUSTMENTS_PER_DAY)%nat ->
  SafetyValidator.last_adjustment_time self == 0 ->
  SafetyValidator.validate_adjustment today now dec pos current_price self
    = (Ok (true, SafetyValidator.CappedAtMaxAdd,
           Some (with_size_or_amount dec SafetyValidator.MAX_ADD_PER_REVIEW)),
       self).
Proof.
  intros Hact Hamt Hbig Hday Hfirst.
  unfold SafetyValidator.validate_adjustment, SafetyValidator.bind,
    SafetyValidator.gets, SafetyValidator.ret.
  destruct (Nat.leb _ _) eqn:Hlimit.
  { apply Nat.leb_le in Hlimit. lia. }
  destruct (Qgtb (SafetyValidator.last_adjustment_time self) 0) eqn:Hcool.
  { qprop. lra. }
  rewrite andb_false_r.
  unfold SafetyValidator.check_add.
  rewrite Hact, Hamt, String.eqb_refl.
  change (default 0 (Some amount)) with amount.
  apply Qgtb_true in Hbig. rewrite Hbig. reflexivity.
Qed.

(** C7 at a failing input.  The first adjustment of the day on a 5x position
    with 99% of the capital in use: an ADD of 8% is approved at the clipped
    5% although 0.99 * 5 + 0.05 * 5 = 5.2 is above the 5.0 cap, while the
    same ADD proposed at 5% is rejected. *)
Theorem oversized_add_skips_notional_check :
  SafetyValidator.validate_adjustment "2025-10-30" 1000
    (Scenario.add (8 # 100)) Scenario.near_cap 110000 SafetyValidator.init
  = (Ok (true, SafetyValidator.CappedAtMaxAdd,
         Some (Scenario.add SafetyValidator.MAX_ADD_PER_REVIEW)),
     SafetyValidator.init) /\
  SafetyValidator.MAX_TOTAL_NOTIONAL
    < SafetyValidator._calculate_current_notional (Some Scenario.near_cap)
      + SafetyValidator.MAX_ADD_PER_REVIEW * 5 /\
  SafetyValidator.validate_adjustment "2025-10-30" 1000
    (Scenario.add (5 # 100)) Scenario.near_cap 110000 SafetyValidator.init
  = (Ok (false, SafetyValidator.WouldExceedNotional, None),
     SafetyValidator.init).
Proof. repeat split. Qed.

(** ** Recovery *)

Section Recovery.
Variable live : PositionRecovery.LivePosition.
Variable now : string.

(** With a live position and a readable state file, [recover_position]
    returns a position that carries the four mirrored keys. *)
Lemma recover_position_returns (file : PositionRecovery.StateFile) :
  readable file = true ->
  exists pos last_entry avg,
    PositionRecovery.recover_position (Some live) file now
      = Ok (true, Some pos, last_entry, file) /\
    from_exchange live pos /\
    Position.average_price pos = Some avg.
Proof.
  intros Hfile. unfold PositionRecovery.recover_position, from_exchange.
  destruct file as [| |s]; simpl; [eauto 10 | eauto 10 |].
  destruct (PositionRecovery.saved_truthy s) eqn:Htruthy; simpl;
    [|eauto 10].
  simpl in Hfile. rewrite Htruthy in Hfile. simpl in Hfile.
  apply bool_decide_eq_true in Hfile. destruct Hfile as [ts Hts].
  rewrite Hts. simpl.
  destruct (PositionRecovery.position s) as [p|]; [|eauto 10].
  destruct (Position.truthy p); simpl; eauto 10.
Qed.

(** [log_recovery] cannot fail on such a position and copies the four keys
    into the mirror. *)
Lemma log_recovery_mirrors (logger : TradingDecisionLogger.t)
    (pos : Position.t) (e a s l : Q) :
  Position.entry_price pos = Some e ->
  Position.average_price pos = Some a ->
  Position.size pos = Some s ->
  Position.leverage pos = Some l ->
  exists logger' mirror,
    PositionRecovery.log_recovery logger pos now = Ok logger' /\
    TradingDecisionLogger.current_position logger' = Some mirror /\
    TradingDecisionLogger.entry_price mirror = e /\
    TradingDecisionLogger.average_price mirror = a /\
    TradingDecisionLogger.size mirror = s /\
    TradingDecisionLogger.leverage mirror = l.
Proof.
  intros He Ha Hs Hl. unfold PositionRecovery.log_recovery.
  rewrite He, Ha, Hs, Hl. simpl. eauto 10.
Qed.

End Recovery.

(** C6.  When the exchange reports a position and the state file is readable,
    [recover_position] returns a reconciled position, [log_recovery] on any
    logger succeeds, and afterwards the logger's mirror exists and its
    entry price, average price, size and leverage are those of the
    reconciled position; the constructor of the bot runs exactly these two
    steps and ends with that position and that logger. *)
Theorem recovery_synchronises_logger_mirror
    (live : PositionRecovery.LivePosition) (file : PositionRecovery.StateFile)
    (now : string) (shadow : bool)
    (existing : list TradingDecisionLogger.Entry) :
  readable file = true ->
  exists pos last_entry logger' mirror bot,
    PositionRecovery.recover_position (Some live) file now
      = Ok (true, Some pos, last_entry, file) /\
    PositionRecovery.log_recovery (TradingDecisionLogger.init existing) pos now
      = Ok logger' /\
    TradingDecisionLogger.current_position logger' = Some mirror /\
    Position.entry_price pos = Some (TradingDecisionLogger.entry_price mirror) /\
    Position.average_price pos
      = Some (TradingDecisionLogger.average_price mirror) /\
    Position.size pos = Some (TradingDecisionLogger.size mirror) /\
    Position.leverage pos = Some (TradingDecisionLogger.leverage mirror) /\
    LiveFibonacciBot.init shadow existing (Some live) file now
      = Ok (bot, file) /\
    position bot = Some pos /\
    logger bot = logger'.
Proof.
  intros Hfile.
  destruct (recover_position_returns live now file Hfile)
    as (pos & last_entry & avg & Hrec & (He & Hs & Hl) & Ha).
  destruct (log_recovery_mirrors now (TradingDecisionLogger.init existing)
              pos _ _ _ _ He Ha Hs Hl)
    as (logger' & mirror & Hlog & Hcp & Hme & Hma & Hms & Hml).
  exists pos, last_entry, logger', mirror.
  eexists. repeat split; try eassumption; try congruence.
  - unfold LiveFibonacciBot.init. rewrite Hrec. cbn [rbind].
    rewrite Hs, Hl. cbn [rbind subscript].
    change (logger (fresh shadow existing))
      with (TradingDecisionLogger.init existing).
    rewrite Hlog. cbn [rbind]. reflexivity.
  - reflexivity.
  - reflexivity.
Qed.

(** Witness for C6: a restart over the state file saved the day before. *)
Lemma recovery_synchronises_witness :
  exists pos last_entry logger' mirror bot,
    PositionRecovery.recover_position (Some Scenario.live) Scenario.saved
        "2025-10-30T08:00:00"
      = Ok (true, Some pos, last_entry, Scenario.saved) /\
    PositionRecovery.log_recovery (TradingDecisionLogger.init []) pos
        "2025-10-30T08:00:00"
      = Ok logger' /\
    TradingDecisionLogger.current_position logger' = Some mirror /\
    Position.entry_price pos = Some (TradingDecisionLogger.entry_price mirror) /\
    Position.average_price pos
      = Some (TradingDecisionLogger.average_price mirror) /\
    Position.size pos = Some (TradingDecisionLogger.size mirror) /\
    Position.leverage pos = Some (TradingDecisionLogger.leverage mirror) /\
    LiveFibonacciBot.init false [] (Some Scenario.live) Scenario.saved
        "2025-10-30T08:00:00"
      = Ok (bot, Scenario.saved) /\
    position bot = Some pos /\
    logger bot = logger'.
Proof.
  apply (recovery_synchronises_logger_mirror Scenario.live Scenario.saved
           "2025-10-30T08:00:00" false []).
  reflexivity.
Defined.

(** C8.  With a live position on the exchange: when there is no state file,
    the recovered position takes the exchange's entry price as its average
    price and a scale-in count of 0; when the state file holds an object
    with its timestamp, a saved position with an average price and a
    scale-in count, the recovered position takes that average price and that
    count, and its entry price, size and leverage from the exchange. *)
Theorem recovery_prefers_local_bookkeeping
    (live : PositionRecovery.LivePosition) (now : string) :
  (exists pos last_entry,
     PositionRecovery.recover_position (Some live) PositionRecovery.NoFile now
       = Ok (true, Some pos, last_entry, PositionRecovery.NoFile) /\
     Position.average_price pos
       = Some (PositionRecovery.live_entry_price live) /\
     Position.scale_in_count pos = Some 0%nat /\
     from_exchange live pos) /\
  (forall (s : PositionRecovery.SavedState) (ts : string)
          (p : Position.t) (avg : Q) (n : nat),
     PositionRecovery.timestamp s = Some ts ->
     PositionRecovery.position s = Some p ->
     Position.average_price p = Some avg ->
     PositionRecovery.scale_in_count s = Some n ->
     exists pos last_entry,
       PositionRecovery.recover_position (Some live)
           (PositionRecovery.Stored s) now
         = Ok (true, Some pos, last_entry, PositionRecovery.Stored s) /\
       Position.average_price pos = Some avg /\
       Position.scale_in_count pos = Some n /\
       from_exchange live pos).
Proof.
  split.
  - eexists _, _. unfold from_exchange. simpl. repeat split.
  - intros s ts p avg n Hts Hp Havg Hn.
    unfold PositionRecovery.recover_position, from_exchange. simpl.
    assert (Htruthy : PositionRecovery.saved_truthy s = true).
    { unfold PositionRecovery.saved_truthy. rewrite Hts. reflexivity. }
    assert (Hptruthy : Position.truthy p = true).
    { unfold Position.truthy. rewrite Havg.
      destruct (Position.entry_price p); reflexivity. }
    rewrite Htruthy, Hts, Hp, Hptruthy, Havg, Hn. simpl.
    eexists _, _. repeat split.
Qed.

(** Witness for C8: the state file written by [save_position_state] for a
    position averaged at 109979 after three scale-ins. *)
Lemma recovery_prefers_local_witness :
  exists pos last_entry,
    PositionRecovery.recover_position (Some Scenario.live) Scenario.saved
        "2025-10-30T08:00:00"
      = Ok (true, Some pos, last_entry, Scenario.saved) /\
    Position.average_price pos = Some 109979 /\
    Position.scale_in_count pos = Some 3%nat /\
    from_exchange Scenario.live pos.
Proof.
  refine (proj2 (recovery_prefers_local_bookkeeping Scenario.live
                   "2025-10-30T08:00:00")
            _ "2025-10-29T18:00:00" Scenario.near_cap 109979 3%nat
            _ _ _ _); reflexivity.
Defined.

(** ** The exposure limiter *)

Section ExposureLimiter.
Variable self : LiveFibonacciBot.t.
Variables desired_size leverage : Q.

(** The notional clip divides by a positive leverage and shrinks the size. *)
Lemma notional_clip (d notional : Q) :
  0 < d ->
  MAX_NOTIONAL_EXPOSURE < notional + d * leverage ->
  0 < MAX_NOTIONAL_EXPOSURE - notional ->
  0 < leverage /\
  (MAX_NOTIONAL_EXPOSURE - notional) / leverage * leverage
    == MAX_NOTIONAL_EXPOSURE - notional /\
  0 < (MAX_NOTIONAL_EXPOSURE - notional) / leverage /\
  (MAX_NOTIONAL_EXPOSURE - notional) / leverage < d.
Proof.
  intros Hd Hover Hroom.
  assert (Hlev : 0 < leverage).
  { destruct (Qlt_le_dec 0 leverage) as [|Hle]; [assumption|].
    exfalso. assert (d * leverage <= 0) by nra. lra. }
  split; [assumption|]. split; [|split].
  - field. lra.
  - apply Qlt_shift_div_l; [assumption|]. lra.
  - apply Qlt_shift_div_r; [assumption|]. lra.
Qed.

(** What the limiter returns for a positive proposal: nothing, or a positive
    size no larger than the proposal under which the capital in use does not
    pass the capital cap and the bot's notional estimate does not pass the
    notional cap. *)
Lemma check_exposure_limits_sound :
  0 < desired_size ->
  let result := check_exposure_limits self desired_size leverage in
  result = 0 \/
  (0 < result /\ result <= desired_size /\
   total_position_size self + result <= MAX_CAPITAL_USAGE /\
   current_notional self + result * leverage <= MAX_NOTIONAL_EXPOSURE).
Proof.
  intros Hd. unfold check_exposure_limits.
  set (cur := total_position_size self).
  set (notional := current_notional self).
  destruct (Qgtb (cur + desired_size) MAX_CAPITAL_USAGE) eqn:Hcapital.
  - destruct (Qleb (MAX_CAPITAL_USAGE - cur) 0) eqn:Hroom; [left; reflexivity|].
    destruct (Qgtb (notional + (MAX_CAPITAL_USAGE - cur) * leverage)
                   MAX_NOTIONAL_EXPOSURE) eqn:Hnotional.
    + destruct (Qleb (MAX_NOTIONAL_EXPOSURE - notional) 0) eqn:Hnroom;
        [left; reflexivity|].
      right. qprop.
      destruct (notional_clip (MAX_CAPITAL_USAGE - cur) notional)
        as (Hlev & Hmul & Hpos & Hlt); [lra | lra | lra |].
      repeat split; [assumption | lra | lra | rewrite Hmul; lra].
    + right. qprop. repeat split; lra.
  - destruct (Qgtb (notional + desired_size * leverage)
                   MAX_NOTIONAL_EXPOSURE) eqn:Hnotional.
    + destruct (Qleb (MAX_NOTIONAL_EXPOSURE - notional) 0) eqn:Hnroom;
        [left; reflexivity|].
      right. qprop.
      destruct (notional_clip desired_size notional)
        as (Hlev & Hmul & Hpos & Hlt); [lra | lra | lra |].
      repeat split; [assumption | lra | lra | rewrite Hmul; lra].
    + right. qprop. repeat split; lra.
Qed.

(** A proposal above the capital cap yields nothing when either cap has no
    headroom left. *)
Lemma no_headroom_blocks :
  MAX_CAPITAL_USAGE < total_position_size self + desired_size ->
  MAX_NOTIONAL_EXPOSURE < current_notional self + desired_size * leverage ->
  MAX_CAPITAL_USAGE - total_position_size self <= 0 \/
  MAX_NOTIONAL_EXPOSURE - current_notional self <= 0 ->
  check_exposure_limits self desired_size leverage = 0.
Proof.
  intros Hcapital Hnotional Hroom. unfold check_exposure_limits.
  set (cur := total_position_size self) in *.
  set (notional := current_notional self) in *.
  apply Qgtb_true in Hcapital. rewrite Hcapital.
  destruct (Qleb (MAX_CAPITAL_USAGE - cur) 0) eqn:Hc; [reflexivity|].
  destruct (Qleb (MAX_NOTIONAL_EXPOSURE - notional) 0) eqn:Hn.
  - destruct (Qgtb _ MAX_NOTIONAL_EXPOSURE) eqn:Hre; [reflexivity|].
    exfalso. qprop.
    destruct (Qlt_le_dec 0 leverage) as [Hlev|Hlev].
    + assert (0 < (MAX_CAPITAL_USAGE - cur) * leverage) by nra. lra.
    + assert ((desired_size - (MAX_CAPITAL_USAGE - cur)) * leverage <= 0)
        by nra.
      lra.
  - exfalso. qprop. destruct Hroom; lra.
Qed.

End ExposureLimiter.

(** C4, as amended.  For a proposal that breaks both the capital cap and
    the notional cap, on an exposure that is itself within the caps, the
    size returned by [check_exposure_limits] keeps the capital in use
    within [MAX_CAPITAL_USAGE] and the notional within
    [MAX_NOTIONAL_EXPOSURE] together (each cap that the current exposure
    respects is still respected once the result is added), and the result is
    0 when no headroom is left under one of the caps. *)
Theorem two_phase_clip_satisfies_both_caps
    (self : LiveFibonacciBot.t) (desired_size leverage : Q) :
  let result := check_exposure_limits self desired_size leverage in
  MAX_CAPITAL_USAGE < total_position_size self + desired_size ->
  MAX_NOTIONAL_EXPOSURE < current_notional self + desired_size * leverage ->
  (total_position_size self <= MAX_CAPITAL_USAGE ->
   total_position_size self + result <= MAX_CAPITAL_USAGE) /\
  (current_notional self <= MAX_NOTIONAL_EXPOSURE ->
   current_notional self + result * leverage <= MAX_NOTIONAL_EXPOSURE) /\
  (MAX_CAPITAL_USAGE - total_position_size self <= 0 \/
   MAX_NOTIONAL_EXPOSURE - current_notional self <= 0 ->
   result = 0).
Proof.
  intros result Hcapital Hnotional.
  assert (Hblocked : MAX_CAPITAL_USAGE - total_position_size self <= 0 \/
                     MAX_NOTIONAL_EXPOSURE - current_notional self <= 0 ->
                     result = 0)
    by (apply no_headroom_blocks; assumption).
  assert (Hcases : result = 0 \/
            (total_position_size self + result <= MAX_CAPITAL_USAGE /\
             current_notional self + result * leverage
               <= MAX_NOTIONAL_EXPOSURE)).
  { destruct (Qlt_le_dec 0 desired_size) as [Hd|Hd].
    - destruct (check_exposure_limits_sound self desired_size leverage Hd)
        as [H0 | (_ & _ & Hc & Hn)]; [left; exact H0 | right; split; assumption].
    - left. apply Hblocked. left. lra. }
  repeat split; [| |exact Hblocked].
  - intros Hwithin. destruct Hcases as [H0 | [Hc _]]; [rewrite H0; lra | exact Hc].
  - intros Hwithin. destruct Hcases as [H0 | [_ Hn]]; [rewrite H0; lra | exact Hn].
Qed.

(** Witness for C4: at 105% of capital and 4x, a proposal of 37.5% at 5x
    breaks both caps and is cut to (5.0 - 4.2) / 5 = 16%. *)
Lemma two_phase_clip_witness :
  let self := Scenario.stretched in
  let result := check_exposure_limits self (375 # 1000) 5 in
  result == 16 # 100 /\
  total_position_size self + result <= MAX_CAPITAL_USAGE /\
  current_notional self + result * 5 <= MAX_NOTIONAL_EXPOSURE.
Proof.
  split; [reflexivity|].
  pose proof (two_phase_clip_satisfies_both_caps Scenario.stretched
                (375 # 1000) 5) as H.
  destruct H as (Hc & Hn & _); [reflexivity | reflexivity |].
  split; [apply Hc | apply Hn]; vm_compute; discriminate.
Defined.

(** ** Entries *)

(** An approved entry carries a size in (0, 75%]. *)
Lemma validate_entry_approved dec pos (s s' : SafetyValidator.t) verdict :
  SafetyValidator.validate_entry dec pos s = (Ok verdict, s') ->
  SafetyValidator.approved verdict = true ->
  exists adjusted size,
    SafetyValidator.adjusted verdict = Some adjusted /\
    size_or_amount adjusted = Some size /\
    0 < size /\ size <= SafetyValidator.MAX_POSITION_SIZE.
Proof.
  unfold SafetyValidator.validate_entry, SafetyValidator.bind,
    SafetyValidator.lift, SafetyValidator.ret.
  destruct (size_or_amount dec) as [size|] eqn:Hsize;
    [|intros [= <- <-]; discriminate].
  change (default 0 (Some size)) with size.
  destruct (Qltb size SafetyValidator.MIN_POSITION_SIZE) eqn:Hmin;
    [intros [= <- <-]; discriminate|].
  destruct (Qgtb size SafetyValidator.MAX_POSITION_SIZE) eqn:Hmax.
  { intros [= <- <-] _. eexists _, _.
    split; [reflexivity|]. split; [reflexivity|].
    split; [reflexivity | apply Qle_refl]. }
  destruct (match pos with
            | Some p =>
                if Position.truthy p then subscript "size" (Position.size p)
                else Ok 0
            | None => Ok 0
            end) as [deployed|]; [|intros [= ]].
  destruct (Qgtb (deployed + size) SafetyValidator.MAX_CAPITAL_USAGE)
    eqn:Hreserve.
  { destruct (Qleb (SafetyValidator.MAX_CAPITAL_USAGE - deployed) 0)
      eqn:Hroom; intros [= <- <-]; [discriminate|]. intros _.
    eexists _, _. split; [reflexivity|]. split; [reflexivity|].
    qprop. unfold SafetyValidator.MAX_POSITION_SIZE in *. split; lra. }
  destruct (Qgtb _ SafetyValidator.MAX_TOTAL_NOTIONAL) eqn:Hnotional.
  { destruct (Qleb _ 0) eqn:Hroom; intros [= <- <-]; [discriminate|].
    intros _. eexists _, _. split; [reflexivity|]. split; [reflexivity|].
    qprop. unfold SafetyValidator.MAX_POSITION_SIZE in *.
    set (n := SafetyValidator._calculate_current_notional pos) in *.
    split.
    - apply Qlt_shift_div_l; lra.
    - apply Qle_shift_div_r; lra. }
  destruct (Qgtb 3 SafetyValidator.MAX_LEVERAGE);
    intros [= <- <-]; [discriminate|]. intros _.
  exists dec, size. qprop.
  unfold SafetyValidator.MIN_POSITION_SIZE in *.
  repeat split; [assumption | lra | assumption].
Qed.

(** What a filled entry leaves behind. *)
Lemma enter_position_filled self price sentiment claude order_ok now self' fill
    r :
  enter_position self price sentiment claude order_ok now
    = {| bot_after := self'; order_filled := Some fill; returned := r |} ->
  exists final_size safety',
    self' = opened self safety' price final_size 3 now /\
    fill = {| fill_price := price; fill_size := final_size;
              fill_leverage := 3 |} /\
    0 < final_size /\ final_size <= SafetyValidator.MAX_POSITION_SIZE.
Proof.
  unfold enter_position.
  change (TradingConfig.LEVERAGE !! "base") with (Some (3 : Q)).
  cbn [subscript rbind].
  destruct (String.eqb _ "REJECT"); [intros [= ]|].
  destruct (SafetyValidator.validate_entry _ _ _) as [validated safety']
    eqn:Hvalidate.
  destruct validated as [verdict|]; [|intros [= ]]. cbn [rbind].
  destruct (SafetyValidator.approved verdict) eqn:Happroved;
    [|intros [= ]]. cbn [negb].
  destruct (validate_entry_approved _ _ _ _ _ Hvalidate Happroved)
    as (adjusted & size & Hadj & Hsize & Hpos & Hmax).
  rewrite Hadj, Hsize. cbn [subscript rbind].
  destruct (print_sentiment sentiment) as [[]|]; [|intros [= ]].
  cbn [rbind].
  destruct (if shadow_mode self then true else order_ok);
    [|intros [= ]].
  intros [= <- <- _].
  exists size, safety'. repeat split; assumption.
Qed.

(** A call that fills an order does not return: the bot holds the opened
    position, and [save_position_state] raises [TypeError]. *)
Lemma filled_entry_raises self price sentiment claude order_ok now fill :
  order_filled (enter_position self price sentiment claude order_ok now)
    = Some fill ->
  returned (enter_position self price sentiment claude order_ok now)
    = Raise TypeError.
Proof.
  unfold enter_position.
  change (TradingConfig.LEVERAGE !! "base") with (Some (3 : Q)).
  cbn [subscript rbind].
  destruct (String.eqb _ "REJECT"); [intros [= ]|].
  destruct (SafetyValidator.validate_entry _ _ _) as [validated safety'].
  destruct validated as [verdict|]; [|intros [= ]]. cbn [rbind].
  destruct (negb (SafetyValidator.approved verdict)); [intros [= ]|].
  destruct (match SafetyValidator.adjusted verdict with
            | Some adjusted =>
                subscript "size_or_amount" (size_or_amount adjusted)
            | None => Ok _
            end); [|intros [= ]].
  cbn [rbind].
  destruct (print_sentiment sentiment) as [[]|]; [|intros [= ]].
  cbn [rbind].
  destruct (if shadow_mode self then true else order_ok);
    [|intros [= ]].
  reflexivity.
Qed.

(** ** Scale-ins *)

(** Every level of the configuration adds a positive size at a leverage
    between 3x and 5x. *)
Lemma find_scale_level_config self deviation i level :
  find_scale_level self deviation 0 TradingConfig.SCALE_LEVELS
    = Some (i, level) ->
  0 < TradingConfig.add level /\
  exists lev,
    TradingConfig.LEVERAGE !! ("scale_in_" +:+ pretty (i + 1)%nat) = Some lev /\
    3 <= lev /\ lev <= 5.
Proof.
  unfold TradingConfig.SCALE_LEVELS. cbn [find_scale_level].
  repeat match goal with
         | |- context [Qleb ?x ?y && Nat.leb ?n ?m] =>
             destruct (Qleb x y && Nat.leb n m)
         end;
    intros [= <- <-]; (split; [reflexivity|]).
  - exists 3. repeat split; vm_compute; discriminate.
  - exists 4. repeat split; vm_compute; discriminate.
  - exists 5. repeat split; vm_compute; discriminate.
  - exists 5. repeat split; vm_compute; discriminate.
Qed.

(** The level found has not been used yet and is one of the list. *)
Lemma find_scale_level_index self deviation levels k i level :
  find_scale_level self deviation k levels = Some (i, level) ->
  (scale_in_count self <= i /\ k <= i < k + length levels)%nat.
Proof.
  revert k. induction levels as [|l levels IH]; intros k; cbn [find_scale_level].
  - intros [= ].
  - destruct (Qleb deviation (TradingConfig.deviation l)); cbn [andb].
    + destruct (Nat.leb (scale_in_count self) k) eqn:Hused.
      * intros [= <- <-]. apply Nat.leb_le in Hused. cbn [length]. lia.
      * intros Hrest. apply IH in Hrest. cbn [length]. lia.
    + intros Hrest. apply IH in Hrest. cbn [length]. lia.
Qed.

(** The leverage table does not decrease along the scale levels. *)
Lemma leverage_table_monotone (i j : nat) (li lj : Q) :
  (i <= j < 4)%nat ->
  TradingConfig.LEVERAGE !! ("scale_in_" +:+ pretty (i + 1)%nat) = Some li ->
  TradingConfig.LEVERAGE !! ("scale_in_" +:+ pretty (j + 1)%nat) = Some lj ->
  3 <= li /\ li <= lj.
Proof.
  intros Hij.
  destruct i as [|[|[|[|i]]]]; try lia;
    destruct j as [|[|[|[|j]]]]; try lia;
    vm_compute; intros [= <-] [= <-]; split; discriminate.
Qed.

(** What a filled scale-in leaves behind: the limiter's size is added at the
    code's averaging formula, and the leverage of the new order replaces the
    leverage of the position. *)
Lemma check_scale_in_filled self price sentiment order_ok now self' fill :
  check_scale_in self price sentiment order_ok now = Ok (self', Some fill) ->
  exists pos old_avg desired add lev deviation logger',
    position self = Some pos /\
    Position.average_price pos = Some old_avg /\
    0 < desired /\ 3 <= lev /\ lev <= 5 /\
    add = check_exposure_limits self desired lev /\
    ~ add == 0 /\
    ~ total_position_size self + add == 0 /\
    TradingDecisionLogger.log_scale_decision (logger self) now price
      (add * 100) lev deviation = Ok logger' /\
    fill = {| fill_price := price; fill_size := add; fill_leverage := lev |} /\
    total_position_size self' = total_position_size self + add /\
    current_leverage self' = lev /\
    position self'
      = Some (Position.set_average_price pos
                ((total_position_size self * old_avg + add * price)
                 / (total_position_size self + add))) /\
    logger self' = logger' /\
    exists i,
      (scale_in_count self <= i < 4)%nat /\
      scale_in_count self' = (i + 1)%nat /\
      TradingConfig.LEVERAGE !! ("scale_in_" +:+ pretty (i + 1)%nat)
        = Some lev.
Proof.
  unfold check_scale_in.
  destruct (position self) as [pos|]; [|intros [= ]].
  destruct (last_entry_price self) as [last_entry|]; [|intros [= ]].
  cbn [rbind].
  destruct (pydiv (price - last_entry) last_entry) as [deviation|];
    [|intros [= ]].
  cbn [rbind].
  destruct (find_scale_level self deviation 0 TradingConfig.SCALE_LEVELS)
    as [[i level]|] eqn:Hlevel; [|intros [= ]].
  destruct (find_scale_level_config _ _ _ _ Hlevel)
    as (Hadd & lev & Hlookup & Hlo & Hhi).
  pose proof (find_scale_level_index _ _ _ _ _ _ Hlevel) as Hindex.
  cbn [length TradingConfig.SCALE_LEVELS] in Hindex.
  unfold scale_in_at. rewrite Hlookup.
  change (default (current_leverage self) (Some lev)) with lev.
  set (desired := TradingConfig.add level
                  * calculate_sentiment_multiplier sentiment).
  set (add := check_exposure_limits self desired lev).
  destruct (Qeqb add 0) eqn:Hzero; [intros [= ]|].
  destruct order_ok; [|intros [= ]].
  destruct (TradingDecisionLogger.log_scale_decision _ _ _ _ _ _)
    as [logger'|] eqn:Hlog; [|intros [= ]].
  cbn [rbind].
  destruct (Position.average_price pos) as [old_avg|] eqn:Havg;
    [|intros [= ]].
  cbn [subscript rbind]. unfold pydiv.
  destruct (Qeqb (total_position_size self + add) 0) eqn:Hsum;
    [intros [= ]|].
  cbn [rbind]. intros [= <- <-].
  exists pos, old_avg, desired, add, lev, (deviation * 100), logger'.
  qprop.
  assert (0 < desired).
  { subst desired.
    pose proof (proj1 (cap_bounds
      (average
         [fear_greed_multiplier (default 50 (fear_greed sentiment));
          funding_multiplier (default 0 (funding_rate sentiment));
          ls_multiplier (default 1 (ls_ratio sentiment))]))) as Hm.
    fold (calculate_sentiment_multiplier sentiment) in Hm. nra. }
  repeat split; try assumption; try reflexivity.
  exists i. repeat split; try assumption; lia.
Qed.

(** The sums over the fills of a run grow with each order. *)
Lemma sum_size_snoc fills f :
  sum_size (fills ++ [f]) == sum_size fills + fill_size f.
Proof.
  induction fills as [|g fills IH]; simpl; [ring|]. rewrite IH. ring.
Qed.

Lemma sum_cost_snoc fills f :
  sum_cost (fills ++ [f]) == sum_cost fills + fill_size f * fill_price f.
Proof.
  induction fills as [|g fills IH]; simpl; [ring|]. rewrite IH. ring.
Qed.

Lemma sum_notional_snoc fills f :
  sum_notional (fills ++ [f])
    == sum_notional fills + fill_size f * fill_leverage f.
Proof.
  induction fills as [|g fills IH]; simpl; [ring|]. rewrite IH. ring.
Qed.

(** The averaging step on rationals: adding [a] at price [p] to a position
    of size [S] whose average is [C / S] gives the average [(C + a p) / (S + a)]. *)
Lemma averaging_step (size avg S C a p k : Q) :
  0 < S -> 0 < a -> 0 < k ->
  size == S * k ->
  avg == C / S ->
  (size * avg + a * k * p) / (size + a * k) == (C + a * p) / (S + a).
Proof.
  intros HS Ha Hk Hsize Havg. rewrite Hsize, Havg. field.
  repeat split; try lra. nra.
Qed.

(** The invariant of a run: the bot and the logger's mirror both hold the
    total of the filled sizes and the capital-weighted average of the filled
    prices, and the total stays within the limiter's capital cap. *)
Lemma run_invariant self fills :
  Run self fills ->
  exists pos avg mirror,
    position self = Some pos /\
    Position.average_price pos = Some avg /\
    TradingDecisionLogger.current_position (logger self) = Some mirror /\
    0 < sum_size fills /\
    total_position_size self == sum_size fills /\
    avg == weighted_average_price fills /\
    TradingDecisionLogger.size mirror == sum_size fills * 100 /\
    TradingDecisionLogger.average_price mirror
      == weighted_average_price fills /\
    total_position_size self <= MAX_CAPITAL_USAGE.
Proof.
  induction 1 as [self price sentiment claude order_ok now self' fill r _
                    Henter
                 |self fills price sentiment order_ok now self' fill _ IH Hscale].
  - destruct (enter_position_filled _ _ _ _ _ _ _ _ _ Henter)
      as (final & safety' & -> & -> & Hpos & Hmax).
    unfold SafetyValidator.MAX_POSITION_SIZE in Hmax.
    eexists _, _, _. split; [reflexivity|]. split; [reflexivity|].
    split; [reflexivity|].
    unfold weighted_average_price. simpl.
    repeat split; try lra; try (field; lra).
    unfold MAX_CAPITAL_USAGE. lra.
  - destruct IH as (pos & avg & mirror & Hp & Ha & Hm & HS & Htotal & Havg
                    & Hmsize & Hmavg & Hcap).
    destruct (check_scale_in_filled _ _ _ _ _ _ _ Hscale)
      as (pos' & old_avg & desired & add & lev & deviation & logger'
          & Hp' & Ha' & Hdesired & Hlo & Hhi & Hadd & Hnz & Hsum & Hlog
          & -> & Htotal' & Hlev' & Hpos' & Hlogger' & _).
    rewrite Hp in Hp'. injection Hp' as <-.
    rewrite Ha in Ha'. injection Ha' as <-.
    assert (Hadded : 0 < add /\ total_position_size self + add
                               <= MAX_CAPITAL_USAGE).
    { pose proof (check_exposure_limits_sound self desired lev Hdesired)
        as Hsound.
      cbv zeta in Hsound. rewrite <- Hadd in Hsound.
      destruct Hsound as [H0 | (Hpos & _ & Hc & _)]; [|split; assumption].
      exfalso. apply Hnz. rewrite H0. reflexivity. }
    destruct Hadded as [Hpos Hc].
    unfold TradingDecisionLogger.log_scale_decision in Hlog.
    rewrite Hm in Hlog. unfold pydiv in Hlog.
    destruct (Qeqb _ 0) in Hlog; [discriminate Hlog|].
    cbn [rbind] in Hlog. injection Hlog as <-.
    rewrite Hlogger'.
    eexists _, _, _. split; [exact Hpos'|]. split; [reflexivity|].
    split; [reflexivity|].
    unfold weighted_average_price in *.
    cbn [TradingDecisionLogger.size TradingDecisionLogger.average_price].
    rewrite sum_size_snoc, sum_cost_snoc. cbn [fill_size fill_price].
    rewrite Htotal'.
    split; [lra|]. split; [rewrite Htotal; reflexivity|].
    split; [|split; [rewrite Hmsize; ring|split; [|exact Hc]]].
    + pose proof (averaging_step (total_position_size self) avg
                    (sum_size fills) (sum_cost fills) add price 1) as Hstep.
      rewrite !Qmult_1_r in Hstep. apply Hstep; try lra; assumption.
    + apply (averaging_step (TradingDecisionLogger.size mirror)
               (TradingDecisionLogger.average_price mirror)
               (sum_size fills) (sum_cost fills) add price 100);
        try lra; assumption.
Qed.

(** ** The example day is a run *)

Lemma scenario_entered :
  Run (Scenario.state Scenario.entered) (Scenario.orders [Scenario.entered]).
Proof.
  eapply (run_entry Scenario.flat 100000 Scenario.neutral
            (Ok (Scenario.approve (35 # 100))) true "2025-10-29T10:00:00"
            _ _ (Raise TypeError)).
  - reflexivity.
  - vm_compute. reflexivity.
Qed.

Lemma scenario_scaled_1 :
  Run (Scenario.state Scenario.scaled_1)
      (Scenario.orders [Scenario.entered; Scenario.scaled_1]).
Proof.
  change (Scenario.orders [Scenario.entered; Scenario.scaled_1])
    with (Scenario.orders [Scenario.entered]
          ++ Scenario.orders [Scenario.scaled_1]).
  eapply (run_scale_in _ _ 99000 Scenario.neutral true "2025-10-29T11:00:00").
  - exact scenario_entered.
  - vm_compute. reflexivity.
Qed.

Lemma scenario_scaled_2 :
  Run (Scenario.state Scenario.scaled_2)
      (Scenario.orders [Scenario.entered; Scenario.scaled_1;
                        Scenario.scaled_2]).
Proof.
  change (Scenario.orders [Scenario.entered; Scenario.scaled_1;
                           Scenario.scaled_2])
    with (Scenario.orders [Scenario.entered; Scenario.scaled_1]
          ++ Scenario.orders [Scenario.scaled_2]).
  eapply (run_scale_in _ _ 98000 Scenario.neutral true "2025-10-29T12:00:00").
  - exact scenario_scaled_1.
  - vm_compute. reflexivity.
Qed.

Lemma scenario_scaled_3 :
  Run (Scenario.state Scenario.scaled_3)
      (Scenario.orders [Scenario.entered; Scenario.scaled_1;
                        Scenario.scaled_2; Scenario.scaled_3]).
Proof.
  change (Scenario.orders [Scenario.entered; Scenario.scaled_1;
                           Scenario.scaled_2; Scenario.scaled_3])
    with (Scenario.orders [Scenario.entered; Scenario.scaled_1;
                           Scenario.scaled_2]
          ++ Scenario.orders [Scenario.scaled_3]).
  eapply (run_scale_in _ _ 96000 Scenario.neutral true "2025-10-29T13:00:00").
  - exact scenario_scaled_2.
  - vm_compute. reflexivity.
Qed.

(** ** Averaging *)

(** C2.  Along every run (an approved entry followed by any number of
    approved scale-ins, at any prices), the position's average price is the
    capital-weighted average of the filled prices, and so is the average
    price of the logger's mirror; after an entry of [s0] at [p0] and one
    scale-in of [s1] at [p1] it is [(s0 p0 + s1 p1) / (s0 + s1)]. *)
Theorem averaging_correctness (self : LiveFibonacciBot.t) (fills : list Fill) :
  Run self fills ->
  exists pos avg mirror,
    position self = Some pos /\
    Position.average_price pos = Some avg /\
    avg == weighted_average_price fills /\
    TradingDecisionLogger.current_position (logger self) = Some mirror /\
    TradingDecisionLogger.average_price mirror
      == weighted_average_price fills /\
    (forall f0 f1, fills = [f0; f1] ->
       avg == (fill_size f0 * fill_price f0 + fill_size f1 * fill_price f1)
              / (fill_size f0 + fill_size f1)).
Proof.
  intros Hrun.
  destruct (run_invariant self fills Hrun)
    as (pos & avg & mirror & Hp & Ha & Hm & HS & _ & Havg & _ & Hmavg & _).
  exists pos, avg, mirror. repeat split; try assumption.
  intros f0 f1 ->. rewrite Havg.
  unfold weighted_average_price in *. simpl in *. field. lra.
Qed.

(** Witness for C2: 35% at 100000, then 20% at 99000. *)
Lemma averaging_correctness_witness :
  exists pos avg,
    position (Scenario.state Scenario.scaled_1) = Some pos /\
    Position.average_price pos = Some avg /\
    avg == ((35 # 100) * 100000 + (20 # 100) * 99000) / (55 # 100).
Proof.
  destruct (averaging_correctness _ _ scenario_scaled_1)
    as (pos & avg & mirror & Hp & Ha & _ & _ & _ & Htwo).
  exists pos, avg. split; [exact Hp|]. split; [exact Ha|].
  rewrite (Htwo _ _ eq_refl). reflexivity.
Defined.

(** ** Leverage after a scale-in *)

(** A filled scale-in leaves the position at the leverage of its order. *)
Lemma scale_in_takes_order_leverage self price sentiment order_ok now self' fill :
  check_scale_in self price sentiment order_ok now = Ok (self', Some fill) ->
  current_leverage self' = fill_leverage fill.
Proof.
  intros Hscale.
  destruct (check_scale_in_filled _ _ _ _ _ _ _ Hscale)
    as (pos & old_avg & desired & add & lev & deviation & logger'
        & _ & _ & _ & _ & _ & _ & _ & _ & _ & -> & _ & -> & _).
  reflexivity.
Qed.

(** C5 at a failing input.  After 35% at 3x, 20% at 3x and 25% at 4x the
    bot holds its position at 4x, the leverage of the last order; the
    capital-weighted leverage of the three orders is 53/16 = 3.3125. *)
Theorem scale_in_overwrites_leverage :
  let self := Scenario.state Scenario.scaled_2 in
  let fills := Scenario.orders [Scenario.entered; Scenario.scaled_1;
                                Scenario.scaled_2] in
  Run self fills /\
  current_leverage self == 4 /\
  weighted_leverage fills == 53 # 16 /\
  ~ current_leverage self == weighted_leverage fills.
Proof.
  split; [exact scenario_scaled_2|].
  split; [reflexivity|]. split; [reflexivity|].
  intros H. vm_compute in H. discriminate H.
Qed.

(** ** The exposure caps along a run *)

(** Along every run the capital in use stays within the limiter's
    [MAX_CAPITAL_USAGE]. *)
Lemma run_within_capital_cap self fills :
  Run self fills -> total_position_size self <= MAX_CAPITAL_USAGE.
Proof.
  intros Hrun.
  destruct (run_invariant self fills Hrun)
    as (_ & _ & _ & _ & _ & _ & _ & _ & _ & _ & _ & Hcap).
  exact Hcap.
Qed.

(** A filled scale-in passed the limiter's test on the bot's estimate of
    the notional before the order. *)
Lemma scale_in_passed_notional_check self price sentiment order_ok now self' fill :
  check_scale_in self price sentiment order_ok now = Ok (self', Some fill) ->
  current_notional self + fill_size fill * fill_leverage fill
    <= MAX_NOTIONAL_EXPOSURE.
Proof.
  intros Hscale.
  destruct (check_scale_in_filled _ _ _ _ _ _ _ Hscale)
    as (pos & old_avg & desired & add & lev & deviation & logger'
        & _ & _ & Hdesired & _ & _ & Hadd & Hnz & _ & _ & -> & _).
  pose proof (check_exposure_limits_sound self desired lev Hdesired) as Hsound.
  cbv zeta in Hsound. rewrite <- Hadd in Hsound.
  destruct Hsound as [H0 | (_ & _ & _ & Hn)]; [|exact Hn].
  exfalso. apply Hnz. rewrite H0. reflexivity.
Qed.

(** Along every run the notionals of the orders themselves add up to at most
    the cap: the leverage table does not decrease, so the bot's estimate
    (total size at the latest leverage) never understates them. *)
Lemma run_order_notional_within_cap self fills :
  Run self fills ->
  sum_notional fills <= MAX_NOTIONAL_EXPOSURE /\
  sum_notional fills <= total_position_size self * current_leverage self /\
  0 <= total_position_size self /\
  3 <= current_leverage self /\
  (forall j lj,
     (scale_in_count self <= j < 4)%nat ->
     TradingConfig.LEVERAGE !! ("scale_in_" +:+ pretty (j + 1)%nat) = Some lj ->
     current_leverage self <= lj).
Proof.
  induction 1 as [self price sentiment claude order_ok now self' fill r _
                    Henter
                 |self fills price sentiment order_ok now self' fill _ IH Hscale].
  - destruct (enter_position_filled _ _ _ _ _ _ _ _ _ Henter)
      as (final & safety' & -> & -> & Hpos & Hmax).
    unfold SafetyValidator.MAX_POSITION_SIZE in Hmax.
    unfold MAX_NOTIONAL_EXPOSURE. simpl.
    repeat split; try lra.
    intros j lj Hj Hlookup.
    apply (leverage_table_monotone j j lj lj); [lia | assumption..].
  - destruct IH as (Hsum & Hestimate & Hsize & Hlev & Hnext).
    destruct (check_scale_in_filled _ _ _ _ _ _ _ Hscale)
      as (pos & old_avg & desired & add & lev & deviation & logger'
          & _ & _ & Hdesired & Hlo & Hhi & Hadd & Hnz & _ & _
          & -> & Htotal' & Hlev' & _ & _ & i & Hi & Hcount & Hlookup).
    pose proof (check_exposure_limits_sound self desired lev Hdesired)
      as Hsound.
    cbv zeta in Hsound. rewrite <- Hadd in Hsound.
    destruct Hsound as [H0 | (Hpos & _ & _ & Hn)].
    { exfalso. apply Hnz. rewrite H0. reflexivity. }
    unfold current_notional in Hn.
    destruct (Qgtb (current_leverage self) 0) eqn:Hpositive;
      [|qprop; lra].
    pose proof (Hnext i lev Hi Hlookup) as Hup.
    rewrite sum_notional_snoc, Htotal', Hlev', Hcount.
    cbn [fill_size fill_leverage].
    repeat split; try lra; try nra.
    intros j lj Hj Hlj.
    apply (leverage_table_monotone i j lev lj); [lia | assumption..].
Qed.

(** The first order of a run is the entry, of at most 75%. *)
Lemma run_entry_order self fills :
  Run self fills ->
  exists first rest,
    fills = first :: rest /\
    fill_size first <= SafetyValidator.MAX_POSITION_SIZE.
Proof.
  induction 1 as [self price sentiment claude order_ok now self' fill r _
                    Henter
                 |self fills price sentiment order_ok now self' fill _ IH Hscale].
  - destruct (enter_position_filled _ _ _ _ _ _ _ _ _ Henter)
      as (final & safety' & _ & -> & _ & Hmax).
    eexists _, _. split; [reflexivity | exact Hmax].
  - destruct IH as (first & rest & -> & Hmax).
    exists first, (rest ++ [fill]). split; [reflexivity | exact Hmax].
Qed.

(** A day on which the proposals are too large is a run all the same. *)
Lemma greedy_day_is_a_run :
  Run (Scenario.state Cases.greedy_3)
      (Scenario.orders [Cases.greedy_entered; Cases.greedy_1; Cases.greedy_2;
                        Cases.greedy_3]).
Proof.
  change (Scenario.orders [Cases.greedy_entered; Cases.greedy_1;
                           Cases.greedy_2; Cases.greedy_3])
    with (((Scenario.orders [Cases.greedy_entered]
            ++ Scenario.orders [Cases.greedy_1])
           ++ Scenario.orders [Cases.greedy_2])
          ++ Scenario.orders [Cases.greedy_3]).
  eapply (run_scale_in (Scenario.state Cases.greedy_2) _ 96000
            Scenario.neutral true "2025-10-29T13:00:00");
    [|vm_compute; reflexivity].
  eapply (run_scale_in (Scenario.state Cases.greedy_1) _ 98000
            Scenario.neutral true "2025-10-29T12:00:00");
    [|vm_compute; reflexivity].
  eapply (run_scale_in (Scenario.state Cases.greedy_entered) _ 99000
            Scenario.neutral true "2025-10-29T11:00:00");
    [|vm_compute; reflexivity].
  eapply (run_entry Scenario.flat 100000 Scenario.neutral
            (Ok (Scenario.approve (90 # 100))) true "2025-10-29T10:00:00"
            _ _ (Raise TypeError));
    [reflexivity | vm_compute; reflexivity].
Qed.

(** C1.  Along every run, whatever sizes were proposed, the aggregate size
    of the position is the sum of the sizes of the orders and stays within
    [MAX_CAPITAL_USAGE], the cap of the limiter under which the scale-ins
    are approved (135%), and the aggregate notional, the sum of size times
    leverage over the orders, stays within [MAX_TOTAL_NOTIONAL] (5.0).  The
    entry, the one order [validate_entry] approves, stays within the
    validator's own [MAX_CAPITAL_USAGE] (94%). *)
Theorem exposure_cap_invariant (self : LiveFibonacciBot.t)
    (fills : list Fill) :
  Run self fills ->
  total_position_size self == sum_size fills /\
  sum_size fills <= MAX_CAPITAL_USAGE /\
  sum_notional fills <= SafetyValidator.MAX_TOTAL_NOTIONAL /\
  exists first rest,
    fills = first :: rest /\
    fill_size first <= SafetyValidator.MAX_CAPITAL_USAGE.
Proof.
  intros Hrun.
  destruct (run_invariant self fills Hrun)
    as (_ & _ & _ & _ & _ & _ & _ & Htotal & _ & _ & _ & Hcap).
  split; [exact Htotal|].
  split; [rewrite <- Htotal; exact Hcap|].
  split; [exact (proj1 (run_order_notional_within_cap self fills Hrun))|].
  destruct (run_entry_order self fills Hrun) as (first & rest & -> & Hmax).
  exists first, rest. split; [reflexivity|].
  unfold SafetyValidator.MAX_POSITION_SIZE in Hmax.
  unfold SafetyValidator.MAX_CAPITAL_USAGE. lra.
Qed.

(** Witness for C1: the advisor asks for 90% and gets 75%; the scale-ins of
    20% at 3x and 25% at 4x pass; the third, 25% at 5x, breaks both caps
    and is cut to 4%.  The orders add up to 124% and to a notional of
    4.05. *)
Lemma exposure_cap_invariant_witness :
  sum_size (Scenario.orders [Cases.greedy_entered; Cases.greedy_1;
                             Cases.greedy_2; Cases.greedy_3])
    == 124 # 100 /\
  sum_notional (Scenario.orders [Cases.greedy_entered; Cases.greedy_1;
                                 Cases.greedy_2; Cases.greedy_3])
    == 405 # 100 /\
  sum_size (Scenario.orders [Cases.greedy_entered; Cases.greedy_1;
                             Cases.greedy_2; Cases.greedy_3])
    <= MAX_CAPITAL_USAGE /\
  sum_notional (Scenario.orders [Cases.greedy_entered; Cases.greedy_1;
                                 Cases.greedy_2; Cases.greedy_3])
    <= SafetyValidator.MAX_TOTAL_NOTIONAL.
Proof.
  split; [reflexivity|]. split; [reflexivity|].
  destruct (exposure_cap_invariant _ _ greedy_day_is_a_run)
    as (_ & Hsize & Hnotional & _).
  split; assumption.
Defined.

(** C4 as it is written fails where the exposure is already above a cap.
    After the example day (35% at 3x, then 20% at 3x, 25% at 4x and 25% at
    5x, each approved) the bot holds 105% at 5x, a notional of 5.25 by the
    estimate of [check_exposure_limits].  A proposal of 40% at 5x breaks
    both caps; the limiter returns 0, and with this result added the
    notional is still 5.25, above [MAX_NOTIONAL_EXPOSURE]. *)
Lemma two_phase_clip_cannot_repair_a_breach :
  Run (Scenario.state Scenario.scaled_3)
      (Scenario.orders [Scenario.entered; Scenario.scaled_1;
                        Scenario.scaled_2; Scenario.scaled_3]) /\
  MAX_CAPITAL_USAGE
    < total_position_size (Scenario.state Scenario.scaled_3) + (40 # 100) /\
  MAX_NOTIONAL_EXPOSURE
    < current_notional (Scenario.state Scenario.scaled_3) + (40 # 100) * 5 /\
  check_exposure_limits (Scenario.state Scenario.scaled_3) (40 # 100) 5
    == 0 /\
  ~ (total_position_size (Scenario.state Scenario.scaled_3)
     + check_exposure_limits (Scenario.state Scenario.scaled_3) (40 # 100) 5
       <= MAX_CAPITAL_USAGE /\
     current_notional (Scenario.state Scenario.scaled_3)
     + check_exposure_limits (Scenario.state Scenario.scaled_3) (40 # 100) 5
       * 5
       <= MAX_NOTIONAL_EXPOSURE).
Proof.
  split; [exact scenario_scaled_3|].
  split; [reflexivity|]. split; [reflexivity|]. split; [reflexivity|].
  intros [_ H]. vm_compute in H. apply H. reflexivity.
Qed.

(** * Further properties of the validator *)

(** X1.  Whatever the current position, an approved entry carries a size
    that is positive, at most 75% and at most the size proposed, under the
    action that was proposed. *)
Theorem approved_entry_size_is_bounded dec pos (s s' : SafetyValidator.t)
    verdict :
  SafetyValidator.validate_entry dec pos s = (Ok verdict, s') ->
  SafetyValidator.approved verdict = true ->
  exists adjusted size,
    SafetyValidator.adjusted verdict = Some adjusted /\
    decision adjusted = decision dec /\
    size_or_amount adjusted = Some size /\
    0 < size /\ size <= SafetyValidator.MAX_POSITION_SIZE /\
    size <= default 0 (size_or_amount dec).
Proof.
  unfold SafetyValidator.validate_entry, SafetyValidator.bind,
    SafetyValidator.lift, SafetyValidator.ret.
  destruct (size_or_amount dec) as [size|] eqn:Hsize;
    [|intros [= <- <-]; discriminate].
  change (default 0 (Some size)) with size.
  destruct (Qltb size SafetyValidator.MIN_POSITION_SIZE) eqn:Hmin;
    [intros [= <- <-]; discriminate|].
  destruct (Qgtb size SafetyValidator.MAX_POSITION_SIZE) eqn:Hmax.
  { intros [= <- <-] _. eexists _, _.
    split; [reflexivity|]. split; [reflexivity|]. split; [reflexivity|].
    qprop. unfold SafetyValidator.MAX_POSITION_SIZE in *.
    repeat split; lra. }
  destruct (match pos with
            | Some p =>
                if Position.truthy p then subscript "size" (Position.size p)
                else Ok 0
            | None => Ok 0
            end) as [deployed|]; [|intros [= ]].
  destruct (Qgtb (deployed + size) SafetyValidator.MAX_CAPITAL_USAGE)
    eqn:Hreserve.
  { destruct (Qleb (SafetyValidator.MAX_CAPITAL_USAGE - deployed) 0)
      eqn:Hroom; intros [= <- <-]; [discriminate|]. intros _.
    eexists _, _.
    split; [reflexivity|]. split; [reflexivity|]. split; [reflexivity|].
    qprop. unfold SafetyValidator.MAX_POSITION_SIZE in *.
    repeat split; lra. }
  destruct (Qgtb _ SafetyValidator.MAX_TOTAL_NOTIONAL) eqn:Hnotional.
  { destruct (Qleb _ 0) eqn:Hroom; intros [= <- <-]; [discriminate|].
    intros _. eexists _, _.
    split; [reflexivity|]. split; [reflexivity|]. split; [reflexivity|].
    qprop. unfold SafetyValidator.MAX_POSITION_SIZE in *.
    set (n := SafetyValidator._calculate_current_notional pos) in *.
    split; [apply Qlt_shift_div_l; lra|].
    split; apply Qle_shift_div_r; lra. }
  destruct (Qgtb 3 SafetyValidator.MAX_LEVERAGE);
    intros [= <- <-]; [discriminate|]. intros _.
  exists dec, size. qprop.
  unfold SafetyValidator.MIN_POSITION_SIZE in *.
  repeat split; try assumption; lra.
Qed.

(** Witness for X1: 90% proposed on a flat account is approved at 75%. *)
Lemma approved_entry_size_witness :
  exists adjusted size,
    Some (with_size_or_amount (Scenario.approve (90 # 100))
            SafetyValidator.MAX_POSITION_SIZE) = Some adjusted /\
    decision adjusted = "APPROVE" /\
    size_or_amount adjusted = Some size /\
    0 < size /\ size <= SafetyValidator.MAX_POSITION_SIZE /\
    size <= 90 # 100.
Proof.
  apply (approved_entry_size_is_bounded (Scenario.approve (90 # 100)) None
           SafetyValidator.init SafetyValidator.init
           (true, SafetyValidator.CappedAtMaximum,
            Some (with_size_or_amount (Scenario.approve (90 # 100))
                    SafetyValidator.MAX_POSITION_SIZE)));
    reflexivity.
Defined.

(** X2.  A proposal of at most 75% on top of a position holding [deployed]
    is only approved at a size that keeps [deployed] plus the approved size
    within 94%; when the proposal itself fits the 94%, the approved size
    also keeps the validator's notional within 5.0. *)
Theorem in_range_entry_keeps_liquid_reserve dec p (deployed size : Q)
    (s s' : SafetyValidator.t) verdict :
  size_or_amount dec = Some size ->
  size <= SafetyValidator.MAX_POSITION_SIZE ->
  Position.size p = Some deployed ->
  SafetyValidator.validate_entry dec (Some p) s = (Ok verdict, s') ->
  SafetyValidator.approved verdict = true ->
  exists adjusted approved_size,
    SafetyValidator.adjusted verdict = Some adjusted /\
    size_or_amount adjusted = Some approved_size /\
    deployed + approved_size <= SafetyValidator.MAX_CAPITAL_USAGE /\
    (deployed + size <= SafetyValidator.MAX_CAPITAL_USAGE ->
     SafetyValidator._calculate_current_notional (Some p) + approved_size * 3
       <= SafetyValidator.MAX_TOTAL_NOTIONAL).
Proof.
  intros Hsize Hmax Hdeployed.
  unfold SafetyValidator.validate_entry, SafetyValidator.bind,
    SafetyValidator.lift, SafetyValidator.ret.
  rewrite Hsize. change (default 0 (Some size)) with size.
  destruct (Qltb size SafetyValidator.MIN_POSITION_SIZE) eqn:Hmin;
    [intros [= <- <-]; discriminate|].
  apply Qgtb_false in Hmax. rewrite Hmax.
  assert (Htruthy : Position.truthy p = true).
  { unfold Position.truthy. rewrite Hdeployed.
    destruct (Position.entry_price p), (Position.average_price p);
      reflexivity. }
  rewrite Htruthy, Hdeployed. cbn [subscript].
  destruct (Qgtb (deployed + size) SafetyValidator.MAX_CAPITAL_USAGE)
    eqn:Hreserve.
  { destruct (Qleb (SafetyValidator.MAX_CAPITAL_USAGE - deployed) 0)
      eqn:Hroom; intros [= <- <-]; [discriminate|]. intros _.
    eexists _, _. split; [reflexivity|]. split; [reflexivity|].
    qprop. split; lra. }
  set (n := SafetyValidator._calculate_current_notional (Some p)).
  destruct (Qgtb (n + size * 3) SafetyValidator.MAX_TOTAL_NOTIONAL)
    eqn:Hnotional.
  { destruct (Qleb (SafetyValidator.MAX_TOTAL_NOTIONAL - n) 0) eqn:Hroom;
      intros [= <- <-]; [discriminate|]. intros _.
    eexists _, _. split; [reflexivity|]. split; [reflexivity|].
    qprop.
    assert (Hsafe : (SafetyValidator.MAX_TOTAL_NOTIONAL - n) / 3 <= size)
      by (apply Qle_shift_div_r; lra).
    split; [lra|]. intros _.
    assert (Heq : (SafetyValidator.MAX_TOTAL_NOTIONAL - n) / 3 * 3
                  == SafetyValidator.MAX_TOTAL_NOTIONAL - n) by (field).
    lra. }
  destruct (Qgtb 3 SafetyValidator.MAX_LEVERAGE);
    intros [= <- <-]; [discriminate|]. intros _.
  exists dec, size. qprop. repeat split; try assumption; lra.
Qed.

(** Witness for X2: 30% on top of the example position of 1% is approved
    at 30%. *)
Lemma in_range_entry_witness :
  exists adjusted approved_size,
    Some (Scenario.approve (30 # 100)) = Some adjusted /\
    size_or_amount adjusted = Some approved_size /\
    (1 # 100) + approved_size <= SafetyValidator.MAX_CAPITAL_USAGE /\
    ((1 # 100) + (30 # 100) <= SafetyValidator.MAX_CAPITAL_USAGE ->
     SafetyValidator._calculate_current_notional (Some Cases.small_position)
       + approved_size * 3 <= SafetyValidator.MAX_TOTAL_NOTIONAL).
Proof.
  apply (in_range_entry_keeps_liquid_reserve (Scenario.approve (30 # 100))
           Cases.small_position (1 # 100) (30 # 100)
           SafetyValidator.init SafetyValidator.init
           (true, SafetyValidator.TradeApproved,
            Some (Scenario.approve (30 # 100))));
    try reflexivity.
  vm_compute. discriminate.
Defined.

(** X3.  On a flat account every proposal between 25% and 75% is approved
    as proposed. *)
Theorem flat_entry_in_range_is_approved_unchanged dec (size : Q)
    (s : SafetyValidator.t) :
  size_or_amount dec = Some size ->
  SafetyValidator.MIN_POSITION_SIZE <= size ->
  size <= SafetyValidator.MAX_POSITION_SIZE ->
  SafetyValidator.validate_entry dec None s
    = (Ok (true, SafetyValidator.TradeApproved, Some dec), s).
Proof.
  intros Hsize Hmin Hmax.
  unfold SafetyValidator.validate_entry, SafetyValidator.bind,
    SafetyValidator.lift, SafetyValidator.ret.
  rewrite Hsize. change (default 0 (Some size)) with size.
  apply Qltb_false in Hmin. rewrite Hmin.
  pose proof Hmax as Hmax'. apply Qgtb_false in Hmax'. rewrite Hmax'.
  unfold SafetyValidator.MAX_POSITION_SIZE in Hmax.
  assert (Hreserve : Qgtb (0 + size) SafetyValidator.MAX_CAPITAL_USAGE = false).
  { apply Qgtb_false. unfold SafetyValidator.MAX_CAPITAL_USAGE. lra. }
  rewrite Hreserve.
  assert (Hnotional : Qgtb (SafetyValidator._calculate_current_notional None
                            + size * 3)
                        SafetyValidator.MAX_TOTAL_NOTIONAL = false).
  { apply Qgtb_false. unfold SafetyValidator.MAX_TOTAL_NOTIONAL. simpl. lra. }
  rewrite Hnotional. reflexivity.
Qed.

(** Witness for X3: the algorithm's 35%. *)
Lemma flat_entry_in_range_witness :
  SafetyValidator.validate_entry (Scenario.approve (35 # 100)) None
    SafetyValidator.init
  = (Ok (true, SafetyValidator.TradeApproved,
         Some (Scenario.approve (35 # 100))), SafetyValidator.init).
Proof.
  apply (flat_entry_in_range_is_approved_unchanged
           (Scenario.approve (35 # 100)) (35 # 100) SafetyValidator.init);
    [reflexivity | vm_compute; discriminate | vm_compute; discriminate].
Defined.

(** Each [log_adjustment] adds one to the count of the day. *)
Lemma log_adjustment_counts today stamp now action amount
    (self : SafetyValidator.t) :
  length (default []
            (SafetyValidator.adjustment_log
               (snd (SafetyValidator.log_adjustment today stamp now action
                       amount self)) !! today))
  = S (length (default [] (SafetyValidator.adjustment_log self !! today))).
Proof.
  destruct (log_adjustment_effect self today stamp now action amount)
    as (Hday & _).
  cbv zeta in Hday. rewrite Hday.
  change (default [] (Some ?l)) with l.
  rewrite length_app. simpl. lia.
Qed.

(** With three adjustments on the day's ledger nothing more is approved. *)
Lemma full_ledger_rejects today now dec pos price (self : SafetyValidator.t) :
  (SafetyValidator.MAX_ADJUSTMENTS_PER_DAY
     <= length (default [] (SafetyValidator.adjustment_log self !! today)))%nat ->
  SafetyValidator.validate_adjustment today now dec pos price self
    = (Ok (false, SafetyValidator.DailyLimitReached, None), self).
Proof.
  intros Hfull. apply Nat.leb_le in Hfull.
  unfold SafetyValidator.validate_adjustment, SafetyValidator.bind,
    SafetyValidator.gets, SafetyValidator.ret.
  rewrite Hfull. reflexivity.
Qed.

(** X4.  After three [log_adjustment] calls on one day, whatever the state
    before them, every adjustment proposed on that day is rejected for the
    daily limit, at any time, for any action, amount and position. *)
Theorem third_adjustment_closes_the_day (self : SafetyValidator.t)
    (today : string) (stamp1 stamp2 stamp3 : string) (now1 now2 now3 : Q)
    (action1 action2 action3 : string) (amount1 amount2 amount3 : Q) :
  let after :=
    snd (SafetyValidator.log_adjustment today stamp3 now3 action3 amount3
      (snd (SafetyValidator.log_adjustment today stamp2 now2 action2 amount2
        (snd (SafetyValidator.log_adjustment today stamp1 now1 action1
                amount1 self))))) in
  forall now dec pos price,
    SafetyValidator.validate_adjustment today now dec pos price after
      = (Ok (false, SafetyValidator.DailyLimitReached, None), after).
Proof.
  intros after now dec pos price. apply full_ledger_rejects.
  subst after. rewrite !log_adjustment_counts.
  unfold SafetyValidator.MAX_ADJUSTMENTS_PER_DAY. lia.
Qed.

(** X5.  After a [log_adjustment] at a positive clock value, every
    adjustment proposed less than 1800 seconds later is rejected, on the
    same day or on the next one. *)
Theorem adjustment_starts_cooldown (self : SafetyValidator.t)
    (today stamp action : string) (logged_at amount : Q) :
  0 < logged_at ->
  let after :=
    snd (SafetyValidator.log_adjustment today stamp logged_at action amount
           self) in
  forall day now dec pos price,
    now - logged_at < 1800 ->
    exists reason,
      SafetyValidator.validate_adjustment day now dec pos price after
        = (Ok (false, reason, None), after).
Proof.
  intros Hpositive after day now dec pos price Hsoon.
  destruct (log_adjustment_effect self today stamp logged_at action amount)
    as (_ & _ & Hlast).
  cbv zeta in Hlast. fold after in Hlast.
  unfold SafetyValidator.validate_adjustment, SafetyValidator.bind,
    SafetyValidator.gets, SafetyValidator.ret.
  destruct (Nat.leb _ _); [eexists; reflexivity|].
  rewrite Hlast.
  apply Qltb_true in Hsoon. apply Qgtb_true in Hpositive.
  rewrite Hsoon, Hpositive. eexists; reflexivity.
Qed.

(** Witness for X5: an ADD logged at t = 1000 blocks a review at t = 2500. *)
Lemma adjustment_starts_cooldown_witness :
  exists reason,
    SafetyValidator.validate_adjustment "2025-10-30" 2500
      (Scenario.reduce (10 # 100)) Scenario.near_cap 112000
      (snd (SafetyValidator.log_adjustment "2025-10-30"
              "2025-10-30T09:00:00" 1000 "ADD" (5 # 100)
              SafetyValidator.init))
    = (Ok (false, reason, None),
       snd (SafetyValidator.log_adjustment "2025-10-30"
              "2025-10-30T09:00:00" 1000 "ADD" (5 # 100)
              SafetyValidator.init)).
Proof.
  apply (adjustment_starts_cooldown SafetyValidator.init "2025-10-30"
           "2025-10-30T09:00:00" "ADD" 1000 (5 # 100));
    reflexivity.
Defined.

(** X6.  An approved adjustment always hands back a decision, under the
    action proposed; for an ADD its amount is at most 5%, for a REDUCE it is
    at most 20% and the position is not at a loss by [_calculate_roi]. *)
Theorem approved_adjustment_amount_is_bounded (self self' : SafetyValidator.t)
    today now dec pos price verdict :
  SafetyValidator.validate_adjustment today now dec pos price self
    = (Ok verdict, self') ->
  SafetyValidator.approved verdict = true ->
  exists adjusted,
    SafetyValidator.adjusted verdict = Some adjusted /\
    decision adjusted = decision dec /\
    (decision dec = "ADD" ->
     default 0 (size_or_amount adjusted)
       <= SafetyValidator.MAX_ADD_PER_REVIEW) /\
    (decision dec = "REDUCE" ->
     default 0 (size_or_amount adjusted) <= 20 # 100 /\
     0 <= SafetyValidator._calculate_roi pos price).
Proof.
  unfold SafetyValidator.validate_adjustment, SafetyValidator.bind,
    SafetyValidator.gets, SafetyValidator.ret.
  destruct (Nat.leb _ _); [intros [= <- <-]; discriminate|].
  destruct (_ && _); [intros [= <- <-]; discriminate|].
  unfold SafetyValidator.check_add, SafetyValidator.check_reduce.
  destruct (String.eqb_spec (decision dec) "ADD") as [Hadd|Hadd].
  - destruct (Qgtb (default 0 (size_or_amount dec))
                   SafetyValidator.MAX_ADD_PER_REVIEW) eqn:Hbig.
    { intros [= <- <-] _. eexists. split; [reflexivity|].
      split; [reflexivity|]. split.
      - intros _. apply Qle_refl.
      - rewrite Hadd. discriminate. }
    destruct (Qgtb _ SafetyValidator.MAX_TOTAL_NOTIONAL);
      [intros [= <- <-]; discriminate|].
    destruct (String.eqb_spec (decision dec) "REDUCE") as [Hred|Hred];
      [congruence|].
    intros [= <- <-] _. exists dec. split; [reflexivity|].
    split; [reflexivity|]. split.
    + intros _. qprop. assumption.
    + intros H; contradiction.
  - destruct (String.eqb_spec (decision dec) "REDUCE") as [Hred|Hred].
    + destruct (Qltb (SafetyValidator._calculate_roi pos price) 0) eqn:Hloss;
        [intros [= <- <-]; discriminate|].
      destruct (Qgtb (default 0 (size_or_amount dec)) (20 # 100)) eqn:Hbig.
      * intros [= <- <-] _. eexists. split; [reflexivity|].
        split; [reflexivity|]. split; [intros H; contradiction|].
        intros _. qprop. split; [apply Qle_refl | assumption].
      * intros [= <- <-] _. exists dec. split; [reflexivity|].
        split; [reflexivity|]. split; [intros H; contradiction|].
        intros _. qprop. split; assumption.
    + intros [= <- <-] _. exists dec. split; [reflexivity|].
      split; [reflexivity|]. split; intros H; contradiction.
Qed.

(** Witness for X6: a REDUCE of 35% in profit is approved at 20%. *)
Lemma approved_adjustment_amount_witness :
  exists adjusted,
    Some (Scenario.reduce (20 # 100)) = Some adjusted /\
    decision adjusted = "REDUCE" /\
    ("REDUCE" = "ADD" ->
     default 0 (size_or_amount adjusted)
       <= SafetyValidator.MAX_ADD_PER_REVIEW) /\
    ("REDUCE" = "REDUCE" ->
     default 0 (size_or_amount adjusted) <= 20 # 100 /\
     0 <= SafetyValidator._calculate_roi Scenario.near_cap 112000).
Proof.
  apply (approved_adjustment_amount_is_bounded SafetyValidator.init
           SafetyValidator.init "2025-10-30" 1000
           (Scenario.reduce (35 # 100)) Scenario.near_cap 112000
           (true, SafetyValidator.CappedAtMaxReduce,
            Some (Scenario.reduce (20 # 100))));
    reflexivity.
Defined.

(** X7.  At a positive price [check_liquidation_distance] answers, and it
    answers [True] exactly when no liquidation price is set (0) or the
    liquidation price is at most 70% of the price; at price 0 with a
    liquidation price set it raises [ZeroDivisionError]. *)
Theorem liquidation_distance_threshold (current_price liq : Q) :
  (0 < current_price ->
   exists safe,
     SafetyValidator.check_liquidation_distance current_price liq = Ok safe /\
     (safe = true <-> liq == 0 \/ liq <= (70 # 100) * current_price)) /\
  (current_price == 0 -> ~ liq == 0 ->
   SafetyValidator.check_liquidation_distance current_price liq
     = Raise ZeroDivisionError).
Proof.
  unfold SafetyValidator.check_liquidation_distance, pydiv. split.
  - intros Hprice.
    destruct (Qeqb liq 0) eqn:Hliq.
    { exists true. qprop. split; [reflexivity|]. split; auto. }
    destruct (Qeqb current_price 0) eqn:Hzero; [qprop; lra|].
    cbn [rbind]. qprop.
    assert (Hbuffer : (current_price - liq) / current_price * current_price
                      == current_price - liq) by (field; lra).
    destruct (Qltb _ SafetyValidator.MIN_LIQUIDATION_BUFFER) eqn:Hnear;
      qprop; unfold SafetyValidator.MIN_LIQUIDATION_BUFFER in Hnear.
    + exists false. split; [reflexivity|]. split; [discriminate|].
      intros [H0 | Hfar]; [contradiction|]. exfalso.
      assert ((current_price - liq) / current_price * current_price
              < (30 # 100) * current_price) by nra.
      lra.
    + exists true. split; [reflexivity|]. split; [|reflexivity].
      intros _. right.
      assert ((30 # 100) * current_price
              <= (current_price - liq) / current_price * current_price)
        by nra.
      lra.
  - intros Hzero Hliq.
    apply Qeqb_false in Hliq. apply Qeqb_true in Hzero.
    rewrite Hliq, Hzero. reflexivity.
Qed.

(** Witness for X7: at 110000 a liquidation price of 77000 is exactly at the
    30% buffer, and at price 0 the check raises. *)
Lemma liquidation_distance_witness :
  (exists safe,
     SafetyValidator.check_liquidation_distance 110000 77000 = Ok safe /\
     (safe = true <-> 77000 == 0 \/ 77000 <= (70 # 100) * 110000)) /\
  SafetyValidator.check_liquidation_distance 0 77000
    = Raise ZeroDivisionError.
Proof.
  split.
  - apply (proj1 (liquidation_distance_threshold 110000 77000)). reflexivity.
  - apply (proj2 (liquidation_distance_threshold 0 77000)).
    + reflexivity.
    + intros H. discriminate H.
Defined.

(** [int(x)] of at least 1800 needs [x] of at least 1800. *)
Lemma pyint_at_least (x : Q) :
  (1800 <= SafetyValidator.pyint x)%Z -> 1800 <= x.
Proof.
  destruct x as [n d]. unfold SafetyValidator.pyint. cbn [Qnum Qden].
  intros Hq. unfold Qle. cbn [Qnum Qden].
  assert (Hd : (0 < Z.pos d)%Z) by lia.
  assert (Hsign : (0 <= n)%Z).
  { destruct (Z_lt_le_dec n 0) as [Hneg|Hpos]; [|exact Hpos]. exfalso.
    assert (Hopp : (0 <= Z.quot (- n) (Z.pos d))%Z)
      by (apply Z.quot_pos; lia).
    rewrite Z.quot_opp_l in Hopp by lia. lia. }
  pose proof (Z.quot_rem' n (Z.pos d)) as Hdiv.
  pose proof (Z.rem_bound_pos n (Z.pos d) Hsign Hd) as Hrem.
  assert (Z.pos d * 1800 <= Z.pos d * Z.quot n (Z.pos d))%Z
    by (apply Z.mul_le_mono_nonneg_l; lia).
  lia.
Qed.

(** X8.  [get_stats] leaves the validator as it is, and what it reports
    predicts the two gates of [validate_adjustment]: when it shows fewer
    adjustments today than allowed and at least 1800 seconds since the last
    one (999999 when there was none), a proposal that is neither an ADD nor a
    REDUCE is approved as proposed at that same moment. *)
Theorem stats_predict_the_gates (self : SafetyValidator.t)
    (today : string) (now : Q) (dec : Decision) (pos : Position.t)
    (price : Q) :
  exists stats,
    SafetyValidator.get_stats today now self = (Ok stats, self) /\
    ((SafetyValidator.adjustments_today stats
        < SafetyValidator.max_allowed stats)%nat ->
     (1800 <= SafetyValidator.time_since_last stats)%Z ->
     decision dec <> "ADD" -> decision dec <> "REDUCE" ->
     SafetyValidator.validate_adjustment today now dec pos price self
       = (Ok (true, SafetyValidator.AdjustmentApproved, Some dec), self)).
Proof.
  eexists. split; [reflexivity|].
  cbn [SafetyValidator.adjustments_today SafetyValidator.max_allowed
       SafetyValidator.time_since_last].
  intros Hcount Hsince Hadd Hreduce.
  unfold SafetyValidator.validate_adjustment, SafetyValidator.bind,
    SafetyValidator.gets, SafetyValidator.ret.
  destruct (Nat.leb _ _) eqn:Hfull; [apply Nat.leb_le in Hfull; lia|].
  assert (Hcool : Qltb (now - SafetyValidator.last_adjustment_time self) 1800
                  && Qgtb (SafetyValidator.last_adjustment_time self) 0
                  = false).
  { destruct (Qgtb (SafetyValidator.last_adjustment_time self) 0);
      [|apply andb_false_r].
    rewrite andb_true_r. apply Qltb_false. apply pyint_at_least.
    exact Hsince. }
  rewrite Hcool.
  unfold SafetyValidator.check_add, SafetyValidator.check_reduce.
  apply String.eqb_neq in Hadd. apply String.eqb_neq in Hreduce.
  rewrite Hadd, Hreduce. reflexivity.
Qed.

(** Witness for X8: a HOLD on a validator that never adjusted. *)
Lemma stats_predict_the_gates_witness :
  exists stats,
    SafetyValidator.get_stats "2025-10-30" 1000 SafetyValidator.init
      = (Ok stats, SafetyValidator.init) /\
    SafetyValidator.validate_adjustment "2025-10-30" 1000 Cases.hold
      Scenario.near_cap 110000 SafetyValidator.init
    = (Ok (true, SafetyValidator.AdjustmentApproved, Some Cases.hold),
       SafetyValidator.init).
Proof.
  destruct (stats_predict_the_gates SafetyValidator.init "2025-10-30" 1000
              Cases.hold Scenario.near_cap 110000) as (stats & Hstats & Hgate).
  exists stats. split; [exact Hstats|].
  injection Hstats as <-.
  apply Hgate; [vm_compute; lia | vm_compute; discriminate
               | discriminate | discriminate].
Defined.

(** * Further properties of the exposure limiter and the sizing *)

(** X9.  For a positive proposal at a positive leverage, on a bot whose
    capital in use and notional estimate are within the caps, the size
    returned by [check_exposure_limits] is admissible (between 0 and the
    proposal, within both caps once added) and no admissible size is
    larger. *)
Theorem limiter_returns_largest_admissible_size
    (self : LiveFibonacciBot.t) (desired_size leverage : Q) :
  0 < desired_size -> 0 < leverage ->
  total_position_size self <= MAX_CAPITAL_USAGE ->
  current_notional self <= MAX_NOTIONAL_EXPOSURE ->
  let result := check_exposure_limits self desired_size leverage in
  (0 <= result /\ result <= desired_size /\
   total_position_size self + result <= MAX_CAPITAL_USAGE /\
   current_notional self + result * leverage <= MAX_NOTIONAL_EXPOSURE) /\
  (forall size,
     0 <= size -> size <= desired_size ->
     total_position_size self + size <= MAX_CAPITAL_USAGE ->
     current_notional self + size * leverage <= MAX_NOTIONAL_EXPOSURE ->
     size <= result).
Proof.
  intros Hd Hlev Hcapital Hnotional. cbv zeta. split.
  - destruct (check_exposure_limits_sound self desired_size leverage Hd)
      as [H0 | (Hpos & Hle & Hc & Hn)].
    + rewrite H0. repeat split; lra.
    + repeat split; lra.
  - intros size Hsize Hle Hc Hn. unfold check_exposure_limits.
    set (cur := total_position_size self) in *.
    set (notional := current_notional self) in *.
    assert (Hmul : forall a,
               a / leverage * leverage == a) by (intros a; field; lra).
    destruct (Qgtb (cur + desired_size) MAX_CAPITAL_USAGE) eqn:Hover.
    + destruct (Qleb (MAX_CAPITAL_USAGE - cur) 0) eqn:Hroom;
        [qprop; lra|].
      destruct (Qgtb (notional + (MAX_CAPITAL_USAGE - cur) * leverage)
                     MAX_NOTIONAL_EXPOSURE) eqn:Hre; [|qprop; lra].
      destruct (Qleb (MAX_NOTIONAL_EXPOSURE - notional) 0) eqn:Hnroom.
      * qprop. nra.
      * qprop. pose proof (Hmul (MAX_NOTIONAL_EXPOSURE - notional)) as Hm.
        apply Qnot_lt_le. intros Hgt.
        assert ((MAX_NOTIONAL_EXPOSURE - notional) / leverage * leverage
                < size * leverage) by nra.
        lra.
    + destruct (Qgtb (notional + desired_size * leverage)
                     MAX_NOTIONAL_EXPOSURE) eqn:Hre; [|qprop; lra].
      destruct (Qleb (MAX_NOTIONAL_EXPOSURE - notional) 0) eqn:Hnroom.
      * qprop. nra.
      * qprop. pose proof (Hmul (MAX_NOTIONAL_EXPOSURE - notional)) as Hm.
        apply Qnot_lt_le. intros Hgt.
        assert ((MAX_NOTIONAL_EXPOSURE - notional) / leverage * leverage
                < size * leverage) by nra.
        lra.
Qed.

(** Witness for X9: on the stretched bot (105% at 4x) a proposal of 37.5%
    at 5x comes back as 16%, and no admissible size is larger. *)
Lemma limiter_largest_size_witness :
  let result := check_exposure_limits Scenario.stretched (375 # 1000) 5 in
  (0 <= result /\ result <= 375 # 1000 /\
   total_position_size Scenario.stretched + result <= MAX_CAPITAL_USAGE /\
   current_notional Scenario.stretched + result * 5
     <= MAX_NOTIONAL_EXPOSURE) /\
  (forall size,
     0 <= size -> size <= 375 # 1000 ->
     total_position_size Scenario.stretched + size <= MAX_CAPITAL_USAGE ->
     current_notional Scenario.stretched + size * 5
       <= MAX_NOTIONAL_EXPOSURE ->
     size <= result).
Proof.
  apply (limiter_returns_largest_admissible_size Scenario.stretched
           (375 # 1000) 5);
    [reflexivity | reflexivity | vm_compute; discriminate
    | vm_compute; discriminate].
Defined.

(** The sub-multipliers stay within their tables. *)
Lemma sub_multiplier_ranges (fg fr ls : Q) :
  (6 # 10 <= fear_greed_multiplier fg /\ fear_greed_multiplier fg <= 13 # 10) /\
  (5 # 10 <= funding_multiplier fr /\ funding_multiplier fr <= 13 # 10) /\
  (8 # 10 <= ls_multiplier ls /\ ls_multiplier ls <= 12 # 10).
Proof.
  unfold fear_greed_multiplier, funding_multiplier, ls_multiplier.
  repeat split; repeat qcase; vm_compute; discriminate.
Qed.

(** X10.  The cap of [calculate_sentiment_multiplier] never fires: for every
    sentiment snapshot the multiplier is the plain mean of the three
    sub-multipliers, and it lies between 19/30 (about 0.633) and 19/15
    (about 1.267). *)
Theorem sentiment_multiplier_is_the_plain_mean (sentiment : Sentiment) :
  let mean :=
    (fear_greed_multiplier (default 50 (fear_greed sentiment))
     + funding_multiplier (default 0 (funding_rate sentiment))
     + ls_multiplier (default 1 (ls_ratio sentiment))) / 3 in
  calculate_sentiment_multiplier sentiment == mean /\
  19 # 30 <= calculate_sentiment_multiplier sentiment /\
  calculate_sentiment_multiplier sentiment <= 19 # 15.
Proof.
  cbv zeta. unfold calculate_sentiment_multiplier.
  destruct (sub_multiplier_ranges (default 50 (fear_greed sentiment))
              (default 0 (funding_rate sentiment))
              (default 1 (ls_ratio sentiment)))
    as ((Hf1 & Hf2) & (Hr1 & Hr2) & (Hl1 & Hl2)).
  set (a := fear_greed_multiplier _) in *.
  set (b := funding_multiplier _) in *.
  set (c := ls_multiplier _) in *.
  assert (Hmean : average [a; b; c] == (a + b + c) / 3).
  { unfold average. simpl. field. }
  assert (Hlow : 19 # 30 <= (a + b + c) / 3)
    by (apply Qle_shift_div_l; lra).
  assert (Hhigh : (a + b + c) / 3 <= 19 # 15)
    by (apply Qle_shift_div_r; lra).
  assert (Hcap : cap (average [a; b; c]) == average [a; b; c]).
  { unfold cap, pymax, pymin.
    set (m := average [a; b; c]) in *.
    repeat qcase; qprop; lra. }
  rewrite Hcap, Hmean. split; [reflexivity|]. split; assumption.
Qed.

(** * Exit targets and bounce detection *)

(** The multiplier of the profit targets is one of five values. *)
Lemma target_multiplier_range (sentiment : Sentiment) :
  6 # 10 <= target_multiplier sentiment /\
  target_multiplier sentiment <= 15 # 10.
Proof.
  unfold target_multiplier.
  repeat match goal with
         | |- context [if ?c then _ else _] => destruct c
         end; split; vm_compute; discriminate.
Qed.

(** X11.  At a non-zero price [calculate_exit_targets] returns three profit
    targets that each take 25% off, at gains of one, two and three times the
    first, the first between 3% and 7.5%; at price 0 it raises
    [ZeroDivisionError] although the targets do not depend on the price. *)
Theorem exit_targets_are_three_ordered_quarters (sentiment : Sentiment)
    (current_price : Q) :
  (~ current_price == 0 ->
   exists t1 t2 t3 upper_exit_price,
     calculate_exit_targets sentiment current_price
       = Ok ([t1; t2; t3], upper_exit_price) /\
     reduce t1 = 25 # 100 /\ reduce t2 = 25 # 100 /\ reduce t3 = 25 # 100 /\
     3 # 100 <= gain t1 /\ gain t1 <= 75 # 1000 /\
     gain t2 == 2 * gain t1 /\ gain t3 == 3 * gain t1) /\
  (current_price == 0 ->
   calculate_exit_targets sentiment current_price = Raise ZeroDivisionError).
Proof.
  unfold calculate_exit_targets, calculate_fibonacci_upper_exit, pydiv.
  split.
  - intros Hprice. apply Qeqb_false in Hprice. rewrite Hprice.
    cbn [rbind].
    pose proof (target_multiplier_range sentiment) as [Hlo Hhi].
    set (m := target_multiplier sentiment) in *.
    assert (Hshape :
      exists upper,
        (if Qltb current_price (fib_50 fib_levels_daily)
         then Ok (fib_50 fib_levels_daily)
         else if Qltb current_price (fib_50 fib_levels_h4)
              then if Qgtb (default 50 (fear_greed sentiment)) 70
                   then Ok (fib_50 fib_levels_h4)
                   else Ok (swing_high fib_levels_h4 * (95 # 100))
              else if Qgtb (default 50 (fear_greed sentiment)) 75
                      || Qgtb (default 0 (funding_rate sentiment)) (5 # 100)
                   then Ok (swing_high fib_levels_h4)
                   else Ok (swing_high fib_levels_h4 * (105 # 100)))
        = Ok upper).
    { repeat match goal with
             | |- context [if ?c then _ else _] => destruct c
             end; eexists; reflexivity. }
    destruct Hshape as [upper ->]. cbn [rbind].
    eexists _, _, _, upper. split; [reflexivity|].
    cbn [map base_targets gain reduce].
    repeat split; lra.
  - intros Hzero. apply Qeqb_true in Hzero. rewrite Hzero. reflexivity.
Qed.

(** Witness for X11: neutral sentiment at 110000, and the price 0. *)
Lemma exit_targets_witness :
  (exists t1 t2 t3 upper_exit_price,
     calculate_exit_targets Scenario.neutral 110000
       = Ok ([t1; t2; t3], upper_exit_price) /\
     reduce t1 = 25 # 100 /\ reduce t2 = 25 # 100 /\ reduce t3 = 25 # 100 /\
     3 # 100 <= gain t1 /\ gain t1 <= 75 # 1000 /\
     gain t2 == 2 * gain t1 /\ gain t3 == 3 * gain t1) /\
  calculate_exit_targets Scenario.neutral 0 = Raise ZeroDivisionError.
Proof.
  split.
  - apply (proj1 (exit_targets_are_three_ordered_quarters
                    Scenario.neutral 110000)).
    intros H. discriminate H.
  - apply (proj2 (exit_targets_are_three_ordered_quarters
                    Scenario.neutral 0)).
    reflexivity.
Defined.

(** X12.  The upper exit price returned by
    [calculate_fibonacci_upper_exit] is never below the daily 50% level
    (112246); below the 4H 50% level (117430) it lies strictly above the
    current price; so a price can only have reached its own upper exit at or
    above the swing high (126104). *)
Theorem upper_exit_is_reached_only_at_the_swing_high
    (sentiment : Sentiment) (current_price target : Q) :
  calculate_fibonacci_upper_exit current_price sentiment = Ok target ->
  fib_50 fib_levels_daily <= target /\
  (current_price < fib_50 fib_levels_h4 -> current_price < target) /\
  (target <= current_price -> swing_high fib_levels_h4 <= current_price).
Proof.
  unfold calculate_fibonacci_upper_exit, pydiv.
  destruct (Qeqb current_price 0); [intros [= ]|]. cbn [rbind].
  cbn [fib_50 swing_high fib_levels_daily fib_levels_h4].
  destruct (Qltb current_price 112246) eqn:Hdaily.
  { intros [= <-]. qprop. repeat split; intros; lra. }
  destruct (Qltb current_price 117430) eqn:Hh4.
  { destruct (Qgtb _ 70); intros [= <-]; qprop; repeat split; intros; lra. }
  destruct (_ || _); intros [= <-]; qprop; repeat split; intros; lra.
Qed.

(** Witness for X12: at 113000 with neutral sentiment the upper exit is 5%
    below the swing high. *)
Lemma upper_exit_witness :
  fib_50 fib_levels_daily <= 126104 * (95 # 100) /\
  (113000 < fib_50 fib_levels_h4 -> 113000 < 126104 * (95 # 100)) /\
  (126104 * (95 # 100) <= 113000 -> swing_high fib_levels_h4 <= 113000).
Proof.
  apply (upper_exit_is_reached_only_at_the_swing_high Scenario.neutral
           113000 (126104 * (95 # 100))).
  reflexivity.
Defined.

(** [min(x, y)] is one of its arguments and at most both. *)
Lemma pymin_spec (x y : Q) :
  (pymin x y = x \/ pymin x y = y) /\ pymin x y <= x /\ pymin x y <= y.
Proof.
  unfold pymin. destruct (Qleb x y) eqn:Hxy; qprop.
  - split; [left; reflexivity|]. split; lra.
  - split; [right; reflexivity|]. split; lra.
Qed.

(** [series_min] returns a member of the series below all the others. *)
Lemma series_min_spec (lows : list Q) (low : Q) :
  series_min lows = Some low ->
  In low lows /\ Forall (fun l => low <= l) lows.
Proof.
  destruct lows as [|first rest]; [intros [= ]|]. cbn [series_min].
  intros [= <-].
  assert (Hfold :
    (foldr pymin first rest = first \/ In (foldr pymin first rest) rest)
    /\ foldr pymin first rest <= first
    /\ Forall (fun l => foldr pymin first rest <= l) rest).
  { induction rest as [|x rest (Hin & Hle & Hall)]; cbn [foldr].
    - split; [left; reflexivity|]. split; [apply Qle_refl | constructor].
    - set (m := foldr pymin first rest) in *.
      destruct (pymin_spec x m) as ([Heq | Heq] & Hx & Hm); rewrite Heq in *.
      + split; [right; left; reflexivity|]. split; [lra|].
        constructor; [apply Qle_refl|].
        eapply List.Forall_impl; [|exact Hall]. cbv beta. intros; lra.
      + split; [destruct Hin as [Hin | Hin];
                  [left; exact Hin | right; right; exact Hin]|].
        split; [exact Hle|]. constructor; [lra | exact Hall]. }
  destruct Hfold as (Hin & Hle & Hall). split.
  - destruct Hin as [-> | Hin]; [left; reflexivity | right; exact Hin].
  - constructor; assumption.
Qed.

(** X13.  With candles at hand, [detect_bounce] reports a bounce only when
    the price stands more than 0.1% above the lowest low of the candles and
    that low is within 2% above the top of the 4H golden pocket; it reports
    none for an empty series, and without candles it repeats the stored
    flag. *)
Theorem bounce_needs_price_above_the_lowest_low (self : LiveFibonacciBot.t)
    (lows : list Q) (current_price : Q) :
  (Forall (fun l => 0 < l) lows ->
   detect_bounce self (Some lows) current_price = true ->
   exists low,
     In low lows /\ Forall (fun l => low <= l) lows /\
     low * (1001 # 1000) < current_price /\
     low <= gp_top fib_levels_h4 * (102 # 100)) /\
  detect_bounce self (Some []) current_price = false /\
  detect_bounce self None current_price = bounce_detected self.
Proof.
  split; [|split; reflexivity].
  intros Hpositive. unfold detect_bounce.
  destruct (series_min lows) as [low|] eqn:Hmin; [|discriminate].
  destruct (series_min_spec lows low Hmin) as [Hin Hall].
  assert (Hlow : 0 < low).
  { rewrite List.Forall_forall in Hpositive. apply Hpositive. exact Hin. }
  cbn [gp_top fib_levels_h4 fib_levels_daily].
  destruct (Qleb low (112189 * (102 # 100))) eqn:H4;
    destruct (Qgtb current_price (low * (1001 # 1000))) eqn:Hup;
    cbn [andb]; intros Hbounce.
  - exists low. qprop. repeat split; assumption.
  - destruct (Qleb low (108975 * (101 # 100))) eqn:Hd;
      destruct (Qgtb current_price (low * (1002 # 1000))) eqn:Hup2;
      cbn [andb] in Hbounce; try discriminate.
    qprop. lra.
  - destruct (Qleb low (108975 * (101 # 100))) eqn:Hd;
      destruct (Qgtb current_price (low * (1002 # 1000))) eqn:Hup2;
      cbn [andb] in Hbounce; try discriminate.
    qprop. lra.
  - destruct (Qleb low (108975 * (101 # 100))) eqn:Hd;
      destruct (Qgtb current_price (low * (1002 # 1000))) eqn:Hup2;
      cbn [andb] in Hbounce; try discriminate.
    qprop. lra.
Qed.

(** Witness for X13: lows of 112050, 111900 and 112300, price 112200. *)
Lemma bounce_witness :
  exists low,
    In low Cases.lows /\ Forall (fun l => low <= l) Cases.lows /\
    low * (1001 # 1000) < 112200 /\
    low <= gp_top fib_levels_h4 * (102 # 100).
Proof.
  apply (proj1 (bounce_needs_price_above_the_lowest_low Scenario.flat
                  Cases.lows 112200)).
  - repeat constructor.
  - reflexivity.
Defined.

(** * The advisor's context helpers *)

(** X14.  The ROI percentage that [ClaudeSupervisor._calculate_roi_pct]
    puts into the advisor's context is the one
    [SafetyValidator._calculate_roi] uses for the loss lock, for every
    position dict and price. *)
Theorem advisor_and_validator_agree_on_roi (pos : Position.t) (price : Q) :
  ClaudeSupervisor._calculate_roi_pct price (Some pos)
    == SafetyValidator._calculate_roi pos price.
Proof.
  unfold ClaudeSupervisor._calculate_roi_pct,
    ClaudeSupervisor._calculate_pnl_pct, SafetyValidator._calculate_roi.
  destruct (Position.truthy pos); cbn [negb orb]; [|reflexivity].
  destruct (float_truthy (Position.average_price pos)); cbn [negb];
    [|ring].
  ring.
Qed.

(** The first level that passes the test, in a list sorted so that later
    levels are further from the price, is the nearest one. *)
Lemma first_fib_below_is_greatest (fibs : list Q) (otherwise price : Q) :
  StronglySorted (fun a b => b <= a) fibs ->
  forall fib, In fib fibs -> fib < price ->
    let found :=
      ClaudeSupervisor.first_fib (fun f => Qltb f price) fibs otherwise in
    found < price /\ fib <= found.
Proof.
  induction 1 as [|h fibs Hsorted IH Hhead]; intros fib Hin Hlt;
    [destruct Hin|].
  cbn [ClaudeSupervisor.first_fib]. cbv zeta.
  destruct (Qltb h price) eqn:Hh; qprop.
  - split; [exact Hh|]. destruct Hin as [<- | Hin]; [apply Qle_refl|].
    rewrite List.Forall_forall in Hhead. apply Hhead. exact Hin.
  - destruct Hin as [<- | Hin]; [lra|]. apply IH; assumption.
Qed.

Lemma first_fib_above_is_least (fibs : list Q) (otherwise price : Q) :
  StronglySorted (fun a b => a <= b) fibs ->
  forall fib, In fib fibs -> price < fib ->
    let found :=
      ClaudeSupervisor.first_fib (fun f => Qgtb f price) fibs otherwise in
    price < found /\ found <= fib.
Proof.
  induction 1 as [|h fibs Hsorted IH Hhead]; intros fib Hin Hlt;
    [destruct Hin|].
  cbn [ClaudeSupervisor.first_fib]. cbv zeta.
  destruct (Qgtb h price) eqn:Hh; qprop.
  - split; [exact Hh|]. destruct Hin as [<- | Hin]; [apply Qle_refl|].
    rewrite List.Forall_forall in Hhead. apply Hhead. exact Hin.
  - destruct Hin as [<- | Hin]; [lra|]. apply IH; assumption.
Qed.

(** When no level passes the test the fallback is returned. *)
Lemma first_fib_none (test : Q -> bool) (fibs : list Q) (otherwise : Q) :
  Forall (fun f => test f = false) fibs ->
  ClaudeSupervisor.first_fib test fibs otherwise = otherwise.
Proof.
  induction 1 as [|h fibs Hh _ IH]; cbn [ClaudeSupervisor.first_fib];
    [reflexivity|].
  rewrite Hh. exact IH.
Qed.

Lemma fibs_descending_sorted :
  StronglySorted (fun a b => b <= a) ClaudeSupervisor.fibs_descending.
Proof. repeat constructor; vm_compute; discriminate. Qed.

Lemma fibs_ascending_sorted :
  StronglySorted (fun a b => a <= b) ClaudeSupervisor.fibs_ascending.
Proof. repeat constructor; vm_compute; discriminate. Qed.

(** X15.  Above the lowest level (98387) the support reported to the advisor
    is the greatest Fibonacci level strictly below the price, and below the
    highest level (126104) the resistance is the least level strictly above
    it; at or beyond those ends the end level itself is reported, which is
    then not below (not above) the price. *)
Theorem nearest_fib_levels_bracket_the_price (price : Q) :
  (98387 < price ->
   ClaudeSupervisor._find_nearest_fib_below price < price /\
   forall fib, In fib ClaudeSupervisor.fibs_descending -> fib < price ->
     fib <= ClaudeSupervisor._find_nearest_fib_below price) /\
  (price <= 98387 ->
   ClaudeSupervisor._find_nearest_fib_below price = 98387) /\
  (price < 126104 ->
   price < ClaudeSupervisor._find_nearest_fib_above price /\
   forall fib, In fib ClaudeSupervisor.fibs_ascending -> price < fib ->
     ClaudeSupervisor._find_nearest_fib_above price <= fib) /\
  (126104 <= price ->
   ClaudeSupervisor._find_nearest_fib_above price = 126104).
Proof.
  unfold ClaudeSupervisor._find_nearest_fib_below,
    ClaudeSupervisor._find_nearest_fib_above.
  split; [|split; [|split]].
  - intros Hprice. split.
    + apply (first_fib_below_is_greatest _ _ _ fibs_descending_sorted 98387);
        [|exact Hprice].
      unfold ClaudeSupervisor.fibs_descending. cbn [In]. tauto.
    + intros fib Hin Hlt.
      apply (first_fib_below_is_greatest _ _ _ fibs_descending_sorted fib);
        assumption.
  - intros Hprice. apply first_fib_none.
    unfold ClaudeSupervisor.fibs_descending.
    repeat constructor; apply Qltb_false; lra.
  - intros Hprice. split.
    + apply (first_fib_above_is_least _ _ _ fibs_ascending_sorted 126104);
        [|exact Hprice].
      unfold ClaudeSupervisor.fibs_ascending. cbn [In]. tauto.
    + intros fib Hin Hlt.
      apply (first_fib_above_is_least _ _ _ fibs_ascending_sorted fib);
        assumption.
  - intros Hprice. apply first_fib_none.
    unfold ClaudeSupervisor.fibs_ascending.
    repeat constructor; apply Qgtb_false; lra.
Qed.

(** Witness for X15: at 110000 the support is 109874 and the resistance
    111463. *)
Lemma nearest_fib_levels_witness :
  (ClaudeSupervisor._find_nearest_fib_below 110000 < 110000 /\
   forall fib, In fib ClaudeSupervisor.fibs_descending -> fib < 110000 ->
     fib <= ClaudeSupervisor._find_nearest_fib_below 110000) /\
  (110000 < ClaudeSupervisor._find_nearest_fib_above 110000 /\
   forall fib, In fib ClaudeSupervisor.fibs_ascending -> 110000 < fib ->
     ClaudeSupervisor._find_nearest_fib_above 110000 <= fib).
Proof.
  split.
  - apply (proj1 (nearest_fib_levels_bracket_the_price 110000)). reflexivity.
  - apply (proj1 (proj2 (proj2 (nearest_fib_levels_bracket_the_price 110000)))).
    reflexivity.
Defined.

(** A price within 0.5% of the 4H 50% level (117430) is above 116000. *)
Lemma near_the_4h_50_level (price : Q) :
  0 < price ->
  Qltb (TradingDecisionLogger.pyabs (price - 117430) / price) (5 # 1000)
    = true ->
  116000 < price.
Proof.
  intros Hprice Hnear. qprop.
  set (d := TradingDecisionLogger.pyabs (price - 117430)) in *.
  assert (Hmul : d / price * price == d) by (field; lra).
  assert (Hd : d / price * price < (5 # 1000) * price) by nra.
  assert (Habs : 117430 - price <= d).
  { subst d. unfold TradingDecisionLogger.pyabs.
    destruct (Qltb (price - 117430) 0) eqn:Hsign; qprop; lra. }
  lra.
Qed.

(** X16.  On the bot's Fibonacci levels and at a positive price, the label
    the logger writes for the market analysis and the zone reported to the
    advisor agree on the two golden pockets (each says "4H" exactly when the
    other does, and likewise "Daily"), and a price labelled inside either
    pocket counts as in the golden pocket for the advisor; at price 0 the
    logger's analysis raises [ZeroDivisionError]. *)
Theorem logger_and_advisor_agree_on_the_pockets (price : Q) :
  let h4 := Some (Cases.logger_levels fib_levels_h4) in
  let daily := Some (Cases.logger_levels fib_levels_daily) in
  (0 < price ->
   exists label,
     TradingDecisionLogger._analyze_fib_position price h4 daily = Ok label /\
     (label = "In 4H Golden Pocket"
      <-> ClaudeSupervisor._determine_zone price = "4H Golden Pocket") /\
     (label = "In Daily Golden Pocket"
      <-> ClaudeSupervisor._determine_zone price = "Daily Golden Pocket") /\
     (label = "In 4H Golden Pocket" \/ label = "In Daily Golden Pocket" ->
      ClaudeSupervisor._in_golden_pocket price = true)) /\
  (price == 0 ->
   TradingDecisionLogger._analyze_fib_position price h4 daily
     = Raise ZeroDivisionError).
Proof.
  cbv zeta.
  unfold TradingDecisionLogger._analyze_fib_position,
    ClaudeSupervisor._determine_zone, ClaudeSupervisor._in_golden_pocket,
    Cases.logger_levels, pydiv.
  cbn [TradingDecisionLogger.gp_bottom TradingDecisionLogger.gp_top
       TradingDecisionLogger.fib_50 gp_bottom gp_top fib_50
       fib_levels_h4 fib_levels_daily].
  split.
  - intros Hprice.
    assert (Hzero : Qeqb price 0 = false) by (apply Qeqb_false; lra).
    rewrite Hzero.
    pose proof (near_the_4h_50_level price Hprice) as Hfar.
    destruct (Qltb (TradingDecisionLogger.pyabs (price - 117430) / price)
                   (5 # 1000)) eqn:Hnear;
      [specialize (Hfar eq_refl) | clear Hfar];
      destruct (Qleb 111463 price) eqn:H1;
      destruct (Qleb price 112189) eqn:H2;
      destruct (Qleb 108088 price) eqn:H3;
      destruct (Qleb price 108975) eqn:H4;
      destruct (Qgtb price 112189) eqn:H5;
      cbn [andb orb rbind]; rewrite ?Hnear; cbn [rbind];
      first
        [ solve [exfalso; qprop; lra]
        | eexists; (split; [reflexivity|]);
          (split; [split; intros H; first [reflexivity | discriminate H]|]);
          (split; [split; intros H; first [reflexivity | discriminate H]|]);
          intros [H|H]; try discriminate H;
          qprop; apply orb_true_iff;
          first [ left; apply andb_true_iff; split; apply Qleb_true; lra
                | right; apply andb_true_iff; split; apply Qleb_true; lra ] ].
  - intros Hzero.
    assert (H1 : Qleb 111463 price = false) by (apply Qleb_false; lra).
    rewrite H1. cbn [andb].
    apply Qeqb_true in Hzero. rewrite Hzero. reflexivity.
Qed.

(** Witness for X16: 111800 is in the 4H golden pocket for both. *)
Lemma logger_and_advisor_witness :
  (exists label,
     TradingDecisionLogger._analyze_fib_position 111800
       (Some (Cases.logger_levels fib_levels_h4))
       (Some (Cases.logger_levels fib_levels_daily)) = Ok label /\
     (label = "In 4H Golden Pocket"
      <-> ClaudeSupervisor._determine_zone 111800 = "4H Golden Pocket") /\
     (label = "In Daily Golden Pocket"
      <-> ClaudeSupervisor._determine_zone 111800 = "Daily Golden Pocket") /\
     (label = "In 4H Golden Pocket" \/ label = "In Daily Golden Pocket" ->
      ClaudeSupervisor._in_golden_pocket 111800 = true)) /\
  TradingDecisionLogger._analyze_fib_position 0
    (Some (Cases.logger_levels fib_levels_h4))
    (Some (Cases.logger_levels fib_levels_daily))
  = Raise ZeroDivisionError.
Proof.
  split.
  - apply (proj1 (logger_and_advisor_agree_on_the_pockets 111800)).
    reflexivity.
  - apply (proj2 (logger_and_advisor_agree_on_the_pockets 0)). reflexivity.
Defined.

(** * Further properties of recovery and of the decision log *)


(** X18.  Recovery twice in a row: a second [recover_position] on the state
    file the first one left returns the same result at the same clock, and
    at any other clock the same flag, last entry price and file and a
    position with the same prices, size, leverage and scale-in count (only
    the entry time can follow the clock); after a flat answer of the
    exchange the file is gone and the second call again starts flat. *)
Theorem recovery_is_idempotent (live : option PositionRecovery.LivePosition)
    (file file' : PositionRecovery.StateFile) (now later : string)
    (has : bool) (pos : option Position.t) (last_entry : option Q) :
  PositionRecovery.recover_position live file now
    = Ok (has, pos, last_entry, file') ->
  PositionRecovery.recover_position live file' now
    = Ok (has, pos, last_entry, file') /\
  exists pos',
    PositionRecovery.recover_position live file' later
      = Ok (has, pos', last_entry, file') /\
    Position.entry_price <$> pos' = Position.entry_price <$> pos /\
    Position.average_price <$> pos' = Position.average_price <$> pos /\
    Position.size <$> pos' = Position.size <$> pos /\
    Position.leverage <$> pos' = Position.leverage <$> pos /\
    Position.scale_in_count <$> pos' = Position.scale_in_count <$> pos /\
    (live = None -> file' = PositionRecovery.NoFile /\ pos' = None).
Proof.
  unfold PositionRecovery.recover_position.
  destruct live as [live_position|].
  - set (saved_state :=
           match PositionRecovery.load_saved_state file with
           | Some s => if PositionRecovery.saved_truthy s then Some s else None
           | None => None
           end).
    destruct saved_state as [s|] eqn:Hsaved.
    + destruct (PositionRecovery.timestamp s) as [ts|] eqn:Hts;
        [|intros [= ]].
      cbn [subscript rbind]. intros [= <- <- <- <-].
      fold saved_state. rewrite Hsaved, Hts. cbn [subscript rbind].
      split; [reflexivity|]. eexists. split; [reflexivity|].
      repeat split; discriminate.
    + cbn [rbind]. intros [= <- <- <- <-].
      fold saved_state. rewrite Hsaved. cbn [rbind].
      split; [reflexivity|]. eexists. split; [reflexivity|].
      repeat split; discriminate.
  - intros [= <- <- <- <-]. split; [reflexivity|].
    exists None. repeat split.
Qed.

(** Witness for X18: two restarts over the saved example file. *)
Lemma recovery_is_idempotent_witness :
  exists pos pos',
    PositionRecovery.recover_position (Some Scenario.live) Scenario.saved
        "2025-10-30T08:00:00"
      = Ok (true, Some pos, Some 111091, Scenario.saved) /\
    PositionRecovery.recover_position (Some Scenario.live) Scenario.saved
        "2025-10-30T09:30:00"
      = Ok (true, pos', Some 111091, Scenario.saved) /\
    Position.average_price <$> pos' = Some (Position.average_price pos).
Proof.
  eexists.
  destruct (recovery_is_idempotent (Some Scenario.live) Scenario.saved
              Scenario.saved "2025-10-30T08:00:00" "2025-10-30T09:30:00"
              true _ (Some 111091) eq_refl)
    as (_ & pos' & Hlater & _ & Havg & _).
  exists pos'. split; [reflexivity|]. split; [exact Hlater | exact Havg].
Defined.

(** X19.  The decision log is append-only: [log_entry_decision],
    [log_scale_decision] and [log_recovery], whenever they return, keep
    every earlier decision in place and add exactly one at the end. *)
Theorem decision_log_is_append_only (logger : TradingDecisionLogger.t)
    (now : string) :
  (forall price size leverage,
     exists entry,
       TradingDecisionLogger.decisions
         (TradingDecisionLogger.log_entry_decision logger now price size
            leverage)
       = TradingDecisionLogger.decisions logger ++ [entry]) /\
  (forall price add_size new_leverage deviation logger',
     TradingDecisionLogger.log_scale_decision logger now price add_size
       new_leverage deviation = Ok logger' ->
     exists entry,
       TradingDecisionLogger.decisions logger'
       = TradingDecisionLogger.decisions logger ++ [entry]) /\
  (forall position_data logger',
     PositionRecovery.log_recovery logger position_data now = Ok logger' ->
     exists entry,
       TradingDecisionLogger.decisions logger'
       = TradingDecisionLogger.decisions logger ++ [entry]).
Proof.
  split; [|split].
  - intros. eexists. reflexivity.
  - intros price add_size new_leverage deviation logger'.
    unfold TradingDecisionLogger.log_scale_decision, pydiv.
    destruct (TradingDecisionLogger.current_position logger); [|intros [= ]].
    destruct (Qeqb _ 0); [intros [= ]|]. cbn [rbind]. intros [= <-].
    eexists. reflexivity.
  - intros position_data logger'. unfold PositionRecovery.log_recovery.
    destruct (Position.entry_price position_data); [|intros [= ]].
    destruct (Position.average_price position_data); [|intros [= ]].
    destruct (Position.size position_data); [|intros [= ]].
    destruct (Position.leverage position_data); [|intros [= ]].
    cbn [subscript rbind]. intros [= <-]. eexists. reflexivity.
Qed.

(** Witness for X19: the recovery record is appended to an empty log. *)
Lemma decision_log_witness :
  exists entry,
    TradingDecisionLogger.decisions Cases.recovered_logger
    = TradingDecisionLogger.decisions (TradingDecisionLogger.init [])
      ++ [entry].
Proof.
  apply (proj2 (proj2 (decision_log_is_append_only
                         (TradingDecisionLogger.init [])
                         "2025-10-30T08:00:00"))
           Scenario.near_cap Cases.recovered_logger).
  reflexivity.
Defined.

(** X20.  A logger that has not seen an entry or a recovery cannot log a
    scale-in: [log_scale_decision] raises [TypeError] on it.  After
    [log_recovery] of a position of size [s] it can: adding [a] with
    [s + a] non-zero returns a logger whose mirror holds the size [s + a],
    the leverage of the new trade and the old entry price. *)
Theorem scale_in_can_be_logged_after_recovery
    (existing : list TradingDecisionLogger.Entry)
    (logger logger' : TradingDecisionLogger.t) (position_data : Position.t)
    (recovered_at now : string) (s price add_size new_leverage deviation : Q) :
  TradingDecisionLogger.log_scale_decision
    (TradingDecisionLogger.init existing) now price add_size new_leverage
    deviation = Raise TypeError /\
  (PositionRecovery.log_recovery logger position_data recovered_at
     = Ok logger' ->
   Position.size position_data = Some s ->
   ~ s + add_size == 0 ->
   exists logger'' mirror,
     TradingDecisionLogger.log_scale_decision logger' now price add_size
       new_leverage deviation = Ok logger'' /\
     TradingDecisionLogger.current_position logger'' = Some mirror /\
     TradingDecisionLogger.size mirror = s + add_size /\
     TradingDecisionLogger.leverage mirror = new_leverage /\
     Some (TradingDecisionLogger.entry_price mirror)
       = Position.entry_price position_data).
Proof.
  split; [reflexivity|].
  unfold PositionRecovery.log_recovery. intros Hrec Hsize Hsum.
  destruct (Position.entry_price position_data) as [e|]; [|discriminate Hrec].
  destruct (Position.average_price position_data) as [a|];
    [|discriminate Hrec].
  rewrite Hsize in Hrec.
  destruct (Position.leverage position_data) as [l|]; [|discriminate Hrec].
  cbn [subscript rbind] in Hrec. injection Hrec as <-.
  unfold TradingDecisionLogger.log_scale_decision, pydiv.
  cbn [TradingDecisionLogger.current_position TradingDecisionLogger.size].
  apply Qeqb_false in Hsum. rewrite Hsum. cbn [rbind].
  eexists _, _. split; [reflexivity|]. split; [reflexivity|].
  repeat split.
Qed.

(** Witness for X20: after the example recovery (0.01 at 5x) a scale-in of
    20 at 4x is logged. *)
Lemma scale_in_after_recovery_witness :
  exists logger'' mirror,
    TradingDecisionLogger.log_scale_decision Cases.recovered_logger
      "2025-10-30T10:00:00" 109000 20 4 (- 2) = Ok logger'' /\
    TradingDecisionLogger.current_position logger'' = Some mirror /\
    TradingDecisionLogger.size mirror = (1 # 100) + 20 /\
    TradingDecisionLogger.leverage mirror = 4 /\
    Some (TradingDecisionLogger.entry_price mirror)
      = Position.entry_price Scenario.near_cap.
Proof.
  apply (proj2 (scale_in_can_be_logged_after_recovery []
                  (TradingDecisionLogger.init []) Cases.recovered_logger
                  Scenario.near_cap "2025-10-30T08:00:00"
                  "2025-10-30T10:00:00" (1 # 100) 109000 20 4 (- 2)));
    [reflexivity | reflexivity | intros H; discriminate H].
Defined.

(** * Further properties of the bot's entries and scale-ins *)

(** A filled scale-in keeps the reference price, the validator and the mode
    of the bot. *)
Lemma check_scale_in_frame self price sentiment order_ok now self' fill :
  check_scale_in self price sentiment order_ok now = Ok (self', Some fill) ->
  last_entry_price self' = last_entry_price self /\
  safety self' = safety self /\
  shadow_mode self' = shadow_mode self.
Proof.
  unfold check_scale_in.
  destruct (position self) as [pos|]; [|intros [= ]].
  destruct (last_entry_price self) as [last_entry|] eqn:Hlast;
    [|intros [= ]].
  cbn [rbind].
  destruct (pydiv (price - last_entry) last_entry) as [deviation|];
    [|intros [= ]].
  cbn [rbind].
  destruct (find_scale_level self deviation 0 TradingConfig.SCALE_LEVELS)
    as [[i level]|]; [|intros [= ]].
  unfold scale_in_at.
  destruct (Qeqb _ 0); [intros [= ]|].
  destruct order_ok; [|intros [= ]].
  destruct (TradingDecisionLogger.log_scale_decision _ _ _ _ _ _);
    [|intros [= ]].
  cbn [rbind].
  destruct (Position.average_price pos); [|intros [= ]].
  cbn [subscript rbind].
  destruct (pydiv _ _); [|intros [= ]].
  cbn [rbind]. intros [= <- _]. cbn. rewrite Hlast. repeat split; reflexivity.
Qed.

(** X21.  A run uses every scale level at most once: the count of scale-ins
    never passes the four levels of the configuration, and the orders of a
    run are at most the entry and one order for each level counted. *)
Theorem run_has_at_most_four_scale_ins (self : LiveFibonacciBot.t)
    (fills : list Fill) :
  Run self fills ->
  (scale_in_count self <= length TradingConfig.SCALE_LEVELS)%nat /\
  (length fills <= 1 + scale_in_count self)%nat.
Proof.
  induction 1 as [self price sentiment claude order_ok now self' fill r _
                    Henter
                 |self fills price sentiment order_ok now self' fill _ IH Hscale].
  - destruct (enter_position_filled _ _ _ _ _ _ _ _ _ Henter)
      as (final & safety' & -> & _).
    cbn. lia.
  - destruct (check_scale_in_filled _ _ _ _ _ _ _ Hscale)
      as (pos & old_avg & desired & add & lev & deviation & logger'
          & _ & _ & _ & _ & _ & _ & _ & _ & _ & _ & _ & _ & _ & _
          & i & Hi & Hcount & _).
    rewrite Hcount, length_app. cbn [length TradingConfig.SCALE_LEVELS] in *.
    lia.
Qed.

(** Witness for X21: the example day, an entry and three scale-ins. *)
Lemma run_has_at_most_four_scale_ins_witness :
  (scale_in_count (Scenario.state Scenario.scaled_3) <= 4)%nat /\
  (length (Scenario.orders [Scenario.entered; Scenario.scaled_1;
                            Scenario.scaled_2; Scenario.scaled_3])
   <= 1 + scale_in_count (Scenario.state Scenario.scaled_3))%nat.
Proof.
  exact (run_has_at_most_four_scale_ins _ _ scenario_scaled_3).
Defined.

(** X22.  [check_scale_in] does nothing while the price is less than 1%
    below the reference price: with a positive [last_entry_price] and a
    price above 99% of it, the call returns [False] and leaves the bot as
    it was, whatever the sentiment and the exchange. *)
Theorem scale_in_needs_a_one_percent_drop (self : LiveFibonacciBot.t)
    (last_entry price : Q) (sentiment : Sentiment) (order_ok : bool)
    (now : string) :
  last_entry_price self = Some last_entry ->
  0 < last_entry ->
  (99 # 100) * last_entry < price ->
  check_scale_in self price sentiment order_ok now = Ok (self, None).
Proof.
  intros Hlast Hpos Hprice. unfold check_scale_in.
  destruct (position self) as [pos|]; [|reflexivity].
  rewrite Hlast. cbn [rbind]. unfold pydiv.
  assert (Hnz : Qeqb last_entry 0 = false).
  { apply Qeqb_false. intros H. rewrite H in Hpos. discriminate Hpos. }
  rewrite Hnz. cbn [rbind].
  assert (Hdev : - (1 # 100) < (price - last_entry) / last_entry).
  { apply Qlt_shift_div_l; [assumption | lra]. }
  set (deviation := (price - last_entry) / last_entry) in *.
  unfold TradingConfig.SCALE_LEVELS. cbn [find_scale_level TradingConfig.deviation].
  repeat match goal with
         | |- context [Qleb deviation ?y] =>
             let H := fresh in
             assert (H : Qleb deviation y = false)
               by (apply Qleb_false; lra);
             rewrite H; clear H
         end.
  reflexivity.
Qed.

(** Witness for X22: after the entry at 100000, at 99500. *)
Lemma scale_in_needs_a_drop_witness :
  check_scale_in (Scenario.state Scenario.entered) 99500 Scenario.neutral
    true "2025-10-29T10:30:00"
  = Ok (Scenario.state Scenario.entered, None).
Proof.
  apply (scale_in_needs_a_one_percent_drop (Scenario.state Scenario.entered)
           100000 99500);
    [reflexivity | reflexivity | reflexivity].
Defined.



(** X24.  Along a run the reference price of the scale levels stays the
    price of the entry: scale-ins move the average price but neither
    [last_entry_price] nor the entry price of the position or of the
    logger's mirror, so every level is measured from the first order.  The
    mirror holds the leverage of the bot, which is the leverage of the
    latest order. *)
Theorem run_measures_drops_from_the_entry (self : LiveFibonacciBot.t)
    (fills : list Fill) :
  Run self fills ->
  exists first rest pos mirror,
    fills = first :: rest /\
    last_entry_price self = Some (fill_price first) /\
    position self = Some pos /\
    Position.entry_price pos = Some (fill_price first) /\
    TradingDecisionLogger.current_position (logger self) = Some mirror /\
    TradingDecisionLogger.entry_price mirror = fill_price first /\
    TradingDecisionLogger.leverage mirror = current_leverage self /\
    Some (current_leverage self) = fill_leverage <$> last fills.
Proof.
  induction 1 as [self price sentiment claude order_ok now self' fill r _
                    Henter
                 |self fills price sentiment order_ok now self' fill _ IH Hscale].
  - destruct (enter_position_filled _ _ _ _ _ _ _ _ _ Henter)
      as (final & safety' & -> & -> & _).
    eexists _, _, _, _. repeat split.
  - destruct IH as (first & rest & pos & mirror & -> & Hlast & Hp & He & Hm
                    & Hme & _).
    destruct (check_scale_in_frame _ _ _ _ _ _ _ Hscale) as (Hlast' & _).
    destruct (check_scale_in_filled _ _ _ _ _ _ _ Hscale)
      as (pos' & old_avg & desired & add & lev & deviation & logger'
          & Hp' & _ & _ & _ & _ & _ & _ & _ & Hlog & -> & _ & Hlev' & Hpos'
          & Hlogger' & _).
    rewrite Hp in Hp'. injection Hp' as <-.
    unfold TradingDecisionLogger.log_scale_decision in Hlog.
    rewrite Hm in Hlog. unfold pydiv in Hlog.
    destruct (Qeqb _ 0) in Hlog; [discriminate Hlog|].
    cbn [rbind] in Hlog. injection Hlog as <-.
    exists first, (rest ++ [ {| fill_price := price; fill_size := add;
                               fill_leverage := lev |} ]).
    eexists _, _. split; [reflexivity|].
    split; [rewrite Hlast'; exact Hlast|].
    split; [exact Hpos'|].
    split; [exact He|].
    rewrite Hlogger'. split; [reflexivity|].
    split; [exact Hme|].
    split; [cbn; symmetry; exact Hlev'|].
    rewrite Hlev', last_snoc. reflexivity.
Qed.

(** Witness for X24: after the three scale-ins of the example day the
    reference is still the entry at 100000. *)
Lemma run_measures_drops_witness :
  last_entry_price (Scenario.state Scenario.scaled_3) = Some 100000.
Proof.
  destruct (run_measures_drops_from_the_entry _ _ scenario_scaled_3)
    as (first & rest & pos & mirror & Hfills & Hlast & _).
  injection Hfills as <- _. exact Hlast.
Defined.

(** X25.  An advisor that cannot be reached blocks every entry.
    [approve_entry] then hands back the default of [ask_for_decision], a
    HOLD without a size; the validator reads the missing size as 0 and
    refuses it, so [enter_position] returns [None], places no order and
    leaves the bot as it was, whatever the bot, the price, the sentiment
    and the exchange.  The algorithmic proposal is not used on this
    path. *)
Theorem unreachable_advisor_blocks_the_entry (self : LiveFibonacciBot.t)
    (price : Q) (sentiment : Sentiment) (error : string) (order_ok : bool)
    (now : string) :
  enter_position self price sentiment
    (Ok (ClaudeSupervisor.ask_for_decision_failed error)) order_ok now
  = {| bot_after := self; order_filled := None; returned := Ok false |}.
Proof.
  unfold enter_position.
  change (TradingConfig.LEVERAGE !! "base") with (Some (3 : Q)).
  cbn [subscript rbind ClaudeSupervisor.ask_for_decision_failed decision
       size_or_amount].
  change (String.eqb "HOLD" "REJECT") with false. cbv iota.
  unfold SafetyValidator.validate_entry, SafetyValidator.ret.
  cbn [size_or_amount]. change (default 0 None) with (0 : Q).
  change (Qltb 0 SafetyValidator.MIN_POSITION_SIZE) with true. cbv iota.
  reflexivity.
Qed.

(** X26.  The orders of a run stay within the limiter's caps: their sizes
    add up to at most 135% of the capital, their notionals (size times the
    leverage of the order) to at most 5.0, and every order has a positive
    size at a leverage between 3x and 5x. *)
Theorem run_orders_stay_within_the_caps (self : LiveFibonacciBot.t)
    (fills : list Fill) :
  Run self fills ->
  sum_size fills <= MAX_CAPITAL_USAGE /\
  sum_notional fills <= MAX_NOTIONAL_EXPOSURE /\
  Forall (fun f => 0 < fill_size f /\
                   3 <= fill_leverage f /\ fill_leverage f <= 5) fills.
Proof.
  intros Hrun.
  destruct (run_invariant self fills Hrun)
    as (_ & _ & _ & _ & _ & _ & _ & Htotal & _ & _ & _ & Hcap).
  split; [rewrite <- Htotal; exact Hcap|].
  split; [exact (proj1 (run_order_notional_within_cap self fills Hrun))|].
  clear Htotal Hcap.
  induction Hrun as [self price sentiment claude order_ok now self' fill r _
                       Henter
                    |self fills price sentiment order_ok now self' fill _ IH
                       Hscale].
  - destruct (enter_position_filled _ _ _ _ _ _ _ _ _ Henter)
      as (final & safety' & _ & -> & Hpos & _).
    apply Forall_singleton. cbn. repeat split; [assumption | lra | lra].
  - destruct (check_scale_in_filled _ _ _ _ _ _ _ Hscale)
      as (pos & old_avg & desired & add & lev & deviation & logger'
          & _ & _ & Hdesired & Hlo & Hhi & Hadd & Hnz & _ & _ & -> & _).
    apply Forall_app. split; [exact IH|].
    apply Forall_singleton. cbn. repeat split; try assumption.
    pose proof (check_exposure_limits_sound self desired lev Hdesired)
      as Hsound.
    cbv zeta in Hsound. rewrite <- Hadd in Hsound.
    destruct Hsound as [H0 | (Hpos & _)]; [|exact Hpos].
    exfalso. apply Hnz. rewrite H0. reflexivity.
Qed.

(** Witness for X26: the four orders of the example day. *)
Lemma run_orders_witness :
  sum_size (Scenario.orders [Scenario.entered; Scenario.scaled_1;
                             Scenario.scaled_2; Scenario.scaled_3])
    <= MAX_CAPITAL_USAGE /\
  sum_notional (Scenario.orders [Scenario.entered; Scenario.scaled_1;
                                 Scenario.scaled_2; Scenario.scaled_3])
    <= MAX_NOTIONAL_EXPOSURE.
Proof.
  destruct (run_orders_stay_within_the_caps _ _ scenario_scaled_3)
    as (Hsize & Hnotional & _).
  split; assumption.
Defined.

(** * Further properties of the entry signal and of the review *)

(** The three bands of [check_entry_conditions] as intervals of the price. *)
Lemma near_golden_pocket_h4 price :
  near_golden_pocket fib_levels_h4 price = true <->
  110905685 # 1000 <= price /\ price <= 11331089 # 100.
Proof.
  unfold near_golden_pocket, fib_levels_h4. cbn [gp_bottom gp_top].
  rewrite andb_true_iff, !Qleb_true. split; intros [H1 H2]; split; lra.
Qed.

Lemma near_golden_pocket_daily price :
  near_golden_pocket fib_levels_daily price = true <->
  10754756 # 100 <= price /\ price <= 11006475 # 100.
Proof.
  unfold near_golden_pocket, fib_levels_daily. cbn [gp_bottom gp_top].
  rewrite andb_true_iff, !Qleb_true. split; intros [H1 H2]; split; lra.
Qed.

Lemma near_the_h4_retracement price distance :
  0 < price ->
  pydiv (TradingDecisionLogger.pyabs (price - fib_50 fib_levels_h4)) price
    = Ok distance ->
  Qltb distance (1 # 100) = true ->
  (100 # 101) * 117430 < price /\ price < (100 # 99) * 117430.
Proof.
  intros Hpos. unfold pydiv.
  destruct (Qeqb price 0); [intros [= ]|]. cbn [rbind]. intros [= <-].
  intros Hnear. apply Qltb_true in Hnear.
  set (a := TradingDecisionLogger.pyabs (price - fib_50 fib_levels_h4)) in *.
  assert (Ha : a == a / price * price) by (field; lra).
  assert (Hlt : a < (1 # 100) * price).
  { rewrite Ha. apply Qmult_lt_compat_r; assumption. }
  clear Ha Hnear. subst a.
  unfold TradingDecisionLogger.pyabs, fib_levels_h4 in Hlt.
  cbn [fib_50] in Hlt.
  destruct (Qltb (price - 117430) 0) eqn:Hside; qprop; split; lra.
Qed.

(** X27.  At a positive price an entry signal comes from one of three
    disjoint bands of the price, and names it: the band around the 4H
    golden pocket (110905.685 to 113310.89), the band around the daily
    golden pocket (107547.56 to 110064.75), where it needs extreme fear,
    very negative funding or a bounce besides, or less than 1% away from
    the 4H 50% level (117430), where it needs a bounce.  Outside them
    [check_entry_conditions] signals nothing, and never while a position
    is held. *)
Theorem entry_signal_comes_from_one_of_three_bands (self : LiveFibonacciBot.t)
    (fib_exit_price : option Q) (price : Q)
    (sentiment_h4 sentiment_daily : Sentiment)
    (candles_h4 candles_daily candles_50 : option (list Q))
    (zone : option string) (confluence : list string) (fib_exit' : option Q) :
  0 < price ->
  check_entry_conditions self fib_exit_price price sentiment_h4
    sentiment_daily candles_h4 candles_daily candles_50
    = Ok ((true, zone, confluence), fib_exit') ->
  position self = None /\
  ((110905685 # 1000 <= price /\ price <= 11331089 # 100 /\
    (zone = Some "4H Golden Pocket" \/
     zone = Some "4H Golden Pocket (Fib Rejection Re-entry)"))
   \/
   (10754756 # 100 <= price /\ price <= 11006475 # 100 /\
    zone = Some "Daily Golden Pocket" /\
    exists fg fr,
      fear_greed sentiment_daily = Some fg /\
      funding_rate sentiment_daily = Some fr /\
      (fg < 30 \/ fr < - (1 # 1000) \/
       bounce_detected self || detect_bounce self candles_daily price = true))
   \/
   ((100 # 101) * 117430 < price /\ price < (100 # 99) * 117430 /\
    zone = Some "4H 50% Retracement" /\
    detect_bounce self candles_50 price = true)).
Proof.
  intros Hpos. unfold check_entry_conditions.
  destruct (position self); [intros [= ]|]. split; [reflexivity|].
  revert H.
  destruct (float_truthy fib_exit_price
            && Qltb price (default 0 fib_exit_price)
            && near_golden_pocket fib_levels_h4 price) eqn:Hre.
  { intros [= <- <- <-]. apply andb_true_iff in Hre. destruct Hre as [_ Hre].
    apply near_golden_pocket_h4 in Hre. left. intuition. }
  clear Hre. unfold check_h4_pocket.
  destruct (near_golden_pocket fib_levels_h4 price) eqn:Hh4.
  - apply near_golden_pocket_h4 in Hh4.
    destruct (fear_greed sentiment_h4) as [fg|]; [|intros [= ]].
    destruct (funding_rate sentiment_h4) as [fr|]; [|intros [= ]].
    destruct (ls_ratio sentiment_h4) as [ls|]; [|intros [= ]].
    cbn [subscript rbind].
    match goal with
    | |- context [Nat.leb 2 (length ?c) || eager_to_enter self] =>
        destruct (Nat.leb 2 (length c) || eager_to_enter self)
    end.
    + cbn [rbind]. intros [= <- <- <-]. left. intuition.
    + cbn [rbind]. unfold check_daily_pocket.
      destruct (near_golden_pocket fib_levels_daily price) eqn:Hdaily.
      { apply near_golden_pocket_daily in Hdaily. exfalso. lra. }
      cbn [rbind].
      destruct (pydiv _ price) as [distance|] eqn:Hdist; [|intros [= ]].
      cbn [rbind].
      destruct (Qltb distance (1 # 100)) eqn:Hnear; [|intros [= ]].
      exfalso.
      pose proof (near_the_h4_retracement price distance Hpos Hdist Hnear).
      lra.
  - cbn [rbind]. unfold check_daily_pocket.
    destruct (near_golden_pocket fib_levels_daily price) eqn:Hdaily.
    + apply near_golden_pocket_daily in Hdaily.
      destruct (fear_greed sentiment_daily) as [fg|]; [|intros [= ]].
      destruct (funding_rate sentiment_daily) as [fr|]; [|intros [= ]].
      cbn [subscript rbind app].
      destruct (Qltb fg 30) eqn:Hfg;
        destruct (Qltb fr (- (1 # 1000))) eqn:Hfr;
        destruct (bounce_detected self || detect_bounce self candles_daily price)
          eqn:Hbounce;
        cbn [app length Nat.leb rbind];
        try (intros [= <- <- <-]; right; left;
             split; [apply Hdaily|]; split; [apply Hdaily|];
             split; [reflexivity|];
             exists fg, fr; split; [reflexivity|]; split; [reflexivity|];
             qprop; tauto).
      destruct (pydiv _ price) as [distance|] eqn:Hdist; [|intros [= ]].
      cbn [rbind].
      destruct (Qltb distance (1 # 100)) eqn:Hnear; [|intros [= ]].
      exfalso.
      pose proof (near_the_h4_retracement price distance Hpos Hdist Hnear).
      lra.
    + cbn [rbind].
      destruct (pydiv _ price) as [distance|] eqn:Hdist; [|intros [= ]].
      cbn [rbind].
      destruct (Qltb distance (1 # 100)) eqn:Hnear; [|intros [= ]].
      cbn [andb].
      destruct (detect_bounce self candles_50 price) eqn:Hbounce;
        intros [= <- <- <-].
      right; right.
      pose proof (near_the_h4_retracement price distance Hpos Hdist Hnear).
      intuition.
Qed.

(** Witness for X27: a flat bot at 112000, inside the 4H band. *)
Lemma entry_signal_witness :
  position Scenario.flat = None /\
  ((110905685 # 1000 <= 112000 /\ 112000 <= 11331089 # 100 /\
    (Some "4H Golden Pocket" = Some "4H Golden Pocket" \/
     Some "4H Golden Pocket"
       = Some "4H Golden Pocket (Fib Rejection Re-entry)"))
   \/
   (10754756 # 100 <= 112000 /\ 112000 <= 11006475 # 100 /\
    Some "4H Golden Pocket" = Some "Daily Golden Pocket" /\
    exists fg fr,
      fear_greed Cases.calm = Some fg /\
      funding_rate Cases.calm = Some fr /\
      (fg < 30 \/ fr < - (1 # 1000) \/
       bounce_detected Scenario.flat
       || detect_bounce Scenario.flat None 112000 = true))
   \/
   ((100 # 101) * 117430 < 112000 /\ 112000 < (100 # 99) * 117430 /\
    Some "4H Golden Pocket" = Some "4H 50% Retracement" /\
    detect_bounce Scenario.flat None 112000 = true)).
Proof.
  apply (entry_signal_comes_from_one_of_three_bands Scenario.flat None 112000
           Cases.calm Cases.calm None None None (Some "4H Golden Pocket")
           ["In/Near 4H Golden Pocket"; "Price bounce detected"] None);
    [reflexivity | vm_compute; reflexivity].
Defined.

(** X28.  A flat bot that is eager to enter (as a bot started flat is
    until its first entry) signals an entry at every price of the 4H band, whatever
    the sentiment and the candles say, provided the snapshot has its three
    keys.  When the snapshot lacks ['fear_greed'], and no re-entry is
    pending, the call raises [KeyError] instead. *)
Theorem eager_bot_signals_in_the_4h_band (self : LiveFibonacciBot.t)
    (fib_exit_price : option Q) (price : Q)
    (sentiment_h4 sentiment_daily : Sentiment)
    (candles_h4 candles_daily candles_50 : option (list Q)) :
  position self = None ->
  near_golden_pocket fib_levels_h4 price = true ->
  (eager_to_enter self = true ->
   is_Some (fear_greed sentiment_h4) ->
   is_Some (funding_rate sentiment_h4) ->
   is_Some (ls_ratio sentiment_h4) ->
   exists zone confluence fib_exit',
     check_entry_conditions self fib_exit_price price sentiment_h4
       sentiment_daily candles_h4 candles_daily candles_50
       = Ok ((true, zone, confluence), fib_exit')) /\
  (float_truthy fib_exit_price = false ->
   fear_greed sentiment_h4 = None ->
   check_entry_conditions self fib_exit_price price sentiment_h4
     sentiment_daily candles_h4 candles_daily candles_50
     = Raise (KeyError "fear_greed")).
Proof.
  intros Hflat Hband. unfold check_entry_conditions, check_h4_pocket.
  rewrite Hflat, Hband. split.
  - intros Heager [fg ->] [fr ->] [ls ->].
    destruct (float_truthy fib_exit_price
              && Qltb price (default 0 fib_exit_price) && true);
      [eexists _, _, _; reflexivity|].
    cbn [subscript rbind]. rewrite Heager, orb_true_r. cbn [rbind].
    eexists _, _, _. reflexivity.
  - intros -> ->. reflexivity.
Qed.

(** Witness for X28: the fresh bot at 112000 under a calm market. *)
Lemma eager_bot_witness :
  exists zone confluence fib_exit',
    check_entry_conditions Scenario.flat None 112000 Cases.calm Cases.calm
      None None None
    = Ok ((true, zone, confluence), fib_exit').
Proof.
  apply (proj1 (eager_bot_signals_in_the_4h_band Scenario.flat None 112000
                  Cases.calm Cases.calm None None None eq_refl eq_refl));
    [reflexivity | eexists; reflexivity | eexists; reflexivity
     | eexists; reflexivity].
Defined.

(** X29.  The 20-minute review places no order.  For an ADD of [a] the
    position, its size, its leverage and the decision log stay as they
    were; the validator either refuses and stays as it was, or records one
    ADD in its ledger, of [a] capped at 5%. *)
Theorem review_records_an_add_without_trading (self : LiveFibonacciBot.t)
    (pos : Position.t) (price : Q) (review_decision : Decision) (a : Q)
    (today : string) (now : Q) (today' stamp : string) (now' : Q) :
  decision review_decision = "ADD" ->
  size_or_amount review_decision = Some a ->
  let self' :=
    run_cycle_review self pos price (Ok review_decision) today now today'
      stamp now' in
  position self' = position self /\
  total_position_size self' = total_position_size self /\
  current_leverage self' = current_leverage self /\
  logger self' = logger self /\
  (safety self' = safety self \/
   safety self'
   = snd (SafetyValidator.log_adjustment today' stamp now' "ADD"
            (if Qgtb a SafetyValidator.MAX_ADD_PER_REVIEW
             then SafetyValidator.MAX_ADD_PER_REVIEW else a)
            (safety self))).
Proof.
  intros Hadd Hamount. cbv zeta. unfold run_cycle_review.
  rewrite Hadd. change (String.eqb "ADD" "ADD") with true. cbv iota.
  unfold SafetyValidator.validate_adjustment, SafetyValidator.bind,
    SafetyValidator.gets, SafetyValidator.ret.
  destruct (Nat.leb _ _); [cbn; repeat split; left; reflexivity|].
  destruct (Qltb _ 1800 && Qgtb _ 0);
    [cbn; repeat split; left; reflexivity|].
  unfold SafetyValidator.check_add, SafetyValidator.check_reduce.
  rewrite Hadd, Hamount.
  change (String.eqb "ADD" "ADD") with true.
  change (String.eqb "ADD" "REDUCE") with false.
  change (default 0 (Some a)) with a. cbv iota.
  destruct (Qgtb a SafetyValidator.MAX_ADD_PER_REVIEW).
  { cbn. repeat split. right. reflexivity. }
  destruct (Qgtb _ SafetyValidator.MAX_TOTAL_NOTIONAL);
    [cbn; repeat split; left; reflexivity|].
  cbn [SafetyValidator.approved SafetyValidator.adjusted fst snd].
  rewrite Hamount. cbn [subscript]. cbn. repeat split. right. reflexivity.
Qed.

(** Witness for X29: a review asking for 3% more on the example position. *)
Lemma review_records_an_add_witness :
  total_position_size
    (run_cycle_review Scenario.stretched Scenario.near_cap 110000
       (Ok (Scenario.add (3 # 100))) "2025-10-30" 5000 "2025-10-30"
       "2025-10-30T09:00:00" 5001)
  = total_position_size Scenario.stretched.
Proof.
  apply (review_records_an_add_without_trading Scenario.stretched
           Scenario.near_cap 110000 (Scenario.add (3 # 100)) (3 # 100)
           "2025-10-30" 5000 "2025-10-30" "2025-10-30T09:00:00" 5001);
    reflexivity.
Defined.
